(** * Water kiosk hardware server: dispense verification and database proxy

    A shallow embedding of [water_kiosk_hardware_server.py] and the
    properties of its verification and proxy logic.

    - Python values that come out of [json.loads] / [request.get_json] are
      the inductive type [pyval]; a [dict] is the list of its items in
      insertion order (keys pairwise distinct), a [str] is the string of its
      UTF-8 bytes, a lone surrogate being written as the three bytes its
      code point would take (a [str] with one cannot be encoded), a finite
      [float] is the rational it denotes.
    - The handlers run in a state-and-exception monad: the state holds the
      outside world (backend, clock, random generator) and the list of the
      HTTP requests sent to the backend so far; a raised exception keeps the
      effects that happened before it. *)

From Stdlib Require Import Bool Arith ZArith QArith Lia List.
From Stdlib Require Import Ascii String DecimalString.
Import ListNotations.

Local Open Scope string_scope.
Local Open Scope Z_scope.

(* ===================================================================== *)
(** * Python values *)
(* ===================================================================== *)

Module Py.

(** A Python [float]: a finite double (as the rational number it denotes,
    so that -0.0 and 0.0 coincide, which [==] and [bool()] cannot tell
    apart either), an infinity or a NaN. *)
Inductive pyfloat : Type :=
| FFinite (q : Q)
| FInfinity (negative : bool)
| FNaN.

#[warnings="-register-all"]
Inductive pyval : Type :=
| PNone
| PBool (b : bool)
| PInt (n : Z)
| PFloat (f : pyfloat)
| PStr (s : string)
| PList (l : list pyval)
| PDict (d : list (string * pyval)).

Definition pydict : Type := list (string * pyval).

(** [bool(v)], the truth value used by [if v], [not v] and [all]. *)
Definition truthy (v : pyval) : bool :=
  match v with
  | PNone => false
  | PBool b => b
  | PInt n => negb (n =? 0)
  | PFloat (FFinite q) => negb (Qeq_bool q 0)
  | PFloat _ => true
  | PStr s => negb (String.eqb s EmptyString)
  | PList l => match l with [] => false | _ => true end
  | PDict d => match d with [] => false | _ => true end
  end.

(** [all([...])] *)
Definition py_all (vs : list pyval) : bool := forallb truthy vs.

(** [d.get(k, default)] and [d.get(k)] on a dict. *)
Fixpoint dict_lookup (k : string) (d : pydict) : option pyval :=
  match d with
  | [] => None
  | (k', v) :: d' => if String.eqb k k' then Some v else dict_lookup k d'
  end.

Definition dict_get_default (k : string) (default : pyval) (d : pydict) : pyval :=
  match dict_lookup k d with
  | Some v => v
  | None => default
  end.

Definition dict_get (k : string) (d : pydict) : pyval :=
  dict_get_default k PNone d.

(** [d[k] = v]: overwrite in place, or append a new item. *)
Fixpoint dict_set (k : string) (v : pyval) (d : pydict) : pydict :=
  match d with
  | [] => [(k, v)]
  | (k', v') :: d' =>
      if String.eqb k k' then (k', v) :: d' else (k', v') :: dict_set k v d'
  end.

Definition dict_keys (d : pydict) : list string := map fst d.

(** The number a [bool], [int] or [float] stands for in a comparison. *)
Definition as_number (v : pyval) : option pyfloat :=
  match v with
  | PBool b => Some (FFinite (if b then 1 else 0)%Q)
  | PInt n => Some (FFinite (inject_Z n))
  | PFloat f => Some f
  | _ => None
  end.

Definition float_eq (x y : pyfloat) : bool :=
  match x, y with
  | FFinite p, FFinite q => Qeq_bool p q
  | FInfinity a, FInfinity b => Bool.eqb a b
  | _, _ => false
  end.

(** Equality on values decoded from JSON.  Numbers (with [bool] among
    them) compare by value, strings and lists by content, dicts by their
    items whatever the order; values of different kinds are unequal.  A NaN
    is not equal to itself under [==], but the items of two lists and the
    values of two dicts are compared as [x is y or x == y], and every NaN
    that [json.loads] returns is one and the same object: so with
    [nested = true], the comparison of an item, a NaN equals a NaN. *)
Fixpoint py_eq_at (nested : bool) (a b : pyval) {struct a} : bool :=
  match a, b with
  | PNone, PNone => true
  | PStr s, PStr t => String.eqb s t
  | PList l, PList m =>
      (fix list_eq (l : list pyval) (m : list pyval) {struct l} : bool :=
         match l, m with
         | [], [] => true
         | x :: l', y :: m' => py_eq_at true x y && list_eq l' m'
         | _, _ => false
         end) l m
  | PDict d, PDict e =>
      Nat.eqb (List.length d) (List.length e) &&
      (fix items_eq (d : pydict) {struct d} : bool :=
         match d with
         | [] => true
         | (k, v) :: d' =>
             match dict_lookup k e with
             | Some w => py_eq_at true v w
             | None => false
             end && items_eq d'
         end) d
  | PFloat FNaN, PFloat FNaN => nested
  | (PBool _ | PInt _ | PFloat _), (PBool _ | PInt _ | PFloat _) =>
      match as_number a, as_number b with
      | Some x, Some y => float_eq x y
      | _, _ => false
      end
  | _, _ => false
  end.

(** [a == b] *)
Definition py_eq (a b : pyval) : bool := py_eq_at false a b.

(** [type(v).__name__] *)
Definition type_name (v : pyval) : string :=
  match v with
  | PNone => "NoneType"
  | PBool _ => "bool"
  | PInt _ => "int"
  | PFloat _ => "float"
  | PStr _ => "str"
  | PList _ => "list"
  | PDict _ => "dict"
  end.

End Py.
Import Py.

(* ===================================================================== *)
(** * String methods and URL quoting *)
(* ===================================================================== *)

Module Str.

(** [s.startswith(p)] *)
Definition startswith (p s : string) : bool := String.prefix p s.

(** [s.lstrip('0')] *)
Fixpoint lstrip (c : ascii) (s : string) : string :=
  match s with
  | String a s' => if Ascii.eqb a c then lstrip c s' else s
  | EmptyString => EmptyString
  end.

(** [s.replace(old, new)] for a non-empty [old]: every occurrence of [old],
    found from left to right without overlap, becomes [new].  [skip] counts
    the characters of the occurrence being replaced that are still to be
    dropped. *)
Fixpoint replace_from (old new : string) (skip : nat) (s : string) : string :=
  match s with
  | EmptyString => EmptyString
  | String a s' =>
      match skip with
      | S k => replace_from old new k s'
      | O =>
          if String.prefix old s
          then new ++ replace_from old new (Nat.pred (String.length old)) s'
          else String a (replace_from old new O s')
      end
  end.

Definition replace (old new s : string) : string := replace_from old new O s.

(** [old in s] *)
Fixpoint contains (old s : string) : bool :=
  String.prefix old s ||
  match s with
  | EmptyString => false
  | String _ s' => contains old s'
  end.

(** The double-quote character and the one-character string holding it. *)
Definition dquote_char : ascii := ascii_of_nat 34.
Definition dquote : string := String dquote_char EmptyString.

(** A byte of the form 10xxxxxx continues a UTF-8 character. *)
Definition utf8_continuation (a : ascii) : bool :=
  let n := nat_of_ascii a in ((128 <=? n) && (n <? 192))%nat.

(** The characters of a string, each as the string of its UTF-8 bytes.
    [cur] holds the bytes of the character being read. *)
Fixpoint utf8_chars_from (cur : string) (s : string) : list string :=
  match s with
  | EmptyString =>
      match cur with EmptyString => [] | _ => [cur] end
  | String a s' =>
      if utf8_continuation a
      then utf8_chars_from (cur ++ String a EmptyString) s'
      else
        match cur with
        | EmptyString => utf8_chars_from (String a EmptyString) s'
        | _ => cur :: utf8_chars_from (String a EmptyString) s'
        end
  end.

Definition utf8_chars (s : string) : list string := utf8_chars_from EmptyString s.

(** ['&'.join(parts)] *)
Fixpoint join (sep : string) (parts : list string) : string :=
  match parts with
  | [] => EmptyString
  | [p] => p
  | p :: rest => p ++ sep ++ join sep rest
  end.

(** Upper-case hexadecimal digit of a number below 16. *)
Definition hex_digit (n : nat) : ascii :=
  if (n <? 10)%nat then ascii_of_nat (48 + n) else ascii_of_nat (55 + n).

(** The bytes [urllib.parse.quote] leaves alone with its default
    [safe='/']: ASCII letters, digits, and [_.-~/]. *)
Definition quote_safe (a : ascii) : bool :=
  let n := nat_of_ascii a in
  ((65 <=? n) && (n <=? 90) || (97 <=? n) && (n <=? 122) ||
   (48 <=? n) && (n <=? 57) ||
   (n =? 95) || (n =? 46) || (n =? 45) || (n =? 126) || (n =? 47))%nat.

Definition quote_byte (a : ascii) : string :=
  if quote_safe a then String a EmptyString
  else
    let n := nat_of_ascii a in
    String "%" (String (hex_digit (n / 16)) (String (hex_digit (n mod 16)) EmptyString)).

(** [urllib.parse.quote_from_bytes(bs)] *)
Fixpoint quote_from_bytes (bs : string) : string :=
  match bs with
  | EmptyString => EmptyString
  | String a bs' => quote_byte a ++ quote_from_bytes bs'
  end.

(** The str holds a surrogate code point: the byte 0xED followed by a
    byte from 0xA0 on (in UTF-8 proper 0xED is followed by 0x80..0x9F). *)
Fixpoint has_surrogate (s : string) : bool :=
  match s with
  | EmptyString => false
  | String a s' =>
      match s' with
      | EmptyString => false
      | String b _ =>
          ((nat_of_ascii a =? 237) && (160 <=? nat_of_ascii b))%nat
          || has_surrogate s'
      end
  end.

(** [s.encode('utf-8')]: the bytes of [s], or nothing when a surrogate
    makes the codec raise UnicodeEncodeError. *)
Definition encode_utf8 (s : string) : option string :=
  if has_surrogate s then None else Some s.

(** [urllib.parse.quote(s)] on a str: the quoted bytes, or nothing when
    [s] cannot be encoded. *)
Definition quote (s : string) : option string :=
  match encode_utf8 s with
  | Some bs => Some (quote_from_bytes bs)
  | None => None
  end.

End Str.

(* ===================================================================== *)
(** * Effects: exceptions, the backend, the clock and the random source *)
(* ===================================================================== *)

(** A raised Python exception: its class and [str(e)]. *)
Record exn : Type := Raise { exn_class : string; exn_message : string }.

Definition AttributeError (v : pyval) (attr : string) : exn :=
  Raise "AttributeError"
        ("'" ++ type_name v ++ "' object has no attribute '" ++ attr ++ "'").

Definition TypeError (msg : string) : exn := Raise "TypeError" msg.

Definition KeyError (shown_key : string) : exn := Raise "KeyError" shown_key.

Definition IndexError (msg : string) : exn := Raise "IndexError" msg.

Definition UnicodeEncodeError (msg : string) : exn := Raise "UnicodeEncodeError" msg.

(** [urllib.request.Request(url, data, headers, method)] together with the
    [timeout] given to [urlopen]. *)
Record request : Type := Request {
  req_method : string;
  req_url : string;
  req_headers : list (string * string);
  req_data : option string;
  req_timeout : Z
}.

(** What a successful [urlopen] followed by
    [json.loads(response.read().decode('utf-8'))] yields. *)
Record http_reply : Type := HttpReply {
  reply_status : Z;
  reply_json : pyval
}.

(** What a Flask view returns: the JSON body and the HTTP status. *)
Definition flask_reply : Type := (pyval * Z)%type.

Module Eff.
Section Monad.

Variable World : Type.

(** The state threaded through a handler: the outside world and the
    requests sent to the backend so far, oldest first. *)
Record State : Type := MkState {
  world : World;
  sent : list request
}.

Definition M (A : Type) : Type := State -> (exn + A) * State.

Definition ret {A} (a : A) : M A := fun st => (inr a, st).

Definition bind {A B} (m : M A) (k : A -> M B) : M B :=
  fun st =>
    match m st with
    | (inr a, st') => k a st'
    | (inl e, st') => (inl e, st')
    end.

Definition raise {A} (e : exn) : M A := fun st => (inl e, st).

(** [try: m  except Exception as e: handler(e)] *)
Definition try_except {A} (m : M A) (handler : exn -> M A) : M A :=
  fun st =>
    match m st with
    | (inr a, st') => (inr a, st')
    | (inl e, st') => handler e st'
    end.

(** An effect that only reads or advances the world. *)
Definition lift_world {A} (f : World -> A * World) : M A :=
  fun st =>
    let (a, w') := f (world st) in
    (inr a, MkState w' (sent st)).

(** Sending [r] to the backend: the request is recorded, the world
    answers with a decoded reply or with an exception. *)
Definition send (backend : request -> World -> (exn + http_reply) * World)
           (r : request) : M http_reply :=
  fun st =>
    let (res, w') := backend r (world st) in
    (res, MkState w' (sent st ++ [r])).

End Monad.

Arguments MkState {World}.
Arguments world {World}.
Arguments sent {World}.
Arguments ret {World A}.
Arguments bind {World A B}.
Arguments raise {World A}.
Arguments try_except {World A}.
Arguments lift_world {World A}.
Arguments send {World}.

End Eff.
Import Eff.

Declare Scope py_scope.
Delimit Scope py_scope with py.
Notation "x <- m ;; k" := (bind m (fun x => k))
  (at level 61, m at next level, right associativity) : py_scope.
Notation "' pat <- m ;; k" := (bind m (fun x => match x with pat => k end))
  (at level 61, pat pattern, m at next level, right associativity) : py_scope.
Local Open Scope py_scope.

(* ===================================================================== *)
(** * Operations on values that can raise *)
(* ===================================================================== *)

Module Op.
Section Ops.

Context {World : Type}.
Local Abbreviation M := (Eff.M World).

(** [v.get(k, default)]: only a dict has a [get]. *)
Definition py_get_default (v : pyval) (k : string) (default : pyval) : M pyval :=
  match v with
  | PDict d => ret (dict_get_default k default d)
  | _ => raise (AttributeError v "get")
  end.

(** [v.get(k)] *)
Definition py_get (v : pyval) (k : string) : M pyval :=
  py_get_default v k PNone.

(** [d[k]] on a dict built by the program itself. *)
Definition dict_getitem (d : pydict) (k : string) : M pyval :=
  match dict_lookup k d with
  | Some v => ret v
  | None => raise (KeyError ("'" ++ k ++ "'"))
  end.

(** [v[k]] with a string key: a dict looks the key up, a list or a str
    wants an integer, anything else cannot be subscripted. *)
Definition py_getitem (v : pyval) (k : string) : M pyval :=
  match v with
  | PDict d => dict_getitem d k
  | PList _ => raise (TypeError "list indices must be integers or slices, not str")
  | PStr _ => raise (TypeError "string indices must be integers, not 'str'")
  | _ => raise (TypeError ("'" ++ type_name v ++ "' object is not subscriptable"))
  end.

(** [len(v)] *)
Definition py_len (v : pyval) : M nat :=
  match v with
  | PStr s => ret (List.length (Str.utf8_chars s))
  | PList l => ret (List.length l)
  | PDict d => ret (List.length d)
  | _ => raise (TypeError ("object of type '" ++ type_name v ++ "' has no len()"))
  end.

(** [v[0]]; the keys of a decoded JSON object are strings, so [0] is
    never among them. *)
Definition py_index0 (v : pyval) : M pyval :=
  match v with
  | PList (x :: _) => ret x
  | PList [] => raise (IndexError "list index out of range")
  | PStr s =>
      match Str.utf8_chars s with
      | c :: _ => ret (PStr c)
      | [] => raise (IndexError "string index out of range")
      end
  | PDict _ => raise (KeyError "0")
  | _ => raise (TypeError ("'" ++ type_name v ++ "' object is not subscriptable"))
  end.

(** The values [for q in v] runs through. *)
Definition py_iter (v : pyval) : M (list pyval) :=
  match v with
  | PList l => ret l
  | PStr s => ret (map PStr (Str.utf8_chars s))
  | PDict d => ret (map PStr (dict_keys d))
  | _ => raise (TypeError ("'" ++ type_name v ++ "' object is not iterable"))
  end.

(** [urllib.parse.quote(s)] on a str; [encode_error_text s] is the text
    of the UnicodeEncodeError raised when [s] cannot be encoded. *)
Definition quote_str (encode_error_text : string -> string) (s : string) : M string :=
  match Str.quote s with
  | Some quoted => ret quoted
  | None => raise (UnicodeEncodeError (encode_error_text s))
  end.

(** [urllib.parse.quote(v)] *)
Definition py_quote (encode_error_text : string -> string) (v : pyval) : M string :=
  match v with
  | PStr s => quote_str encode_error_text s
  | _ => raise (TypeError "quote_from_bytes() expected bytes")
  end.

(** [[f(x) for x in xs]] where [f] can raise. *)
Fixpoint map_m {A B} (f : A -> M B) (xs : list A) : M (list B) :=
  match xs with
  | [] => ret []
  | x :: xs' =>
      y <- f x ;;
      ys <- map_m f xs' ;;
      ret (y :: ys)
  end.

End Ops.
End Op.
Import Op.

(* ===================================================================== *)
(** * A small concrete world, for running the handlers *)
(* ===================================================================== *)

Module Demo.

(** The world counts the clock and random reads made so far. *)
Definition World : Type := nat.

Definition customer : pydict :=
  [ ("phone_number", PStr "+254712345678");
    ("pin", PStr "4455");
    ("is_registered", PBool true);
    ("active", PBool true);
    ("account_id", PStr "ACC-0042");
    ("full_name", PStr "Amina Otieno");
    ("credits", PInt 12) ].

Definition documents_reply (docs : list pyval) : http_reply :=
  HttpReply 200
    (PDict [ ("total", PInt (Z.of_nat (List.length docs)));
             ("documents", PList docs) ]).

(** A backend holding the single record [customer]: a query for its
    phone number (URL-quoted in the request) lists it, any other query
    lists nothing. *)
Definition backend_up (r : request) (w : World) : (exn + http_reply) * World :=
  if Str.contains "%22%2B254712345678%22" (req_url r)
  then (inr (documents_reply [PDict customer]), w)
  else (inr (documents_reply []), w).

(** A backend that cannot be reached. *)
Definition backend_down (r : request) (w : World) : (exn + http_reply) * World :=
  (inl (Raise "URLError" "<urlopen error [Errno 111] Connection refused>"), w).

(** A backend whose replies are JSON, but not objects. *)
Definition backend_garbled (r : request) (w : World) : (exn + http_reply) * World :=
  (inr (HttpReply 200 (PList [])), w).

(** A backend without the collection asked for: [urlopen] raises the
    HTTPError of the 404. *)
Definition backend_not_found (r : request) (w : World) : (exn + http_reply) * World :=
  (inl (Raise "HTTPError" "HTTP Error 404: Not Found"), w).

(** A backend that answers 201 with the stored document. *)
Definition backend_created (r : request) (w : World) : (exn + http_reply) * World :=
  (inr (HttpReply 201 (PDict [ ("$id", PStr "doc-1"); ("credits", PInt 5) ])), w).

(** A backend that answers 201 with an object without identifier. *)
Definition backend_created_bare (r : request) (w : World) : (exn + http_reply) * World :=
  (inr (HttpReply 201 (PDict [ ("credits", PInt 5) ])), w).

(** A backend that lists two collections. *)
Definition backend_collections (r : request) (w : World) : (exn + http_reply) * World :=
  (inr (HttpReply 200
          (PDict [ ("total", PInt 2);
                   ("collections",
                    PList [ PDict [ ("$id", PStr "c1"); ("name", PStr "customers") ];
                            PDict [ ("$id", PStr "c2"); ("name", PStr "kiosks") ] ]) ])),
   w).

Definition random_half (w : World) : Q * World := (1 # 2, S w).

Definition now_noon (w : World) : string * World :=
  ("2025-01-01T12:00:00.000000", S w).

Definition json_dumps_null (v : pyval) : string := "null".

(** The str made of the lone surrogate U+D800. *)
Definition lone_surrogate : string :=
  String (ascii_of_nat 237) (String (ascii_of_nat 160) (String (ascii_of_nat 128) EmptyString)).

(** The text of the UnicodeEncodeError for [lone_surrogate], used for
    every str. *)
Definition encode_error_text (s : string) : string :=
  "'utf-8' codec can't encode character '\ud800' in position 0: surrogates not allowed".

Definition str_of_value_none (v : pyval) : string := "None".

Definition state0 : State World := MkState 0%nat [].

Definition good_request : pydict :=
  [ ("kiosk_id", PStr "K1");
    ("user_id", PStr "+254712345678");
    ("pin", PStr "4455");
    ("volume_ml", PInt 500) ].

Definition create_request_body : pydict :=
  [ ("collection", PStr "customers");
    ("document_data", PDict [ ("phone_number", PStr "+254700000001") ]);
    ("request_id", PStr "req-7") ].

Definition update_request_body : pydict :=
  [ ("collection", PStr "customers");
    ("document_id", PStr "doc-1");
    ("document_data", PDict [ ("credits", PInt 5) ]);
    ("request_id", PStr "req-8") ].

End Demo.

(* ===================================================================== *)
(** * The server *)
(* ===================================================================== *)

Module Server.
Section Server.

(** Configuration, read once from the environment at start-up. *)
Variable APPWRITE_PROJECT_ID : string.
Variable APPWRITE_DATABASE_ID : string.
Variable APPWRITE_API_KEY : string.
Variable CUSTOMERS_COLLECTION_ID : string.
Variable APPWRITE_ENDPOINT : string.

(** The outside world.  [urlopen_json r] stands for
    [urllib.request.urlopen(r, timeout)] followed by
    [json.loads(response.read().decode('utf-8'))]: it raises (connection
    failure, timeout, HTTP error, undecodable body) or yields the status
    and the decoded body.  [random_random] is [random.random()], a float in
    [0, 1) given as the rational it denotes; [now_isoformat] is
    [datetime.now().isoformat()]. *)
Variable World : Type.
Variable urlopen_json : request -> World -> (exn + http_reply) * World.
Variable random_random : World -> Q * World.
Variable now_isoformat : World -> string * World.

(** [json.dumps(v)], and [str(v)] as an f-string formats a value that is
    not a string. *)
Variable json_dumps : pyval -> string.
Variable str_of_value : pyval -> string.

(** [str(e)] of the UnicodeEncodeError that [s.encode('utf-8')] raises on a
    str that holds a surrogate. *)
Variable encode_error_text : string -> string.

Local Abbreviation M := (Eff.M World).

Definition urlopen (r : request) : M http_reply := send urlopen_json r.
Definition random : M Q := lift_world random_random.
Definition now : M string := lift_world now_isoformat.

(** [f'{v}'] *)
Definition format_value (v : pyval) : string :=
  match v with
  | PStr s => s
  | _ => str_of_value v
  end.

Definition appwrite_headers : list (string * string) :=
  [ ("X-Appwrite-Project", APPWRITE_PROJECT_ID);
    ("X-Appwrite-Key", APPWRITE_API_KEY);
    ("Content-Type", "application/json") ].

(** ** [lookup_customer_by_phone] *)

(** The list [phone_variants] built from a [str] phone number. *)
Definition phone_variants (phone_number : string) : list string :=
  [ phone_number;
    Str.replace "+254" "0" phone_number;
    Str.replace "+254" "254" phone_number;
    Str.replace "+254" EmptyString phone_number;
    if negb (Str.startswith "+" phone_number)
    then "+254" ++ Str.lstrip "0" phone_number
    else phone_number ].

(** [f'equal("phone_number","{variant}")'] *)
Definition lookup_query (variant : string) : string :=
  "equal(" ++ Str.dquote ++ "phone_number" ++ Str.dquote ++ "," ++
  Str.dquote ++ variant ++ Str.dquote ++ ")".

(** The URL of line 359; quoting the query can raise. *)
Definition lookup_url (variant : string) : M string :=
  quoted <- quote_str encode_error_text (lookup_query variant) ;;
  ret (APPWRITE_ENDPOINT ++ "/databases/" ++ APPWRITE_DATABASE_ID ++
       "/collections/" ++ CUSTOMERS_COLLECTION_ID ++
       "/documents?queries[]=" ++ quoted).

(** Lines 358 to 369: the query for one candidate, sent to the backend,
    and its decoded answer. *)
Definition fetch (variant : string) : M http_reply :=
  url <- lookup_url variant ;;
  urlopen (Request "GET" url appwrite_headers None 5).

(** The dict returned when no variant matched. *)
Definition lookup_not_found : pydict :=
  [ ("found", PBool false);
    ("valid_pin", PBool false);
    ("is_registered", PBool false);
    ("active", PBool false) ].

(** The body of [if data.get('documents') and len(...) > 0:]. *)
Definition lookup_found (docs pin : pyval) : M pydict :=
  customer <- py_index0 docs ;;
  stored_pin <- py_get customer "pin" ;;
  let pin_match := py_eq stored_pin pin in
  registered <- py_get customer "is_registered" ;;
  let is_registered := py_eq registered (PBool true) in
  activated <- py_get customer "active" ;;
  let active := py_eq activated (PBool true) in
  c_phone <- py_get customer "phone_number" ;;
  c_account <- py_get customer "account_id" ;;
  c_name <- py_get customer "full_name" ;;
  c_active <- py_get customer "active" ;;
  c_credits <- py_get_default customer "credits" (PInt 0) ;;
  ret [ ("found", PBool true);
        ("valid_pin", PBool pin_match);
        ("is_registered", PBool is_registered);
        ("active", PBool active);
        ("customer_data",
         PDict [ ("phone_number", c_phone);
                 ("account_id", c_account);
                 ("full_name", c_name);
                 ("active", c_active);
                 ("credits", c_credits) ]) ].

(** [data.get('documents') and len(data['documents']) > 0] *)
Definition has_documents (data : pyval) : M bool :=
  docs <- py_get data "documents" ;;
  if truthy docs then
    docs' <- py_getitem data "documents" ;;
    n <- py_len docs' ;;
    ret (0 <? n)%nat
  else ret false.

(** [for variant in phone_variants: ...] and the code after the loop. *)
Fixpoint lookup_loop (variants : list string) (pin : pyval) : M pydict :=
  match variants with
  | [] => ret lookup_not_found
  | variant :: rest =>
      response <- fetch variant ;;
      let data := reply_json response in
      matched <- has_documents data ;;
      if matched then
        docs <- py_getitem data "documents" ;;
        lookup_found docs pin
      else lookup_loop rest pin
  end.

Definition lookup_customer_by_phone (phone_number pin : pyval) : M pydict :=
  try_except
    (match phone_number with
     | PStr p => lookup_loop (phone_variants p) pin
     | _ => raise (AttributeError phone_number "replace")
     end)
    (fun e => raise e).

(** ** [dispense_verification] *)

Definition no_json_reply : flask_reply :=
  (PDict [ ("error", PStr "No JSON data provided") ], 400).

Definition invalid_request_reply : flask_reply :=
  (PDict [ ("error", PStr "Missing required fields: kiosk_id, user_id (phone_number), pin");
           ("approved", PBool false);
           ("reason", PStr "Invalid request format") ], 400).

Definition server_error_reply (e : exn) (timestamp : string) : flask_reply :=
  (PDict [ ("error", PStr (exn_message e));
           ("type", PStr "server_error");
           ("approved", PBool false);
           ("reason", PStr "Server error occurred");
           ("timestamp", PStr timestamp) ], 500).

(** The double written [0.9] in the source:
    8106479329266893 / 2^53. *)
Definition float_0_9 : Q := 8106479329266893 # 9007199254740992.

(** [x < y] on finite floats. *)
Definition float_lt (x y : Q) : bool := negb (Qle_bool y x).

(** The [if user_lookup['found']: ... else: ...] cascade; yields
    [(approved, reason, user_data)]. *)
Definition decide (user_lookup : pydict) : M (bool * string * pyval) :=
  found <- dict_getitem user_lookup "found" ;;
  if truthy found then
    is_registered <- dict_getitem user_lookup "is_registered" ;;
    if negb (truthy is_registered) then
      ret (false, "Customer not fully registered", PNone)
    else
      active <- dict_getitem user_lookup "active" ;;
      if negb (truthy active) then
        ret (false, "Subscription inactive", PNone)
      else
        valid_pin <- dict_getitem user_lookup "valid_pin" ;;
        if negb (truthy valid_pin) then
          ret (false, "Invalid PIN", PNone)
        else
          customer_data <- dict_getitem user_lookup "customer_data" ;;
          ret (true, "Customer verified in database", customer_data)
  else
    ret (false, "Customer not found in database", PNone).

(** The [except Exception] branch of the inner [try]. *)
Definition fallback : M (bool * string * pyval) :=
  r <- random ;;
  let approved := float_lt r float_0_9 in
  ret (approved,
       if approved
       then "Database unavailable - approved by fallback (90% chance)"
       else "Database unavailable - denied by fallback (10% chance)",
       PNone).

Definition dispense_response
    (kiosk_id phone_number pin volume_ml : pyval)
    (approved : bool) (reason timestamp : string) : pydict :=
  [ ("type", PStr "dispense_response");
    ("user_id", phone_number);
    ("pin", pin);
    ("volume_ml", volume_ml);
    ("approved", PBool approved);
    ("reason", PStr reason);
    ("timestamp", PStr timestamp);
    ("kiosk_id", kiosk_id) ].

(** [if user_data: response['user_data'] = user_data] *)
Definition add_user_data (user_data : pyval) (response : pydict) : pydict :=
  if truthy user_data then dict_set "user_data" user_data response else response.

(** The body of the outer [try], with [data = request.get_json()]. *)
Definition dispense_verification_body (data : pyval) : M flask_reply :=
  if negb (truthy data) then ret no_json_reply
  else
    kiosk_id <- py_get data "kiosk_id" ;;
    phone_number <- py_get data "user_id" ;;
    pin <- py_get data "pin" ;;
    volume_ml <- py_get data "volume_ml" ;;
    timestamp <- py_get data "timestamp" ;;
    if negb (py_all [kiosk_id; phone_number; pin]) then ret invalid_request_reply
    else
      '(approved, reason, user_data) <-
        try_except
          (user_lookup <- lookup_customer_by_phone phone_number pin ;;
           decide user_lookup)
          (fun _ => fallback) ;;
      ts <- now ;;
      let response :=
        dispense_response kiosk_id phone_number pin volume_ml approved reason ts in
      let response := add_user_data user_data response in
      let response := add_user_data user_data response in
      ret (PDict response, 200).

Definition dispense_verification (data : pyval) : M flask_reply :=
  try_except
    (dispense_verification_body data)
    (fun e => ts <- now ;; ret (server_error_reply e ts)).

(** ** [make_appwrite_request] and [database_query] *)

(** [str(n)] for an integer. *)
Definition decimal (n : Z) : string := NilZero.string_of_int (Z.to_int n).

Definition make_appwrite_request (method path : string) (body : pyval) : M pydict :=
  try_except
    (let body_string := if truthy body then Some (json_dumps body) else None in
     let headers :=
       match body_string with
       | Some b =>
           if negb (String.eqb b EmptyString)
           then (appwrite_headers ++
                 [("Content-Length", decimal (Z.of_nat (String.length b)))])%list
           else appwrite_headers
       | None => appwrite_headers
       end in
     let url := APPWRITE_ENDPOINT ++ path in
     response <- urlopen (Request method url headers body_string 10) ;;
     let response_data := reply_json response in
     if (200 <=? reply_status response) && (reply_status response <? 300) then
       ret [ ("status", PInt (reply_status response)); ("data", response_data) ]
     else
       message <- py_get_default response_data "message" (PStr "Unknown error") ;;
       raise (Raise "Exception"
                ("HTTP " ++ decimal (reply_status response) ++ ": " ++
                 format_value message)))
    (fun e => raise e).

(** [f'/v1/databases/{database}/collections/{collection}/documents'] *)
Definition documents_path (database collection : pyval) : string :=
  "/v1/databases/" ++ format_value database ++
  "/collections/" ++ format_value collection ++ "/documents".

(** [f'queries[]={urllib.parse.quote(q)}'] *)
Definition query_param (q : pyval) : M string :=
  quoted <- py_quote encode_error_text q ;;
  ret ("queries[]=" ++ quoted).

(** The path built under the comment [# Build query path]. *)
Definition build_query_path (database collection queries : pyval) : M string :=
  let path := documents_path database collection in
  if truthy queries then
    qs <- py_iter queries ;;
    parts <- map_m query_param qs ;;
    let query_params := Str.join "&" parts in
    ret (path ++ "?" ++ query_params)
  else ret path.

Definition database_query_body (data : pyval) : M flask_reply :=
  database <- py_get_default data "database" (PStr APPWRITE_DATABASE_ID) ;;
  collection <- py_get data "collection" ;;
  queries <- py_get_default data "queries" (PList []) ;;
  request_id <- py_get data "request_id" ;;
  if negb (truthy collection) then
    ts <- now ;;
    ret (PDict [ ("type", PStr "query_response");
                 ("request_id", request_id);
                 ("success", PBool false);
                 ("error", PStr "Collection ID is required");
                 ("timestamp", PStr ts) ], 400)
  else
    path <- build_query_path database collection queries ;;
    result <- make_appwrite_request "GET" path PNone ;;
    result_data <- dict_getitem result "data" ;;
    total <- py_get_default result_data "total" (PInt 0) ;;
    ts <- now ;;
    ret (PDict [ ("type", PStr "query_response");
                 ("request_id", request_id);
                 ("success", PBool true);
                 ("data", result_data);
                 ("total", total);
                 ("timestamp", PStr ts) ], 200).

(** The handler of [/database/query].  Its [except] branch calls
    [data.get] again, so it can raise in turn; the exception then leaves
    the view. *)
Definition database_query (data : pyval) : M flask_reply :=
  try_except
    (database_query_body data)
    (fun error =>
       request_id <- py_get data "request_id" ;;
       ts <- now ;;
       ret (PDict [ ("type", PStr "query_response");
                    ("request_id", request_id);
                    ("success", PBool false);
                    ("error", PStr (exn_message error));
                    ("timestamp", PStr ts) ], 500)).

(** ** [database_create] and [database_update] *)

Definition database_create_body (data : pyval) : M flask_reply :=
  database <- py_get_default data "database" (PStr APPWRITE_DATABASE_ID) ;;
  collection <- py_get data "collection" ;;
  document_id <- py_get_default data "document_id" (PStr "unique()") ;;
  document_data <- py_get data "document_data" ;;
  request_id <- py_get data "request_id" ;;
  if negb (truthy collection) || negb (truthy document_data) then
    ts <- now ;;
    ret (PDict [ ("type", PStr "create_response");
                 ("request_id", request_id);
                 ("success", PBool false);
                 ("error", PStr "Collection ID and document_data are required");
                 ("timestamp", PStr ts) ], 400)
  else
    let path := documents_path database collection in
    let body := PDict [ ("documentId", document_id); ("data", document_data) ] in
    result <- make_appwrite_request "POST" path body ;;
    result_data <- dict_getitem result "data" ;;
    ts <- now ;;
    let response :=
      [ ("type", PStr "create_response");
        ("request_id", request_id);
        ("success", PBool true);
        ("data", result_data);
        ("timestamp", PStr ts) ] in
    (* the log line reads [result['data']['$id']] *)
    logged_data <- dict_getitem result "data" ;;
    logged_id <- py_getitem logged_data "$id" ;;
    ret (PDict response, 200).

(** The handler of [/database/create]. *)
Definition database_create (data : pyval) : M flask_reply :=
  try_except
    (database_create_body data)
    (fun error =>
       request_id <- py_get data "request_id" ;;
       ts <- now ;;
       ret (PDict [ ("type", PStr "create_response");
                    ("request_id", request_id);
                    ("success", PBool false);
                    ("error", PStr (exn_message error));
                    ("timestamp", PStr ts) ], 500)).

(** [f'/v1/databases/{database}/collections/{collection}/documents/{document_id}'] *)
Definition document_path (database collection document_id : pyval) : string :=
  "/v1/databases/" ++ format_value database ++
  "/collections/" ++ format_value collection ++
  "/documents/" ++ format_value document_id.

Definition database_update_body (data : pyval) : M flask_reply :=
  database <- py_get_default data "database" (PStr APPWRITE_DATABASE_ID) ;;
  collection <- py_get data "collection" ;;
  document_id <- py_get data "document_id" ;;
  document_data <- py_get data "document_data" ;;
  request_id <- py_get data "request_id" ;;
  if negb (py_all [collection; document_id; document_data]) then
    ts <- now ;;
    ret (PDict [ ("type", PStr "update_response");
                 ("request_id", request_id);
                 ("success", PBool false);
                 ("error", PStr "Collection ID, document_id, and document_data are required");
                 ("timestamp", PStr ts) ], 400)
  else
    let path := document_path database collection document_id in
    let body := PDict [ ("data", document_data) ] in
    result <- make_appwrite_request "PATCH" path body ;;
    result_data <- dict_getitem result "data" ;;
    ts <- now ;;
    ret (PDict [ ("type", PStr "update_response");
                 ("request_id", request_id);
                 ("success", PBool true);
                 ("data", result_data);
                 ("timestamp", PStr ts) ], 200).

(** The handler of [/database/update]. *)
Definition database_update (data : pyval) : M flask_reply :=
  try_except
    (database_update_body data)
    (fun error =>
       request_id <- py_get data "request_id" ;;
       ts <- now ;;
       ret (PDict [ ("type", PStr "update_response");
                    ("request_id", request_id);
                    ("success", PBool false);
                    ("error", PStr (exn_message error));
                    ("timestamp", PStr ts) ], 500)).

(** ** [test_database] and [status] *)

Definition collections_request : request :=
  Request "GET"
    (APPWRITE_ENDPOINT ++ "/databases/" ++ APPWRITE_DATABASE_ID ++ "/collections")
    appwrite_headers None 10.

(** The handler of [/test-database]. *)
Definition test_database : M flask_reply :=
  try_except
    (response <- urlopen collections_request ;;
     let data := reply_json response in
     (* the log line reads [data['total']] *)
     logged_total <- py_getitem data "total" ;;
     collections <- py_get_default data "collections" (PList []) ;;
     cols <- py_iter collections ;;
     collection_names <- map_m (fun col => py_getitem col "name") cols ;;
     total <- py_getitem data "total" ;;
     ts <- now ;;
     ret (PDict [ ("status", PStr "DATABASE_SUCCESS");
                  ("message", PStr "Database connection working via HTTP!");
                  ("collections_found", total);
                  ("collection_names", PList collection_names);
                  ("timestamp", PStr ts) ], 200))
    (fun e =>
       ts <- now ;;
       ret (PDict [ ("status", PStr "DATABASE_ERROR");
                    ("error", PStr (exn_message e));
                    ("timestamp", PStr ts) ], 500)).

(** The handler of [GET /]. *)
Definition status : M flask_reply :=
  ts <- now ;;
  ret (PDict
         [ ("status", PStr "Water Kiosk Hardware Server Active");
           ("message", PStr "Python Flask application for kiosk hardware integration");
           ("timestamp", PStr ts);
           ("features",
            PList [ PStr "dispense_verification"; PStr "database_query";
                    PStr "database_create"; PStr "database_update" ]);
           ("endpoints",
            PDict
              [ ("status", PStr "GET / - This status page");
                ("dispense_verification",
                 PStr "POST /dispense-verification - Verify user for water dispensing");
                ("database_query", PStr "POST /database/query - Query database documents");
                ("database_create", PStr "POST /database/create - Create database documents");
                ("database_update", PStr "POST /database/update - Update database documents");
                ("test_database", PStr "POST /test-database - Test database connection") ]) ],
       200).

(* --------------------------------------------------------------------- *)
(** ** Reading a backend reply *)
(* --------------------------------------------------------------------- *)

(** The reply lists no document: it is an object whose ['documents'] is
    missing, null or empty (falsy). *)
Definition no_documents (data : pyval) : bool :=
  match data with
  | PDict d => negb (truthy (dict_get "documents" d))
  | _ => false
  end.

(** The first document of a reply that lists at least one. *)
Definition first_document (data : pyval) : option pydict :=
  match data with
  | PDict d =>
      match dict_get "documents" d with
      | PList (PDict customer :: _) => Some customer
      | _ => None
      end
  | _ => None
  end.

(** The ['customer_data'] built from a matched record. *)
Definition customer_data (customer : pydict) : pydict :=
  [ ("phone_number", dict_get "phone_number" customer);
    ("account_id", dict_get "account_id" customer);
    ("full_name", dict_get "full_name" customer);
    ("active", dict_get "active" customer);
    ("credits", dict_get_default "credits" (PInt 0) customer) ].

(** The dict [lookup_customer_by_phone] returns for a matched record. *)
Definition found_record (customer : pydict) (pin : pyval) : pydict :=
  [ ("found", PBool true);
    ("valid_pin", PBool (py_eq (dict_get "pin" customer) pin));
    ("is_registered", PBool (py_eq (dict_get "is_registered" customer) (PBool true)));
    ("active", PBool (py_eq (dict_get "active" customer) (PBool true)));
    ("customer_data", PDict (customer_data customer)) ].

(** The URL and the request of the lookup for a candidate whose query
    can be encoded: a GET without body, with the three headers, timeout 5,
    for the documents of the customers collection that pass the quoted
    filter [equal(<dq>phone_number<dq>,<dq>variant<dq>)], [<dq>] being the
    double quote. *)
Definition request_url (variant : string) : string :=
  APPWRITE_ENDPOINT ++ "/databases/" ++ APPWRITE_DATABASE_ID ++
  "/collections/" ++ CUSTOMERS_COLLECTION_ID ++
  "/documents?queries[]=" ++
  Str.quote_from_bytes
    ("equal(" ++ Str.dquote ++ "phone_number" ++ Str.dquote ++ "," ++
     Str.dquote ++ variant ++ Str.dquote ++ ")").

Definition lookup_request (variant : string) : request :=
  Request "GET" (request_url variant)
    [ ("X-Appwrite-Project", APPWRITE_PROJECT_ID);
      ("X-Appwrite-Key", APPWRITE_API_KEY);
      ("Content-Type", "application/json") ]
    None 5.

(** The requests for the candidates of a list that can be quoted, in
    order. *)
Definition quotable (variants : list string) : list request :=
  map lookup_request (filter (fun v => negb (Str.has_surrogate v)) variants).

(** The answers to the queries for [variants], made one after the other
    from [st] (a candidate that cannot be quoted is answered by the
    UnicodeEncodeError, nothing being sent), and the state after the last
    of them. *)
Fixpoint ask (variants : list string) (st : State World)
  : list (exn + http_reply) * State World :=
  match variants with
  | [] => ([], st)
  | variant :: rest =>
      let (answer, st1) := fetch variant st in
      let (answers, st2) := ask rest st1 in
      (answer :: answers, st2)
  end.

Definition answers (variants : list string) (st : State World) :=
  fst (ask variants st).

Definition after_queries (variants : list string) (st : State World) :=
  snd (ask variants st).

(** An answer that is a reply without documents. *)
Definition unmatched (answer : exn + http_reply) : Prop :=
  exists r, answer = inr r /\ no_documents (reply_json r) = true.

(** An answer that is a reply whose first document is [customer]. *)
Definition matches (customer : pydict) (answer : exn + http_reply) : Prop :=
  exists r, answer = inr r /\ first_document (reply_json r) = Some customer.

(* --------------------------------------------------------------------- *)
(** ** The claims, in the words of the specification *)
(* --------------------------------------------------------------------- *)

(** A flag of a record counts as true when it compares equal to [True]. *)
Definition flag_is_true (v : pyval) : bool := py_eq v (PBool true).

(** The decision procedure as the specification words it: the record found
    (if any) is checked for registration, then for an active subscription,
    then for the PIN. *)
Definition spec_decision (record : option pydict) (pin : pyval) : bool * string :=
  match record with
  | None => (false, "Customer not found in database")
  | Some customer =>
      if negb (flag_is_true (dict_get "is_registered" customer)) then
        (false, "Customer not fully registered")
      else if negb (flag_is_true (dict_get "active" customer)) then
        (false, "Subscription inactive")
      else if negb (py_eq (dict_get "pin" customer) pin) then
        (false, "Invalid PIN")
      else (true, "Customer verified in database")
  end.

(** What the lookup returns for a record found, or for none. *)
Definition lookup_result (record : option pydict) (pin : pyval) : pydict :=
  match record with
  | Some customer => found_record customer pin
  | None => lookup_not_found
  end.

(** The customer data attached to a decision taken on [record]. *)
Definition attached_data (record : option pydict) (pin : pyval) : pyval :=
  match record with
  | Some customer =>
      if fst (spec_decision record pin) then PDict (customer_data customer) else PNone
  | None => PNone
  end.

(** The reply of the endpoint to a request that passed validation. *)
Definition decision_reply
    (d : pydict) (approved : bool) (reason : string) (user_data : pyval)
    (timestamp : string) : flask_reply :=
  (PDict (add_user_data user_data (add_user_data user_data
            (dispense_response (dict_get "kiosk_id" d) (dict_get "user_id" d)
               (dict_get "pin" d) (dict_get "volume_ml" d)
               approved reason timestamp))), 200).

(** The two reasons of the fallback. *)
Definition fallback_reason (approved : bool) : string :=
  if approved
  then "Database unavailable - approved by fallback (90% chance)"
  else "Database unavailable - denied by fallback (10% chance)".

(** The fields a dispense request must carry. *)
Definition required_field (k : string) : Prop :=
  k = "kiosk_id" \/ k = "user_id" \/ k = "pin".

(** The request carries the three required fields, each truthy. *)
Definition valid_request (d : pydict) : bool :=
  py_all [dict_get "kiosk_id" d; dict_get "user_id" d; dict_get "pin" d].

(** Replacing a leading [old] only, as in: the input with its prefix
    replaced. *)
Definition replace_prefix (old new s : string) : string :=
  if String.prefix old s
  then new ++ String.substring (String.length old) (String.length s - String.length old) s
  else s.

(** The fifth candidate: the literal input when it starts with [+],
    else the input without its leading zeros behind ['+254']. *)
Definition fifth_variant (phone_number : string) : string :=
  if Str.startswith "+" phone_number
  then phone_number
  else "+254" ++ Str.lstrip "0" phone_number.

(** The fields of a decision object. *)
Definition decision_fields : list string :=
  [ "kiosk_id"; "user_id"; "pin"; "volume_ml"; "approved"; "reason"; "timestamp" ].

Definition has_key (body : pyval) (k : string) : bool :=
  match body with
  | PDict d => match dict_lookup k d with Some _ => true | None => false end
  | _ => false
  end.

Definition is_decision_object (body : pyval) : bool :=
  forallb (has_key body) decision_fields.

(** No filter of the list holds a surrogate: each can be encoded. *)
Definition encodable (filters : list string) : bool :=
  forallb (fun q => negb (Str.has_surrogate q)) filters.

(** A dict without the key [k]. *)
Fixpoint dict_remove (k : string) (d : pydict) : pydict :=
  match d with
  | [] => []
  | (k', v) :: d' =>
      if String.eqb k k' then dict_remove k d' else (k', v) :: dict_remove k d'
  end.

(** The query string for a list of filters: one [queries[]=] parameter
    per filter, quoted one by one, in order; nothing for no filter. *)
Definition spec_query_string (filters : list string) : string :=
  match filters with
  | [] => EmptyString
  | _ => "?" ++ Str.join "&"
                  (map (fun q => "queries[]=" ++ Str.quote_from_bytes q) filters)
  end.

(** The one request [database_query] sends. *)
Definition query_request (database collection : pyval) (filters : list string) : request :=
  Request "GET"
    (APPWRITE_ENDPOINT ++ documents_path database collection ++ spec_query_string filters)
    [ ("X-Appwrite-Project", APPWRITE_PROJECT_ID);
      ("X-Appwrite-Key", APPWRITE_API_KEY);
      ("Content-Type", "application/json") ]
    None 10.

(** [found_by_lookup phone st record]: queried from state [st] for the
    variants of [phone], the backend answers without documents until some
    answer lists [record] first ([Some]), or answers without documents to
    every variant ([None]). *)
Definition found_by_lookup (phone : pyval) (st : State World)
    (record : option pydict) : Prop :=
  exists p, phone = PStr p /\
    match record with
    | Some customer =>
        exists k answer,
          Forall unmatched (firstn k (answers (phone_variants p) st)) /\
          nth_error (answers (phone_variants p) st) k = Some answer /\
          matches customer answer
    | None => Forall unmatched (answers (phone_variants p) st)
    end.

(** How a run of the loop ended: after [n] queries, the first [n - 1] of
    them unmatched, and then by an exception, by a match on the [n]-th
    answer, or by running out of variants. *)
Definition loop_outcome (variants : list string) (pin : pyval) (st : State World)
    (res : exn + pydict) (st' : State World) (n : nat) : Prop :=
  (n <= List.length variants)%nat /\
  st' = after_queries (firstn n variants) st /\
  Forall unmatched (firstn (Nat.pred n) (answers variants st)) /\
  match res with
  | inl _ => n <> 0%nat
  | inr u =>
      (u = lookup_not_found /\ n = List.length variants /\
       Forall unmatched (answers variants st))
      \/
      (exists customer answer,
          u = found_record customer pin /\ n <> 0%nat /\
          nth_error (answers variants st) (Nat.pred n) = Some answer /\
          matches customer answer)
  end.

(* --------------------------------------------------------------------- *)
(** ** Shapes used to state what the proxy handlers do *)
(* --------------------------------------------------------------------- *)

(** The headers [make_appwrite_request] sends with a body. *)
Definition headers_for (body_string : option string) : list (string * string) :=
  match body_string with
  | Some b =>
      if String.eqb b EmptyString then appwrite_headers
      else (appwrite_headers ++
            [("Content-Length", decimal (Z.of_nat (String.length b)))])%list
  | None => appwrite_headers
  end.

(** The one request [make_appwrite_request method path body] sends. *)
Definition appwrite_request (method path : string) (body : pyval) : request :=
  let body_string := if truthy body then Some (json_dumps body) else None in
  Request method (APPWRITE_ENDPOINT ++ path) (headers_for body_string) body_string 10.

(** The envelope of a failed proxy operation. *)
Definition failure_envelope (kind : string) (request_id : pyval)
    (message timestamp : string) : pyval :=
  PDict [ ("type", PStr kind);
          ("request_id", request_id);
          ("success", PBool false);
          ("error", PStr message);
          ("timestamp", PStr timestamp) ].

(** The reply of [now >>= k] from state [st]: the clock is read once. *)
Definition stamped (k : string -> flask_reply) (st : State World)
  : (exn + flask_reply) * State World :=
  (inr (k (fst (now_isoformat (world st)))),
   MkState (snd (now_isoformat (world st))) (sent st)).

(** The state after one more request [r]. *)
Definition after_request (r : request) (st : State World) : State World :=
  snd (urlopen r st).

(** The characters [urllib.parse.quote] can put out. *)
Definition quoted_char (a : ascii) : bool :=
  Str.quote_safe a || Ascii.eqb a "%".

Fixpoint string_forall (f : ascii -> bool) (s : string) : bool :=
  match s with
  | EmptyString => true
  | String a s' => f a && string_forall f s'
  end.

(** The decision read from a reply body. *)
Definition approved_in (body : pydict) : bool :=
  match dict_lookup "approved" body with
  | Some v => truthy v
  | None => false
  end.

(** A request of the customer lookup: a GET without body, timeout 5, for
    some candidate string. *)
Definition is_lookup_request (r : request) : Prop :=
  exists variant, r = lookup_request variant.

(** The state after one reading of the clock. *)
Definition tick (st : State World) : State World :=
  MkState (snd (now_isoformat (world st))) (sent st).

(** The status of a reply lies in [200, 300). *)
Definition status_ok (r : http_reply) : bool :=
  (200 <=? reply_status r) && (reply_status r <? 300).

(** What [make_appwrite_request] raises on a reply whose status is not in
    [200, 300). *)
Definition status_error (r : http_reply) : exn :=
  match reply_json r with
  | PDict payload =>
      Raise "Exception"
        ("HTTP " ++ decimal (reply_status r) ++ ": " ++
         format_value (dict_get_default "message" (PStr "Unknown error") payload))
  | v => AttributeError v "get"
  end.

(** The envelope of a successful create or update. *)
Definition success_envelope (kind : string) (request_id result_data : pyval)
    (timestamp : string) : pyval :=
  PDict [ ("type", PStr kind);
          ("request_id", request_id);
          ("success", PBool true);
          ("data", result_data);
          ("timestamp", PStr timestamp) ].

(** The body [database_create] posts. *)
Definition create_body (d : pydict) : pyval :=
  PDict [ ("documentId", dict_get_default "document_id" (PStr "unique()") d);
          ("data", dict_get "document_data" d) ].

Definition create_request (d : pydict) : request :=
  appwrite_request "POST"
    (documents_path (dict_get_default "database" (PStr APPWRITE_DATABASE_ID) d)
                    (dict_get "collection" d))
    (create_body d).

Definition update_request (d : pydict) : request :=
  appwrite_request "PATCH"
    (document_path (dict_get_default "database" (PStr APPWRITE_DATABASE_ID) d)
                   (dict_get "collection" d) (dict_get "document_id" d))
    (PDict [ ("data", dict_get "document_data" d) ]).

(** The names read from a list of collection objects. *)
Fixpoint collection_names (cols : list pydict) : list pyval :=
  match cols with
  | [] => []
  | col :: rest => dict_get "name" col :: collection_names rest
  end.

(** The exception [make_appwrite_request] raises on an answer of the
    backend, if it raises one. *)
Definition request_failure (answer : exn + http_reply) : option exn :=
  match answer with
  | inl e => Some e
  | inr r => if status_ok r then None else Some (status_error r)
  end.

(** The reply 500 of a proxy handler, given after one reading of the
    clock. *)
Definition failure_reply (kind : string) (d : pydict) (e : exn)
    (st : State World) : (exn + flask_reply) * State World :=
  stamped (fun ts => (failure_envelope kind (dict_get "request_id" d)
                        (exn_message e) ts, 500)) st.

(** The reply 400 of a proxy handler. *)
Definition rejection_reply (kind : string) (d : pydict) (message : string)
    (st : State World) : (exn + flask_reply) * State World :=
  stamped (fun ts => (failure_envelope kind (dict_get "request_id" d)
                        message ts, 400)) st.

(** The five ways a call of [dispense_verification] can go, each with
    the result it gives. *)
Inductive dispense_case (data : pyval) (st : State World)
  : (exn + flask_reply) * State World -> Prop :=
| case_no_json :
    truthy data = false ->
    dispense_case data st (inr no_json_reply, st)
| case_not_object :
    (forall d, data <> PDict d) ->
    truthy data = true ->
    dispense_case data st
      (stamped (server_error_reply (AttributeError data "get")) st)
| case_invalid d :
    data = PDict d -> d <> [] -> valid_request d = false ->
    dispense_case data st (inr invalid_request_reply, st)
| case_fallback d e st1 :
    data = PDict d -> valid_request d = true ->
    lookup_customer_by_phone (dict_get "user_id" d) (dict_get "pin" d) st
    = (inl e, st1) ->
    dispense_case data st
      (let draw := random_random (world st1) in
       let clock := now_isoformat (snd draw) in
       let approved := float_lt (fst draw) float_0_9 in
       (inr (decision_reply d approved (fallback_reason approved) PNone (fst clock)),
        MkState (snd clock) (sent st1)))
| case_decided d record st1 :
    data = PDict d -> valid_request d = true ->
    found_by_lookup (dict_get "user_id" d) st record ->
    lookup_customer_by_phone (dict_get "user_id" d) (dict_get "pin" d) st
    = (inr (lookup_result record (dict_get "pin" d)), st1) ->
    dispense_case data st
      (inr (decision_reply d
              (fst (spec_decision record (dict_get "pin" d)))
              (snd (spec_decision record (dict_get "pin" d)))
              (attached_data record (dict_get "pin" d))
              (fst (now_isoformat (world st1)))),
       MkState (snd (now_isoformat (world st1))) (sent st1)).

(* ===================================================================== *)
(** * Properties *)
(* ===================================================================== *)

(** ** Strings *)

Lemma replace_from_absent old new s :
  Str.contains old s = false -> Str.replace_from old new 0 s = s.
Proof.
  induction s as [|a s IH]; intros H; [reflexivity|].
  cbn [Str.contains] in H. apply orb_false_iff in H as [Hp Hc].
  cbn [Str.replace_from]. rewrite Hp. now rewrite IH.
Qed.

Lemma replace_absent old new s :
  Str.contains old s = false -> Str.replace old new s = s.
Proof. apply replace_from_absent. Qed.

Lemma replace_plus254_prefix new t :
  Str.replace "+254" new ("+254" ++ t) = new ++ Str.replace "+254" new t.
Proof. unfold Str.replace. cbn. now destruct t. Qed.

Lemma utf8_chars_from_nonempty cur s :
  (cur <> EmptyString \/ s <> EmptyString) -> Str.utf8_chars_from cur s <> [].
Proof.
  revert cur. induction s as [|a s IH]; intros cur H; cbn.
  - destruct cur; [destruct H; congruence | discriminate].
  - destruct (Str.utf8_continuation a).
    + apply IH. left. now destruct cur.
    + destruct cur; [apply IH; left; discriminate | discriminate].
Qed.

Lemma utf8_chars_nonempty s : s <> EmptyString -> Str.utf8_chars s <> [].
Proof. intros H. apply utf8_chars_from_nonempty. now right. Qed.

(** ** The monad *)

Lemma try_reraise {A} (m : M A) st :
  try_except m (fun e => raise e) st = m st.
Proof. unfold try_except, raise. now destruct (m st) as [[e|a] st']. Qed.

Lemma bind_run {A B} (m : M A) (k : A -> M B) st :
  bind m k st =
  match m st with
  | (inr a, st') => k a st'
  | (inl e, st') => (inl e, st')
  end.
Proof. reflexivity. Qed.

(** ** Strings that cannot be encoded *)

Lemma has_surrogate_cons a s :
  nat_of_ascii a <> 237%nat ->
  Str.has_surrogate (String a s) = Str.has_surrogate s.
Proof.
  intros Ha. destruct s as [|b s]; [reflexivity|].
  cbn [Str.has_surrogate].
  apply Nat.eqb_neq in Ha. now rewrite Ha.
Qed.

Lemma has_surrogate_app s b t :
  (nat_of_ascii b < 160)%nat ->
  Str.has_surrogate (s ++ String b t)
  = Str.has_surrogate s || Str.has_surrogate (String b t).
Proof.
  intros Hb. induction s as [|a s IH]; [reflexivity|].
  destruct s as [|c s].
  - cbn [append Str.has_surrogate].
    apply Nat.leb_gt in Hb. rewrite Hb, andb_false_r. reflexivity.
  - change ((String a (String c s)) ++ String b t)
      with (String a (String c s ++ String b t)).
    change (Str.has_surrogate (String a (String c s ++ String b t)))
      with (((nat_of_ascii a =? 237) && (160 <=? nat_of_ascii c))%nat
            || Str.has_surrogate (String c s ++ String b t)).
    rewrite IH.
    change (Str.has_surrogate (String a (String c s)))
      with (((nat_of_ascii a =? 237) && (160 <=? nat_of_ascii c))%nat
            || Str.has_surrogate (String c s)).
    now rewrite orb_assoc.
Qed.

Lemma lookup_query_surrogate variant :
  Str.has_surrogate (lookup_query variant) = Str.has_surrogate variant.
Proof.
  unfold lookup_query, Str.dquote, Str.dquote_char. cbn [append].
  repeat (rewrite has_surrogate_cons by (vm_compute; discriminate)).
  rewrite has_surrogate_app by (vm_compute; lia).
  apply orb_false_r.
Qed.

Lemma quote_encodable s :
  Str.has_surrogate s = false -> Str.quote s = Some (Str.quote_from_bytes s).
Proof. intros H. unfold Str.quote, Str.encode_utf8. now rewrite H. Qed.

Lemma quote_unencodable s :
  Str.has_surrogate s = true -> Str.quote s = None.
Proof. intros H. unfold Str.quote, Str.encode_utf8. now rewrite H. Qed.

(** ** One query *)

Lemma fetch_encodable variant st :
  Str.has_surrogate variant = false ->
  fetch variant st = urlopen (lookup_request variant) st.
Proof.
  intros H. unfold fetch, lookup_url, quote_str.
  rewrite quote_encodable by now rewrite lookup_query_surrogate.
  reflexivity.
Qed.

Lemma fetch_unencodable variant st :
  Str.has_surrogate variant = true ->
  fetch variant st
  = (inl (UnicodeEncodeError (encode_error_text (lookup_query variant))), st).
Proof.
  intros H. unfold fetch, lookup_url, quote_str.
  rewrite quote_unencodable by now rewrite lookup_query_surrogate.
  reflexivity.
Qed.

Lemma fetch_reply variant st r :
  fst (fetch variant st) = inr r -> Str.has_surrogate variant = false.
Proof.
  intros H. destruct (Str.has_surrogate variant) eqn:Hs; [|reflexivity].
  rewrite (fetch_unencodable variant st Hs) in H. discriminate.
Qed.

Lemma urlopen_sent r st :
  sent (snd (urlopen r st)) = (sent st ++ [r])%list.
Proof.
  unfold urlopen, send. now destruct (urlopen_json r (world st)).
Qed.

Lemma fetch_sent variant st :
  sent (snd (fetch variant st))
  = (sent st ++ quotable [variant])%list.
Proof.
  unfold quotable. cbn [filter].
  destruct (Str.has_surrogate variant) eqn:Hs; cbn [negb].
  - rewrite (fetch_unencodable variant st Hs). cbn. now rewrite app_nil_r.
  - rewrite (fetch_encodable variant st Hs). apply urlopen_sent.
Qed.

(** ** One turn of the lookup loop *)

Lemma flag_is_true_bool b : flag_is_true (PBool b) = b.
Proof. now destruct b. Qed.

Lemma flag_is_true_missing k d :
  dict_lookup k d = None -> flag_is_true (dict_get k d) = false.
Proof. intros H. unfold dict_get, dict_get_default. now rewrite H. Qed.

Lemma dict_get_truthy_lookup k d :
  truthy (dict_get k d) = true -> dict_lookup k d = Some (dict_get k d).
Proof.
  unfold dict_get, dict_get_default. now destruct (dict_lookup k d).
Qed.

Lemma lookup_found_record customer rest pin st :
  lookup_found (PList (PDict customer :: rest)) pin st
  = (inr (found_record customer pin), st).
Proof. reflexivity. Qed.

Lemma turn_raises variant rest pin st e :
  fst (fetch variant st) = inl e ->
  lookup_loop (variant :: rest) pin st
  = (inl e, snd (fetch variant st)).
Proof.
  cbn [lookup_loop]. rewrite bind_run.
  destruct (fetch variant st) as [[e'|r] s1]; cbn; congruence.
Qed.

Lemma turn_unmatched variant rest pin st r :
  fst (fetch variant st) = inr r ->
  no_documents (reply_json r) = true ->
  lookup_loop (variant :: rest) pin st
  = lookup_loop rest pin (snd (fetch variant st)).
Proof.
  cbn [lookup_loop]. rewrite bind_run.
  destruct (fetch variant st) as [[e'|r'] s1]; cbn [fst snd];
    intros Hr Hn; [discriminate|]. injection Hr as ->.
  destruct (reply_json r) as [| | | | | |d]; try discriminate.
  cbn in Hn. apply negb_true_iff in Hn.
  unfold has_documents, py_get, py_get_default, bind, ret. fold (dict_get "documents" d).
  now rewrite Hn.
Qed.

Lemma turn_matched variant rest pin st r customer :
  fst (fetch variant st) = inr r ->
  first_document (reply_json r) = Some customer ->
  lookup_loop (variant :: rest) pin st
  = (inr (found_record customer pin), snd (fetch variant st)).
Proof.
  cbn [lookup_loop]. rewrite bind_run.
  destruct (fetch variant st) as [[e'|r'] s1]; cbn [fst snd];
    intros Hr Hf; [discriminate|]. injection Hr as ->.
  destruct (reply_json r) as [| | | | | |d]; try discriminate.
  cbn in Hf.
  destruct (dict_get "documents" d) as [| | | | |[|[| | | | | |c] l]|] eqn:Hd;
    try discriminate.
  injection Hf as ->.
  assert (Hl : dict_lookup "documents" d = Some (PList (PDict customer :: l))).
  { rewrite <- Hd. apply dict_get_truthy_lookup. now rewrite Hd. }
  unfold has_documents, py_get, py_get_default, py_getitem, dict_getitem, bind, ret.
  fold (dict_get "documents" d). rewrite Hd, Hl. reflexivity.
Qed.

(** A reply that lists something, but not an object first, makes the
    lookup raise. *)
Lemma turn_malformed variant rest pin st r :
  fst (fetch variant st) = inr r ->
  no_documents (reply_json r) = false ->
  first_document (reply_json r) = None ->
  exists e,
    lookup_loop (variant :: rest) pin st
    = (inl e, snd (fetch variant st)).
Proof.
  cbn [lookup_loop]. rewrite bind_run.
  destruct (fetch variant st) as [[e'|r'] s1]; cbn [fst snd];
    intros Hr Hn Hf; [discriminate|]. injection Hr as ->.
  destruct (reply_json r) as [| | | | | |d];
    try (eexists; reflexivity).
  cbn in Hn, Hf. apply negb_false_iff in Hn.
  pose proof (dict_get_truthy_lookup _ _ Hn) as Hl.
  unfold has_documents, py_get, py_get_default, py_getitem, dict_getitem, bind, ret.
  fold (dict_get "documents" d). rewrite Hn, Hl.
  destruct (dict_get "documents" d) as [|b|n|f|s|l|c] eqn:Hd;
    try (eexists; reflexivity).
  - (* a string *)
    unfold py_len, lookup_found, py_index0, bind, ret, raise.
    destruct (Str.utf8_chars s) as [|ch chs] eqn:Hs.
    + exfalso. apply (utf8_chars_nonempty s); [|exact Hs].
      intros ->. discriminate.
    + cbn. eexists; reflexivity.
  - (* a list *)
    destruct l as [|x l]; [discriminate|].
    destruct x; try discriminate; cbn; eexists; reflexivity.
  - (* an object *)
    destruct c; [discriminate|]. cbn. eexists; reflexivity.
Qed.

(** ** The whole loop *)

Lemma answers_cons variant rest st :
  answers (variant :: rest) st
  = fst (fetch variant st)
    :: answers rest (snd (fetch variant st)).
Proof.
  unfold answers. cbn [ask].
  destruct (fetch variant st) as [a st1]. cbn [fst snd].
  destruct (ask rest st1); reflexivity.
Qed.

Lemma after_queries_cons variant rest st :
  after_queries (variant :: rest) st
  = after_queries rest (snd (fetch variant st)).
Proof.
  unfold after_queries. cbn [ask].
  destruct (fetch variant st) as [a st1]. cbn [fst snd].
  destruct (ask rest st1); reflexivity.
Qed.

Lemma answers_length variants st :
  List.length (answers variants st) = List.length variants.
Proof.
  revert st. induction variants as [|v rest IH]; intros st; [reflexivity|].
  rewrite answers_cons. cbn. now rewrite IH.
Qed.

Lemma quotable_cons variant rest :
  quotable (variant :: rest) = (quotable [variant] ++ quotable rest)%list.
Proof.
  unfold quotable. cbn [filter].
  now destruct (negb (Str.has_surrogate variant)).
Qed.

Lemma after_queries_sent variants st :
  sent (after_queries variants st) = (sent st ++ quotable variants)%list.
Proof.
  revert st. induction variants as [|v rest IH]; intros st.
  - cbn. now rewrite app_nil_r.
  - rewrite after_queries_cons, IH, fetch_sent, <- app_assoc.
    now rewrite <- quotable_cons.
Qed.

(** The candidates that were answered by a reply were all quoted. *)
Lemma replied_quotable variants st k :
  Forall (fun a => exists r : http_reply, a = inr r) (firstn k (answers variants st)) ->
  quotable (firstn k variants) = map lookup_request (firstn k variants).
Proof.
  revert st k. induction variants as [|v rest IH]; intros st k H.
  - now destruct k.
  - destruct k as [|k]; [reflexivity|].
    rewrite answers_cons in H. cbn [firstn] in H |- *.
    inversion H as [|a l [r Hr] Hrest]; subst.
    rewrite quotable_cons, (IH _ _ Hrest).
    unfold quotable. cbn [filter]. now rewrite (fetch_reply v st r Hr).
Qed.

Lemma unmatched_replied l :
  Forall unmatched l -> Forall (fun a => exists r : http_reply, a = inr r) l.
Proof.
  apply Forall_impl. intros a (r & -> & _). now exists r.
Qed.

Lemma firstn_succ_nth {A} (l : list A) k x :
  nth_error l k = Some x -> firstn (S k) l = (firstn k l ++ [x])%list.
Proof.
  revert k. induction l as [|y l IH]; intros k H.
  - destruct k; discriminate.
  - destruct k as [|k].
    + cbn in H. injection H as ->. reflexivity.
    + cbn [nth_error] in H. cbn [firstn app]. f_equal.
      change (firstn (S k) l = (firstn k l ++ [x])%list). now apply IH.
Qed.

(** The requests sent when the first [k] answers list no document and
    the next is a reply too. *)
Lemma sent_up_to_reply variants st k answer r :
  Forall unmatched (firstn k (answers variants st)) ->
  nth_error (answers variants st) k = Some answer ->
  answer = inr r ->
  sent (after_queries (firstn (S k) variants) st)
  = (sent st ++ map lookup_request (firstn (S k) variants))%list.
Proof.
  intros Hpre Hnth ->. rewrite after_queries_sent. f_equal.
  apply (replied_quotable variants st (S k)).
  rewrite (firstn_succ_nth _ _ _ Hnth). apply Forall_app. split.
  - now apply unmatched_replied.
  - constructor; [now exists r | constructor].
Qed.

Lemma quotable_app l l' : quotable (l ++ l') = (quotable l ++ quotable l')%list.
Proof. unfold quotable. now rewrite filter_app, map_app. Qed.

Lemma answered_candidate variants st k (answer : exn + http_reply) :
  nth_error (answers variants st) k = Some answer ->
  exists v, nth_error variants k = Some v.
Proof.
  intros H. destruct (nth_error variants k) as [v|] eqn:Hv; [now exists v|].
  apply nth_error_None in Hv. rewrite <- (answers_length variants st) in Hv.
  apply nth_error_None in Hv. congruence.
Qed.


Lemma sent_all_unmatched variants st :
  Forall unmatched (answers variants st) ->
  sent (after_queries variants st) = (sent st ++ map lookup_request variants)%list.
Proof.
  intros Hall. rewrite after_queries_sent. f_equal.
  rewrite <- (firstn_all variants) at 1.
  rewrite <- (firstn_all variants) at 3.
  apply (replied_quotable variants st (List.length variants)).
  apply unmatched_replied.
  rewrite <- (answers_length variants st), firstn_all. exact Hall.
Qed.

Lemma lookup_loop_outcome variants pin st :
  exists n,
    loop_outcome variants pin st
      (fst (lookup_loop variants pin st)) (snd (lookup_loop variants pin st)) n.
Proof.
  revert st. induction variants as [|v rest IH]; intros st.
  - exists 0%nat. unfold loop_outcome. cbn. repeat split; auto.
  - destruct (fst (fetch v st)) as [e|r] eqn:Ha.
    + exists 1%nat. rewrite (turn_raises v rest pin st e Ha).
      unfold loop_outcome. cbn [fst snd firstn Nat.pred List.length].
      rewrite after_queries_cons. repeat split; auto with arith.
    + destruct (no_documents (reply_json r)) eqn:Hn.
      * rewrite (turn_unmatched v rest pin st r Ha Hn).
        destruct (IH (snd (fetch v st))) as (n & Hle & Hst & Hpre & Hres).
        exists (S n). unfold loop_outcome.
        rewrite answers_cons, Ha. cbn [firstn List.length].
        rewrite after_queries_cons. split; [lia|]. split; [exact Hst|].
        assert (Hu : unmatched (inr r)) by (exists r; auto).
        split.
        { destruct n as [|n]; cbn [Nat.pred firstn]; [constructor|].
          constructor; [exact Hu | exact Hpre]. }
        destruct (fst (lookup_loop rest pin _)) as [e|u]; [discriminate|].
        destruct Hres as [(-> & -> & Hall) | (c & a & -> & Hn0 & Hnth & Hm)].
        { left. repeat split; auto. }
        { right. exists c, a. repeat split; auto.
          destruct n as [|n]; [congruence|]. exact Hnth. }
      * destruct (first_document (reply_json r)) as [c|] eqn:Hf.
        { exists 1%nat. rewrite (turn_matched v rest pin st r c Ha Hf).
          unfold loop_outcome. cbn [fst snd firstn Nat.pred List.length].
          rewrite after_queries_cons, answers_cons, Ha.
          split; [lia|]. split; [reflexivity|]. split; [constructor|].
          right. exists c, (inr r). repeat split; auto. exists r; auto. }
        { destruct (turn_malformed v rest pin st r Ha Hn Hf) as [e He].
          exists 1%nat. rewrite He.
          unfold loop_outcome. cbn [fst snd firstn Nat.pred List.length].
          rewrite after_queries_cons. repeat split; auto with arith. }
Qed.

Lemma unmatched_not_matches customer answer :
  unmatched answer -> matches customer answer -> False.
Proof.
  intros (r & -> & Hn) (r' & Hr & Hf). injection Hr as <-.
  unfold no_documents, first_document in *.
  destruct (reply_json r) as [| | | | | |d]; try discriminate.
  destruct (dict_get "documents" d) as [| | | | |[|x l]|]; try discriminate.
Qed.

Lemma lookup_loop_all_unmatched variants pin st :
  Forall unmatched (answers variants st) ->
  lookup_loop variants pin st = (inr lookup_not_found, after_queries variants st).
Proof.
  revert st. induction variants as [|v rest IH]; intros st Hall; [reflexivity|].
  rewrite answers_cons in Hall. inversion Hall as [|a l (r & Hr & Hn) Hrest]; subst.
  rewrite (turn_unmatched v rest pin st r Hr Hn), after_queries_cons.
  now apply IH.
Qed.

Lemma lookup_loop_first_match variants pin st k customer answer :
  Forall unmatched (firstn k (answers variants st)) ->
  nth_error (answers variants st) k = Some answer ->
  matches customer answer ->
  lookup_loop variants pin st
  = (inr (found_record customer pin), after_queries (firstn (S k) variants) st).
Proof.
  revert st k. induction variants as [|v rest IH]; intros st k Hpre Hnth Hm.
  - destruct k; discriminate.
  - rewrite answers_cons in Hpre, Hnth. destruct k as [|k].
    + cbn in Hnth. injection Hnth as <-. destruct Hm as (r & Hr & Hf).
      rewrite (turn_matched v rest pin st r customer Hr Hf).
      cbn [firstn]. now rewrite after_queries_cons.
    + cbn [firstn] in Hpre. inversion Hpre as [|a l (r & Hr & Hn) Hrest]; subst.
      rewrite (turn_unmatched v rest pin st r Hr Hn).
      change (firstn (S (S k)) (v :: rest)) with (v :: firstn (S k) rest).
      rewrite after_queries_cons. now apply IH.
Qed.

(** ** [lookup_customer_by_phone] on a string *)

Lemma lookup_str p pin st :
  lookup_customer_by_phone (PStr p) pin st = lookup_loop (phone_variants p) pin st.
Proof. unfold lookup_customer_by_phone. apply try_reraise. Qed.

Lemma lookup_not_str v pin st :
  (forall p, v <> PStr p) ->
  lookup_customer_by_phone v pin st = (inl (AttributeError v "replace"), st).
Proof.
  intros H. unfold lookup_customer_by_phone. rewrite try_reraise.
  destruct v; try reflexivity. now destruct (H s).
Qed.

Lemma lookup_result_cases phone pin st u st' :
  lookup_customer_by_phone phone pin st = (inr u, st') ->
  exists record, u = lookup_result record pin.
Proof.
  intros H. destruct phone as [| | | | p | |];
    try (rewrite lookup_not_str in H by discriminate; discriminate).
  rewrite lookup_str in H.
  destruct (lookup_loop_outcome (phone_variants p) pin st) as (n & _ & _ & _ & Hres).
  rewrite H in Hres. cbn [fst] in Hres.
  destruct Hres as [(-> & _) | (c & a & -> & _)].
  - now exists None.
  - now exists (Some c).
Qed.

(** ** What the lookup finds *)

Lemma found_by_lookup_returns phone pin st record :
  found_by_lookup phone st record ->
  exists st1,
    lookup_customer_by_phone phone pin st = (inr (lookup_result record pin), st1).
Proof.
  intros (p & -> & H). rewrite lookup_str. destruct record as [c|].
  - destruct H as (k & a & Hpre & Hnth & Hm).
    eexists. apply (lookup_loop_first_match _ _ _ _ _ _ Hpre Hnth Hm).
  - eexists. now apply lookup_loop_all_unmatched.
Qed.

Lemma lookup_returns_found phone pin st u st1 :
  lookup_customer_by_phone phone pin st = (inr u, st1) ->
  exists record, found_by_lookup phone st record /\ u = lookup_result record pin.
Proof.
  intros H. destruct phone as [| | | | p | |];
    try (rewrite lookup_not_str in H by discriminate; discriminate).
  rewrite lookup_str in H.
  destruct (lookup_loop_outcome (phone_variants p) pin st) as (n & _ & _ & Hpre & Hres).
  rewrite H in Hres. cbn [fst] in Hres.
  destruct Hres as [(-> & _ & Hall) | (c & a & -> & Hn0 & Hnth & Hm)].
  - exists None. split; [|reflexivity]. exists p. auto.
  - exists (Some c). split; [|reflexivity]. exists p. split; [reflexivity|].
    exists (Nat.pred n), a. auto.
Qed.

(** ** The decision cascade *)

Lemma decide_lookup_result record pin st :
  decide (lookup_result record pin) st
  = (inr (fst (spec_decision record pin), snd (spec_decision record pin),
          attached_data record pin), st).
Proof.
  destruct record as [c|]; [|reflexivity].
  unfold attached_data, spec_decision, flag_is_true, lookup_result, found_record, decide.
  cbn.
  destruct (py_eq (dict_get "is_registered" c) (PBool true)); [|reflexivity].
  destruct (py_eq (dict_get "active" c) (PBool true)); [|reflexivity].
  destruct (py_eq (dict_get "pin" c) pin); reflexivity.
Qed.

Lemma valid_request_truthy d : valid_request d = true -> truthy (PDict d) = true.
Proof. now destruct d. Qed.

(** A validated request runs the lookup, decides (or falls back), reads
    the clock and replies. *)
Lemma dispense_valid d st approved reason user_data st1 :
  valid_request d = true ->
  try_except
    (user_lookup <- lookup_customer_by_phone
                      (dict_get "user_id" d) (dict_get "pin" d) ;;
     decide user_lookup)
    (fun _ => fallback) st
  = (inr (approved, reason, user_data), st1) ->
  dispense_verification (PDict d) st =
  (inr (decision_reply d approved reason user_data (fst (now_isoformat (world st1)))),
   MkState (snd (now_isoformat (world st1))) (sent st1)).
Proof.
  intros Hv Hrun. pose proof (valid_request_truthy d Hv) as Ht.
  unfold dispense_verification, dispense_verification_body.
  unfold try_except at 1. rewrite Ht. cbn [negb].
  unfold py_get, py_get_default. fold (dict_get "kiosk_id" d) (dict_get "user_id" d)
    (dict_get "pin" d) (dict_get "volume_ml" d) (dict_get "timestamp" d).
  unfold bind at 1 2 3 4 5. unfold ret at 1 2 3 4 5.
  fold (valid_request d). rewrite Hv. cbn [negb].
  unfold bind at 1. rewrite Hrun.
  unfold now, lift_world, bind, ret, decision_reply.
  now destruct (now_isoformat (world st1)).
Qed.

Lemma dispense_with_record d st record st1 :
  valid_request d = true ->
  lookup_customer_by_phone (dict_get "user_id" d) (dict_get "pin" d) st
  = (inr (lookup_result record (dict_get "pin" d)), st1) ->
  dispense_verification (PDict d) st =
  (inr (decision_reply d
          (fst (spec_decision record (dict_get "pin" d)))
          (snd (spec_decision record (dict_get "pin" d)))
          (attached_data record (dict_get "pin" d))
          (fst (now_isoformat (world st1)))),
   MkState (snd (now_isoformat (world st1))) (sent st1)).
Proof.
  intros Hv Hl. apply (dispense_valid d st _ _ _ st1 Hv).
  unfold try_except, bind. now rewrite Hl, decide_lookup_result.
Qed.

Lemma dispense_with_failure d st e st1 :
  valid_request d = true ->
  lookup_customer_by_phone (dict_get "user_id" d) (dict_get "pin" d) st
  = (inl e, st1) ->
  let draw := random_random (world st1) in
  let clock := now_isoformat (snd draw) in
  let approved := float_lt (fst draw) float_0_9 in
  dispense_verification (PDict d) st =
  (inr (decision_reply d approved (fallback_reason approved) PNone (fst clock)),
   MkState (snd clock) (sent st1)).
Proof.
  intros Hv Hl. cbn zeta.
  rewrite (dispense_valid d st
             (float_lt (fst (random_random (world st1))) float_0_9)
             (fallback_reason (float_lt (fst (random_random (world st1))) float_0_9))
             PNone
             (MkState (snd (random_random (world st1))) (sent st1)) Hv);
    [reflexivity|].
  unfold try_except, bind. rewrite Hl.
  unfold fallback, random, lift_world, bind, ret, fallback_reason.
  now destruct (random_random (world st1)) as [r w2].
Qed.

(** ** Validation of the request *)

Lemma dispense_invalid d st :
  d <> [] -> valid_request d = false ->
  dispense_verification (PDict d) st = (inr invalid_request_reply, st).
Proof.
  intros Hd Hv.
  unfold dispense_verification, dispense_verification_body, try_except.
  assert (Ht : truthy (PDict d) = true) by now destruct d.
  rewrite Ht. cbn [negb].
  unfold py_get, py_get_default. fold (dict_get "kiosk_id" d) (dict_get "user_id" d)
    (dict_get "pin" d) (dict_get "volume_ml" d) (dict_get "timestamp" d).
  unfold bind, ret. fold (valid_request d). now rewrite Hv.
Qed.

Lemma valid_request_fields d :
  valid_request d = true <->
  truthy (dict_get "kiosk_id" d) = true /\
  truthy (dict_get "user_id" d) = true /\
  truthy (dict_get "pin" d) = true.
Proof.
  unfold valid_request, py_all. cbn [forallb].
  rewrite !andb_true_iff.
  split; [intros (H1 & H2 & H3 & _) | intros (H1 & H2 & H3)]; auto.
Qed.

Lemma falsy_field_invalid d k :
  required_field k -> truthy (dict_get k d) = false -> valid_request d = false.
Proof.
  intros Hk Hf. apply not_true_is_false. intros Hv.
  apply valid_request_fields in Hv as (H1 & H2 & H3).
  destruct Hk as [-> | [-> | ->]]; congruence.
Qed.

(** C6, as amended.  A dispense request whose JSON body is a non-empty
    object in which [kiosk_id], [user_id] or [pin] is missing is answered
    with HTTP 400, [approved] false and the reason 'Invalid request
    format'; the state is left as it was, so no request was sent to the
    backend. *)
Theorem missing_field_rejected (d : pydict) (k : string) (st : State World) :
  d <> [] ->
  required_field k ->
  dict_lookup k d = None ->
  dispense_verification (PDict d) st = (inr invalid_request_reply, st) /\
  invalid_request_reply
  = (PDict [ ("error", PStr "Missing required fields: kiosk_id, user_id (phone_number), pin");
             ("approved", PBool false);
             ("reason", PStr "Invalid request format") ], 400) /\
  sent (snd (dispense_verification (PDict d) st)) = sent st.
Proof.
  intros Hd Hk Hnone.
  assert (H : dispense_verification (PDict d) st = (inr invalid_request_reply, st)).
  { apply dispense_invalid; [exact Hd|]. apply (falsy_field_invalid d k Hk).
    unfold dict_get, dict_get_default. now rewrite Hnone. }
  rewrite H. repeat split; reflexivity.
Qed.

Lemma dict_remove_lookup k d : dict_lookup k (dict_remove k d) = None.
Proof.
  induction d as [|[k' v] d IH]; [reflexivity|].
  cbn [dict_remove]. destruct (String.eqb k k') eqn:E; [exact IH|].
  cbn [dict_lookup]. now rewrite E.
Qed.

(** C10, as amended.  The required-field check goes by truthiness: when
    [kiosk_id], [user_id] or [pin] is present in the body with a falsy value
    (empty string, 0, false, null, ...), the request is answered with
    HTTP 400, [approved] false and the reason 'Invalid request format', and
    no request is sent to the backend.  That is the very reply given to a
    non-empty body from which the field is absent; in particular to the
    same body without the field, as long as other fields remain. *)
Theorem falsy_field_rejected (d : pydict) (k : string) (v : pyval) (st : State World) :
  required_field k ->
  dict_lookup k d = Some v ->
  truthy v = false ->
  dispense_verification (PDict d) st = (inr invalid_request_reply, st) /\
  invalid_request_reply
  = (PDict [ ("error", PStr "Missing required fields: kiosk_id, user_id (phone_number), pin");
             ("approved", PBool false);
             ("reason", PStr "Invalid request format") ], 400) /\
  sent (snd (dispense_verification (PDict d) st)) = sent st /\
  (forall d', d' <> [] -> dict_lookup k d' = None ->
     dispense_verification (PDict d') st = dispense_verification (PDict d) st) /\
  (dict_remove k d <> [] ->
     dispense_verification (PDict (dict_remove k d)) st
     = dispense_verification (PDict d) st).
Proof.
  intros Hk Hsome Hf.
  assert (Hd : d <> []) by (intros ->; discriminate).
  assert (H : dispense_verification (PDict d) st = (inr invalid_request_reply, st)).
  { apply dispense_invalid; [exact Hd|]. apply (falsy_field_invalid d k Hk).
    unfold dict_get, dict_get_default. now rewrite Hsome. }
  assert (Habsent : forall d', d' <> [] -> dict_lookup k d' = None ->
            dispense_verification (PDict d') st = (inr invalid_request_reply, st)).
  { intros d' Hd' Hnone. apply dispense_invalid; [exact Hd'|].
    apply (falsy_field_invalid d' k Hk).
    unfold dict_get, dict_get_default. now rewrite Hnone. }
  rewrite H. repeat split; try reflexivity.
  - exact Habsent.
  - intros Hr. apply (Habsent _ Hr). apply dict_remove_lookup.
Qed.

(** ** The decision *)

Lemma decision_reply_literal d approved reason user_data ts :
  decision_reply d approved reason user_data ts =
  (PDict ([ ("type", PStr "dispense_response");
            ("user_id", dict_get "user_id" d);
            ("pin", dict_get "pin" d);
            ("volume_ml", dict_get "volume_ml" d);
            ("approved", PBool approved);
            ("reason", PStr reason);
            ("timestamp", PStr ts);
            ("kiosk_id", dict_get "kiosk_id" d) ]
          ++ (if truthy user_data then [("user_data", user_data)] else []))%list,
   200).
Proof.
  unfold decision_reply, add_user_data, dispense_response.
  now destruct (truthy user_data).
Qed.

Lemma attached_data_entry record pin :
  (if truthy (attached_data record pin)
   then [("user_data", attached_data record pin)] else [])
  = match record with
    | Some customer =>
        if fst (spec_decision record pin)
        then [("user_data", PDict (customer_data customer))]
        else []
    | None => []
    end.
Proof.
  destruct record as [c|]; [|reflexivity]. unfold attached_data.
  now destruct (fst (spec_decision (Some c) pin)).
Qed.

(** C1.  Once the lookup has found a record, the decision is taken in
    this order: a record whose [is_registered] is not true is denied with
    'Customer not fully registered' whatever the PIN; else one whose
    [active] is not true is denied with 'Subscription inactive'; else one
    whose stored [pin] differs from the claimed PIN is denied with 'Invalid
    PIN'; else the request is approved with 'Customer verified in
    database'.  When every candidate was answered without a record, the
    request is denied with 'Customer not found in database'.  The reply is
    given in full: HTTP 200, the fields of the request, the decision and
    its reason, and the data of the record when the request is approved. *)
Theorem decision_in_strict_order
    (d : pydict) (st : State World) (record : option pydict) :
  valid_request d = true ->
  found_by_lookup (dict_get "user_id" d) st record ->
  let pin := dict_get "pin" d in
  let st1 := snd (lookup_customer_by_phone (dict_get "user_id" d) pin st) in
  let decision :=
    match record with
    | None => (false, "Customer not found in database")
    | Some customer =>
        if negb (py_eq (dict_get "is_registered" customer) (PBool true)) then
          (false, "Customer not fully registered")
        else if negb (py_eq (dict_get "active" customer) (PBool true)) then
          (false, "Subscription inactive")
        else if negb (py_eq (dict_get "pin" customer) pin) then
          (false, "Invalid PIN")
        else (true, "Customer verified in database")
    end in
  dispense_verification (PDict d) st =
  (inr (PDict ([ ("type", PStr "dispense_response");
                 ("user_id", dict_get "user_id" d);
                 ("pin", pin);
                 ("volume_ml", dict_get "volume_ml" d);
                 ("approved", PBool (fst decision));
                 ("reason", PStr (snd decision));
                 ("timestamp", PStr (fst (now_isoformat (world st1))));
                 ("kiosk_id", dict_get "kiosk_id" d) ]
               ++ match record with
                  | Some customer =>
                      if fst decision
                      then [("user_data", PDict (customer_data customer))]
                      else []
                  | None => []
                  end)%list, 200),
   MkState (snd (now_isoformat (world st1))) (sent st1)).
Proof.
  intros Hv Hfound pin st1 decision.
  destruct (found_by_lookup_returns _ pin st record Hfound) as [s1 Hl].
  subst st1. rewrite Hl. cbn [snd].
  rewrite (dispense_with_record d st record s1 Hv Hl).
  rewrite decision_reply_literal, attached_data_entry. reflexivity.
Qed.

(** ** The fallback *)

Lemma float_lt_spec x y : float_lt x y = true <-> (x < y)%Q.
Proof.
  unfold float_lt. rewrite negb_true_iff. split.
  - intros H. apply Qnot_le_lt. intros Hle.
    apply Qle_bool_iff in Hle. congruence.
  - intros H. apply not_true_is_false. intros Hle.
    apply Qle_bool_iff in Hle. now apply (Qlt_not_le x y).
Qed.

Lemma below_float_0_9_on_grid (k : Z) :
  (k # 9007199254740992 < float_0_9)%Q <-> (k # 9007199254740992 < 9 # 10)%Q.
Proof. unfold Qlt, float_0_9. cbn. lia. Qed.

(** C2.  When the lookup raises, the error does not reach the caller:
    the endpoint still answers (HTTP 200) with a decision, approved
    exactly when the number drawn from [random.random()] is below 0.9, and
    the reason says in either case that the database was unavailable; no
    customer data is attached. *)
Theorem backend_failure_falls_back
    (d : pydict) (st st1 : State World) (e : exn) :
  valid_request d = true ->
  lookup_customer_by_phone (dict_get "user_id" d) (dict_get "pin" d) st
  = (inl e, st1) ->
  let draw := random_random (world st1) in
  let clock := now_isoformat (snd draw) in
  let approved := float_lt (fst draw) float_0_9 in
  let reason :=
    if approved
    then "Database unavailable - approved by fallback (90% chance)"
    else "Database unavailable - denied by fallback (10% chance)" in
  dispense_verification (PDict d) st =
  (inr (PDict [ ("type", PStr "dispense_response");
                ("user_id", dict_get "user_id" d);
                ("pin", dict_get "pin" d);
                ("volume_ml", dict_get "volume_ml" d);
                ("approved", PBool approved);
                ("reason", PStr reason);
                ("timestamp", PStr (fst clock));
                ("kiosk_id", dict_get "kiosk_id" d) ], 200),
   MkState (snd clock) (sent st1))
  /\ (approved = true <-> (fst draw < float_0_9)%Q)
  /\ (approved = true <-> (fst draw < 8106479329266893 # 9007199254740992)%Q)
  /\ (forall k : Z, fst draw = k # 9007199254740992 ->
        (approved = true <-> (fst draw < 9 # 10)%Q))
  /\ Str.startswith "Database unavailable" reason = true.
Proof.
  intros Hv Hl draw clock approved reason.
  split.
  { pose proof (dispense_with_failure d st e st1 Hv Hl) as H. cbn zeta in H.
    rewrite H, decision_reply_literal. reflexivity. }
  split; [apply float_lt_spec|].
  split; [apply float_lt_spec|].
  split.
  - intros k Hk. subst approved. rewrite float_lt_spec, Hk.
    apply below_float_0_9_on_grid.
  - subst reason. now destruct approved.
Qed.

(** ** The reply *)

Lemma decision_reply_fields d approved reason user_data ts :
  let body := match fst (decision_reply d approved reason user_data ts) with
              | PDict b => b
              | _ => []
              end in
  dict_lookup "kiosk_id" body = Some (dict_get "kiosk_id" d) /\
  dict_lookup "user_id" body = Some (dict_get "user_id" d) /\
  dict_lookup "pin" body = Some (dict_get "pin" d) /\
  dict_lookup "volume_ml" body = Some (dict_get "volume_ml" d) /\
  dict_lookup "approved" body = Some (PBool approved) /\
  dict_lookup "reason" body = Some (PStr reason) /\
  dict_lookup "timestamp" body = Some (PStr ts) /\
  dict_lookup "user_data" body = (if truthy user_data then Some user_data else None).
Proof.
  unfold decision_reply, add_user_data, dispense_response.
  destruct (truthy user_data); cbn; repeat split; reflexivity.
Qed.

Lemma attached_data_cases record pin :
  (attached_data record pin = PNone) \/
  (exists customer,
      record = Some customer /\ fst (spec_decision record pin) = true /\
      attached_data record pin = PDict (customer_data customer)).
Proof.
  destruct record as [c|]; [|now left]. unfold attached_data.
  destruct (fst (spec_decision (Some c) pin)) eqn:H; [right|now left].
  exists c. auto.
Qed.

Lemma dispense_not_object data st :
  (forall d, data <> PDict d) ->
  dispense_verification data st = (inr no_json_reply, st) \/
  exists e,
    dispense_verification data st =
    (inr (server_error_reply e (fst (now_isoformat (world st)))),
     MkState (snd (now_isoformat (world st))) (sent st)).
Proof.
  intros Hd. unfold dispense_verification, dispense_verification_body, try_except.
  destruct (truthy data) eqn:Ht; cbn [negb]; [right|now left].
  exists (AttributeError data "get").
  destruct data; try discriminate; try (now destruct (Hd d));
    unfold py_get, py_get_default, bind, raise, now, lift_world, ret;
    cbn [world sent]; now destruct (now_isoformat (world st)).
Qed.

Lemma verified_decision customer pin :
  fst (spec_decision (Some customer) pin) = true <->
  py_eq (dict_get "is_registered" customer) (PBool true) = true /\
  py_eq (dict_get "active" customer) (PBool true) = true /\
  py_eq (dict_get "pin" customer) pin = true.
Proof.
  unfold spec_decision, flag_is_true.
  destruct (py_eq (dict_get "is_registered" customer) (PBool true));
    destruct (py_eq (dict_get "active" customer) (PBool true));
    destruct (py_eq (dict_get "pin" customer) pin); cbn;
    (split;
     [ intros H; try discriminate H; repeat split
     | intros (H1 & H2 & H3); try discriminate H1; try discriminate H2;
       try discriminate H3; reflexivity ]).
Qed.

(** Two records for which the lookup returns the same dict lead to the
    same decision and the same data. *)
Lemma lookup_result_decides r1 r2 pin (st : State World) :
  lookup_result r1 pin = lookup_result r2 pin ->
  fst (spec_decision r1 pin) = fst (spec_decision r2 pin) /\
  attached_data r1 pin = attached_data r2 pin.
Proof.
  intros H. pose proof (decide_lookup_result r1 pin st) as D.
  rewrite H, decide_lookup_result in D. injection D as D1 _ D3. auto.
Qed.

(** C7, as amended.  A POST whose JSON body is an object with truthy
    [kiosk_id], [user_id] and [pin] is answered with HTTP 200 and a decision
    object: the kiosk id, the claimed phone number as [user_id], the PIN as
    received, the requested volume, the approval boolean, the reason, a
    response timestamp and, when present, the customer data.  The customer
    data is present exactly when the lookup matched a record that is
    registered, active and has the claimed PIN, and is then the data of
    that record. *)
Theorem valid_request_gets_decision_object (d : pydict) (st : State World) :
  valid_request d = true ->
  exists approved reason ts attached body st',
    dispense_verification (PDict d) st = (inr (PDict body, 200), st') /\
    body = ([ ("type", PStr "dispense_response");
              ("user_id", dict_get "user_id" d);
              ("pin", dict_get "pin" d);
              ("volume_ml", dict_get "volume_ml" d);
              ("approved", PBool approved);
              ("reason", PStr reason);
              ("timestamp", PStr ts);
              ("kiosk_id", dict_get "kiosk_id" d) ] ++ attached)%list /\
    is_decision_object (PDict body) = true /\
    (attached = [] \/ exists data, attached = [("user_data", data)]) /\
    (forall customer,
        found_by_lookup (dict_get "user_id" d) st (Some customer) ->
        py_eq (dict_get "is_registered" customer) (PBool true) = true ->
        py_eq (dict_get "active" customer) (PBool true) = true ->
        py_eq (dict_get "pin" customer) (dict_get "pin" d) = true ->
        approved = true /\
        attached = [("user_data", PDict (customer_data customer))]) /\
    (attached <> [] ->
     exists customer,
       found_by_lookup (dict_get "user_id" d) st (Some customer) /\
       py_eq (dict_get "is_registered" customer) (PBool true) = true /\
       py_eq (dict_get "active" customer) (PBool true) = true /\
       py_eq (dict_get "pin" customer) (dict_get "pin" d) = true /\
       approved = true /\
       attached = [("user_data", PDict (customer_data customer))]).
Proof.
  intros Hv.
  destruct (lookup_customer_by_phone (dict_get "user_id" d) (dict_get "pin" d) st)
    as [[e|u] st1] eqn:Hl.
  - pose proof (dispense_with_failure d st e st1 Hv Hl) as H. cbn zeta in H.
    rewrite decision_reply_literal in H. cbn [truthy] in H.
    do 6 eexists. split; [exact H|]. split; [reflexivity|].
    split; [reflexivity|]. split; [now left|]. split.
    + intros c Hfound _ _ _.
      destruct (found_by_lookup_returns _ (dict_get "pin" d) st _ Hfound) as [s1 Hc].
      rewrite Hl in Hc. discriminate.
    + intros Hne. now destruct Hne.
  - destruct (lookup_returns_found _ _ _ _ _ Hl) as (record & Hfound & ->).
    pose proof (dispense_with_record d st record st1 Hv Hl) as H.
    rewrite decision_reply_literal in H.
    do 6 eexists. split; [exact H|]. split; [reflexivity|]. split.
    { now destruct (truthy (attached_data record (dict_get "pin" d))). }
    split.
    { destruct (truthy (attached_data record (dict_get "pin" d)));
        [right; eauto | now left]. }
    split.
    + intros c Hc H1 H2 H3.
      destruct (found_by_lookup_returns _ (dict_get "pin" d) st _ Hc) as [s1 Hr].
      rewrite Hl in Hr. injection Hr as Hr _.
      destruct (lookup_result_decides record (Some c) _ st Hr) as [Hdec Hatt].
      assert (Hver : fst (spec_decision (Some c) (dict_get "pin" d)) = true)
        by now apply verified_decision.
      rewrite Hdec, Hatt, Hver. unfold attached_data. rewrite Hver. auto.
    + intros Hne.
      destruct (attached_data_cases record (dict_get "pin" d))
        as [Hnone | (c & -> & Happ & Hatt)].
      * rewrite Hnone in Hne. now destruct Hne.
      * exists c. apply verified_decision in Happ as Hver.
        destruct Hver as (H1 & H2 & H3).
        rewrite Hatt. repeat split; auto.
Qed.

(** C5.  In every approved decision, the customer data attached is the
    data of the record the lookup matched and holds exactly the fields
    [phone_number], [account_id], [full_name], [active] and [credits], read
    from that record; it has no [pin] field. *)
Theorem approved_payload_is_redacted
    (data : pyval) (st st' : State World) (body : pydict) (code : Z) (payload : pyval) :
  dispense_verification data st = (inr (PDict body, code), st') ->
  dict_lookup "approved" body = Some (PBool true) ->
  dict_lookup "user_data" body = Some payload ->
  exists d customer,
    data = PDict d /\
    found_by_lookup (dict_get "user_id" d) st (Some customer) /\
    payload = PDict (customer_data customer) /\
    dict_keys (customer_data customer)
    = ["phone_number"; "account_id"; "full_name"; "active"; "credits"] /\
    dict_lookup "pin" (customer_data customer) = None /\
    customer_data customer
    = [ ("phone_number", dict_get "phone_number" customer);
        ("account_id", dict_get "account_id" customer);
        ("full_name", dict_get "full_name" customer);
        ("active", dict_get "active" customer);
        ("credits", dict_get_default "credits" (PInt 0) customer) ].
Proof.
  intros Hrun Happ Hdata.
  assert (Hobj : exists d, data = PDict d).
  { destruct data; try (now eexists); exfalso;
      (match type of Hrun with
       | dispense_verification ?x _ = _ =>
           destruct (dispense_not_object x st ltac:(intros ?; discriminate))
             as [H | [e H]]
       end;
       rewrite H in Hrun; unfold no_json_reply, server_error_reply in Hrun;
       injection Hrun as <- _ _; discriminate). }
  destruct Hobj as [d ->].
  destruct (valid_request d) eqn:Hv.
  2:{ exfalso. destruct d as [|x d].
      - cbn in Hrun. injection Hrun as <- _ _. discriminate.
      - rewrite dispense_invalid in Hrun by (discriminate || assumption).
        unfold invalid_request_reply in Hrun.
        injection Hrun as <- _ _. discriminate. }
  exists d.
  destruct (lookup_customer_by_phone (dict_get "user_id" d) (dict_get "pin" d) st)
    as [[e|u] st1] eqn:Hl.
  - exfalso. pose proof (dispense_with_failure d st e st1 Hv Hl) as H. cbn zeta in H.
    rewrite H in Hrun. unfold decision_reply in Hrun.
    injection Hrun as <- _ _. discriminate.
  - destruct (lookup_returns_found _ _ _ _ _ Hl) as (record & Hfound & ->).
    rewrite (dispense_with_record d st record st1 Hv Hl) in Hrun.
    pose proof (decision_reply_fields d
      (fst (spec_decision record (dict_get "pin" d)))
      (snd (spec_decision record (dict_get "pin" d)))
      (attached_data record (dict_get "pin" d))
      (fst (now_isoformat (world st1)))) as F.
    cbn zeta in F. destruct F as (_ & _ & _ & _ & _ & _ & _ & F8).
    unfold decision_reply in Hrun, F8. cbn [fst] in F8.
    injection Hrun as Hb _ _. rewrite Hb, Hdata in F8.
    destruct (attached_data_cases record (dict_get "pin" d))
      as [Hnone | (c & -> & _ & Hatt)].
    + rewrite Hnone in F8. discriminate.
    + rewrite Hatt in F8. cbn in F8. injection F8 as ->.
      exists c. repeat split; auto.
Qed.

(** ** Candidate variants and the order of the queries *)

Lemma phone_variants_eq p :
  phone_variants p =
  [ p;
    Str.replace "+254" "0" p;
    Str.replace "+254" "254" p;
    Str.replace "+254" EmptyString p;
    fifth_variant p ].
Proof.
  unfold phone_variants, fifth_variant. now destruct (Str.startswith "+" p).
Qed.

Lemma quotable_encodable variant :
  Str.has_surrogate variant = false -> quotable [variant] = [lookup_request variant].
Proof. intros H. unfold quotable. cbn [filter]. now rewrite H. Qed.

Lemma lookup_loop_sends_first variant rest pin st :
  Str.has_surrogate variant = false ->
  exists later,
    sent (snd (lookup_loop (variant :: rest) pin st))
    = (sent st ++ lookup_request variant :: later)%list.
Proof.
  intros Hs.
  destruct (lookup_loop_outcome (variant :: rest) pin st) as (n & _ & Hst & _ & Hres).
  assert (Hn : n <> 0%nat).
  { destruct (fst (lookup_loop (variant :: rest) pin st)) as [e|u]; [exact Hres|].
    destruct Hres as [(_ & -> & _) | (c & a & _ & Hn & _)]; [discriminate | exact Hn]. }
  destruct n as [|n]; [congruence|].
  rewrite Hst, after_queries_sent. cbn [firstn].
  rewrite quotable_cons, (quotable_encodable variant Hs). cbn [app]. eauto.
Qed.

Lemma lookup_loop_unencodable variant rest pin st :
  Str.has_surrogate variant = true ->
  lookup_loop (variant :: rest) pin st
  = (inl (UnicodeEncodeError (encode_error_text (lookup_query variant))), st).
Proof.
  intros Hs.
  rewrite (turn_raises variant rest pin st
             (UnicodeEncodeError (encode_error_text (lookup_query variant))));
    now rewrite (fetch_unencodable variant st Hs).
Qed.

(** C3, as amended.  From a phone number the normalization builds five
    candidates, always in this order: the literal input; the input with
    every occurrence of ['+254'] replaced by ['0']; with every occurrence
    replaced by ['254']; with every occurrence removed; and the input
    without its leading zeros behind ['+254'] when it does not start with
    [+], the literal input again otherwise.  The literal input is the first
    candidate and the first one tried: the first request sent is the query
    for it, unless it holds a surrogate, in which case quoting it raises
    UnicodeEncodeError and the lookup ends with nothing sent.  For an input
    that is ['+254'] followed by a rest without ['+254'], the second to
    fourth candidates are the rest behind ['0'], behind ['254'], and
    alone. *)
Theorem phone_variants_fixed_list (p : string) :
  phone_variants p =
  [ p;
    Str.replace "+254" "0" p;
    Str.replace "+254" "254" p;
    Str.replace "+254" EmptyString p;
    if Str.startswith "+" p then p else "+254" ++ Str.lstrip "0" p ]
  /\ hd_error (phone_variants p) = Some p
  /\ (forall pin st, Str.has_surrogate p = false ->
        exists later,
          sent (snd (lookup_customer_by_phone (PStr p) pin st))
          = (sent st ++ lookup_request p :: later)%list)
  /\ (forall pin st, Str.has_surrogate p = true ->
        lookup_customer_by_phone (PStr p) pin st
        = (inl (Raise "UnicodeEncodeError" (encode_error_text (lookup_query p))), st))
  /\ (forall t, p = "+254" ++ t -> Str.contains "+254" t = false ->
        phone_variants p = [ p; "0" ++ t; "254" ++ t; t; p ]).
Proof.
  split; [apply phone_variants_eq|]. split; [reflexivity|]. split; [|split].
  - intros pin st Hs. rewrite lookup_str. now apply lookup_loop_sends_first.
  - intros pin st Hs. rewrite lookup_str, phone_variants_eq.
    now apply lookup_loop_unencodable.
  - intros t -> Ht. rewrite phone_variants_eq.
    rewrite !replace_plus254_prefix, !(replace_absent _ _ t Ht). reflexivity.
Qed.


(** C9, as amended.  For a phone number that does not contain ['+254'],
    the second, third and fourth candidates equal the literal input, so a
    lookup in which every candidate is answered without a document sends
    the same query four times and then the query for the fifth candidate,
    which is the ['+254']-prefixed variant when the input does not start
    with [+] and the literal input once more when it does.  (An input that
    holds a surrogate is never answered: quoting it raises.) *)
Theorem variants_without_country_code (p : string) :
  Str.contains "+254" p = false ->
  phone_variants p = [ p; p; p; p; fifth_variant p ]
  /\ (forall pin st,
        Forall unmatched (answers (phone_variants p) st) ->
        sent (snd (lookup_customer_by_phone (PStr p) pin st))
        = (sent st ++ [ lookup_request p; lookup_request p; lookup_request p;
                        lookup_request p; lookup_request (fifth_variant p) ])%list)
  /\ (forall st,
        Forall unmatched (answers (phone_variants p) st) ->
        Str.has_surrogate p = false)
  /\ (Str.startswith "+" p = false ->
        fifth_variant p = "+254" ++ Str.lstrip "0" p /\
        Str.startswith "+254" (fifth_variant p) = true)
  /\ (Str.startswith "+" p = true -> fifth_variant p = p).
Proof.
  intros Hp.
  assert (Hv : phone_variants p = [ p; p; p; p; fifth_variant p ]).
  { rewrite phone_variants_eq, !(replace_absent _ _ p Hp). reflexivity. }
  split; [exact Hv|]. split; [|split; [|split]].
  - intros pin st Hall. rewrite lookup_str.
    rewrite (lookup_loop_all_unmatched _ pin st Hall). cbn [snd].
    rewrite (sent_all_unmatched _ st Hall), Hv. reflexivity.
  - intros st Hall. rewrite Hv, answers_cons in Hall.
    inversion Hall as [|a l (r & Hr & _) _]; subst.
    apply (fetch_reply p st r Hr).
  - intros Hs. unfold fifth_variant. rewrite Hs. split; [reflexivity|].
    cbn. now destruct (Str.lstrip "0" p).
  - intros Hs. unfold fifth_variant. now rewrite Hs.
Qed.

(** ** The path of a database query *)

Lemma append_empty_r (s : string) : s ++ EmptyString = s.
Proof. induction s as [|a s IH]; cbn; [reflexivity | now rewrite IH]. Qed.

Lemma append_assoc (a b c : string) : (a ++ b) ++ c = a ++ b ++ c.
Proof. induction a as [|x a IH]; cbn; [reflexivity | now rewrite IH]. Qed.

Lemma encodable_cons q filters :
  encodable (q :: filters) = true <->
  Str.has_surrogate q = false /\ encodable filters = true.
Proof.
  unfold encodable. cbn [forallb]. rewrite andb_true_iff, negb_true_iff.
  split; intros [H1 H2]; split; assumption.
Qed.

Lemma query_param_encodable q st :
  Str.has_surrogate q = false ->
  query_param (PStr q) st = (inr ("queries[]=" ++ Str.quote_from_bytes q), st).
Proof.
  intros H. unfold query_param, py_quote, quote_str.
  now rewrite (quote_encodable q H).
Qed.

Lemma map_query_param filters st :
  encodable filters = true ->
  map_m query_param (map PStr filters) st
  = (inr (map (fun q => "queries[]=" ++ Str.quote_from_bytes q) filters), st).
Proof.
  induction filters as [|q filters IH]; intros He; [reflexivity|].
  apply encodable_cons in He as [Hq He].
  cbn [map map_m]. unfold bind at 1. rewrite (query_param_encodable q st Hq).
  unfold bind at 1. rewrite (IH He). reflexivity.
Qed.

Lemma build_query_path_filters database collection filters st :
  encodable filters = true ->
  build_query_path database collection (PList (map PStr filters)) st
  = (inr (documents_path database collection ++ spec_query_string filters), st).
Proof.
  intros He. unfold build_query_path. destruct filters as [|q filters].
  - cbn. now rewrite append_empty_r.
  - cbn [truthy map py_iter]. unfold bind at 1. cbn [ret].
    change (PStr q :: map PStr filters) with (map PStr (q :: filters)).
    unfold bind, ret. rewrite (map_query_param _ st He). reflexivity.
Qed.

Lemma quote_all_encodable filters :
  encodable filters = true ->
  map Str.quote filters = map (fun q => Some (Str.quote_from_bytes q)) filters.
Proof.
  induction filters as [|q filters IH]; intros He; [reflexivity|].
  apply encodable_cons in He as [Hq He].
  cbn [map]. now rewrite (quote_encodable q Hq), (IH He).
Qed.

Lemma make_appwrite_get_sent path st :
  sent (snd (make_appwrite_request "GET" path PNone st))
  = (sent st ++ [Request "GET" (APPWRITE_ENDPOINT ++ path) appwrite_headers None 10])%list.
Proof.
  unfold make_appwrite_request. rewrite try_reraise. cbn [truthy].
  unfold bind, urlopen, send.
  destruct (urlopen_json _ (world st)) as [[e|r] w1]; [reflexivity|].
  destruct ((200 <=? reply_status r) && (reply_status r <? 300)); [reflexivity|].
  unfold py_get_default, ret, raise. now destruct (reply_json r).
Qed.

Lemma dict_getitem_state (d : pydict) k (st : State World) :
  snd (dict_getitem d k st) = st.
Proof. unfold dict_getitem. now destruct (dict_lookup k d). Qed.

Lemma py_get_default_state v k default (st : State World) :
  snd (py_get_default v k default st) = st.
Proof. unfold py_get_default. now destruct v. Qed.

Lemma now_sent {A} (k : string -> A) st :
  sent (snd ((ts <- now ;; ret (k ts)) st)) = sent st.
Proof.
  unfold now, lift_world, bind, ret. now destruct (now_isoformat (world st)).
Qed.

(** C8, as amended.  For a query request that names a collection and
    gives a list of filter strings that can all be encoded (none holds a
    surrogate), the path requested has one [queries[]=] parameter per
    filter, each filter quoted on its own, in the order given, joined by
    [&] behind a [?]; with no filter (an empty list) the path has no query
    string, and the plain document listing is requested.  That one GET is
    the only request sent. *)
Theorem query_filters_quoted_in_order
    (d : pydict) (filters : list string) (st : State World) :
  truthy (dict_get "collection" d) = true ->
  dict_get_default "queries" (PList []) d = PList (map PStr filters) ->
  encodable filters = true ->
  let database := dict_get_default "database" (PStr APPWRITE_DATABASE_ID) d in
  let collection := dict_get "collection" d in
  build_query_path database collection (PList (map PStr filters)) st
  = (inr (documents_path database collection ++ spec_query_string filters), st)
  /\ sent (snd (database_query (PDict d) st))
     = (sent st ++
        [Request "GET"
           (APPWRITE_ENDPOINT ++ "/v1/databases/" ++ format_value database
            ++ "/collections/" ++ format_value collection ++ "/documents"
            ++ spec_query_string filters)
           [ ("X-Appwrite-Project", APPWRITE_PROJECT_ID);
             ("X-Appwrite-Key", APPWRITE_API_KEY);
             ("Content-Type", "application/json") ]
           None 10])%list
  /\ spec_query_string filters
     = match filters with
       | [] => EmptyString
       | _ => "?" ++ Str.join "&"
                       (map (fun q => "queries[]=" ++ Str.quote_from_bytes q) filters)
       end
  /\ map Str.quote filters = map (fun q => Some (Str.quote_from_bytes q)) filters
  /\ (filters = [] ->
      req_url (query_request database collection filters)
      = APPWRITE_ENDPOINT ++ documents_path database collection).
Proof.
  intros Hc Hq He database collection.
  split; [now apply build_query_path_filters|].
  split; [|split; [reflexivity|split; [now apply quote_all_encodable|]]].
  - replace (APPWRITE_ENDPOINT ++ "/v1/databases/" ++ format_value database
             ++ "/collections/" ++ format_value collection ++ "/documents"
             ++ spec_query_string filters)
      with (APPWRITE_ENDPOINT ++ documents_path database collection
            ++ spec_query_string filters)
      by (unfold documents_path; now rewrite <- !append_assoc).
    change (Request "GET"
              (APPWRITE_ENDPOINT ++ documents_path database collection
               ++ spec_query_string filters)
              [ ("X-Appwrite-Project", APPWRITE_PROJECT_ID);
                ("X-Appwrite-Key", APPWRITE_API_KEY);
                ("Content-Type", "application/json") ]
              None 10)
      with (Request "GET"
              (APPWRITE_ENDPOINT ++
               (documents_path database collection ++ spec_query_string filters))
              appwrite_headers None 10).
    unfold database_query, database_query_body, try_except.
    unfold py_get, py_get_default at 1 2 3 4.
    fold (dict_get "collection" d) (dict_get "request_id" d).
    unfold bind at 1 2 3 4. unfold ret at 1 2 3 4.
    rewrite Hc, Hq. cbn [negb]. fold database collection.
    unfold bind at 1. rewrite (build_query_path_filters _ _ _ st He).
    unfold bind at 1.
    pose proof (make_appwrite_get_sent
                  (documents_path database collection ++ spec_query_string filters) st)
      as Hsent.
    destruct (make_appwrite_request "GET" _ PNone st) as [[e|result] st1].
    + cbn [snd] in Hsent. unfold py_get_default. unfold bind at 1. unfold ret at 1.
      rewrite now_sent. exact Hsent.
    + cbn [snd] in Hsent. unfold bind at 1.
      destruct (dict_getitem result "data" st1) as [[e|rd] st2] eqn:Hd.
      * assert (st2 = st1) as ->.
        { pose proof (dict_getitem_state result "data" st1) as Hs.
          now rewrite Hd in Hs. }
        unfold py_get_default. unfold bind at 1. unfold ret at 1.
        rewrite now_sent. exact Hsent.
      * assert (st2 = st1) as ->.
        { pose proof (dict_getitem_state result "data" st1) as Hs.
          now rewrite Hd in Hs. }
        unfold bind at 1.
        destruct (py_get_default rd "total" (PInt 0) st1) as [[e|total] st3] eqn:Ht.
        { assert (st3 = st1) as ->.
          { pose proof (py_get_default_state rd "total" (PInt 0) st1) as Hs.
            now rewrite Ht in Hs. }
          unfold py_get_default. unfold bind at 1. unfold ret at 1.
          rewrite now_sent. exact Hsent. }
        { assert (st3 = st1) as ->.
          { pose proof (py_get_default_state rd "total" (PInt 0) st1) as Hs.
            now rewrite Ht in Hs. }
          unfold now, lift_world, bind, ret.
          destruct (now_isoformat (world st1)). exact Hsent. }
  - intros ->. cbn. now rewrite append_empty_r.
Qed.

(* ===================================================================== *)
(** * Further properties of the handlers *)
(* ===================================================================== *)

(** ** Every way through [dispense_verification] *)

Lemma dispense_cases data st :
  dispense_case data st (dispense_verification data st).
Proof.
  destruct (truthy data) eqn:Ht.
  2:{ assert (H : dispense_verification data st = (inr no_json_reply, st)).
      { unfold dispense_verification, dispense_verification_body, try_except.
        now rewrite Ht. }
      rewrite H. now constructor. }
  assert (Hobj : (forall d, data <> PDict d) \/ exists d, data = PDict d).
  { destruct data; try (left; intros ?; discriminate). right. now eexists. }
  destruct Hobj as [Hno | [d ->]].
  - assert (He : dispense_verification data st
                 = stamped (server_error_reply (AttributeError data "get")) st).
    { unfold dispense_verification, dispense_verification_body, try_except, stamped.
      rewrite Ht. cbn [negb].
      destruct data as [| | | | | |d0]; try discriminate; try (now destruct (Hno d0));
        unfold py_get, py_get_default, bind, raise, now, lift_world, ret;
        cbn [world sent]; now destruct (now_isoformat (world st)). }
    rewrite He. now constructor.
  - assert (Hd : d <> []) by (intros ->; discriminate).
    destruct (valid_request d) eqn:Hv.
    2:{ rewrite (dispense_invalid d st Hd Hv). now apply (case_invalid _ _ d). }
    destruct (lookup_customer_by_phone (dict_get "user_id" d) (dict_get "pin" d) st)
      as [[e|u] st1] eqn:Hl.
    + pose proof (dispense_with_failure d st e st1 Hv Hl) as H. cbn zeta in H.
      rewrite H. now apply (case_fallback _ _ d e st1).
    + destruct (lookup_returns_found _ _ _ _ _ Hl) as (record & Hfound & ->).
      rewrite (dispense_with_record d st record st1 Hv Hl).
      now apply (case_decided _ _ d record st1).
Qed.

Lemma decision_reply_body d approved reason user_data ts :
  exists body,
    decision_reply d approved reason user_data ts = (PDict body, 200) /\
    dict_lookup "approved" body = Some (PBool approved) /\
    dict_lookup "reason" body = Some (PStr reason).
Proof.
  unfold decision_reply, add_user_data, dispense_response.
  destruct (truthy user_data); eexists; repeat split; reflexivity.
Qed.

(** X1.  [dispense_verification] never lets an exception out: whatever
    the body and whatever the backend does, it answers with a JSON object
    and HTTP 200, 400 or 500, and a reply that approves always has status
    200. *)
Theorem dispense_always_replies (data : pyval) (st : State World) :
  exists body code st',
    dispense_verification data st = (inr (PDict body, code), st') /\
    (code = 200 \/ code = 400 \/ code = 500) /\
    (approved_in body = true -> code = 200).
Proof.
  destruct (dispense_cases data st)
    as [Ht | Hno Ht | d Hd Hne Hv | d e st1 Hd Hv Hl | d record st1 Hd Hv Hf Hl].
  - do 3 eexists. split; [reflexivity|]. split; [auto|]. discriminate.
  - do 3 eexists. split; [reflexivity|]. split; [auto|]. discriminate.
  - do 3 eexists. split; [reflexivity|]. split; [auto|]. discriminate.
  - cbn zeta.
    destruct (decision_reply_body d
                (float_lt (fst (random_random (world st1))) float_0_9)
                (fallback_reason (float_lt (fst (random_random (world st1))) float_0_9))
                PNone (fst (now_isoformat (snd (random_random (world st1))))))
      as (body & -> & _).
    do 3 eexists. split; [reflexivity|]. auto.
  - destruct (decision_reply_body d
                (fst (spec_decision record (dict_get "pin" d)))
                (snd (spec_decision record (dict_get "pin" d)))
                (attached_data record (dict_get "pin" d))
                (fst (now_isoformat (world st1))))
      as (body & -> & _).
    do 3 eexists. split; [reflexivity|]. auto.
Qed.

(** X2.  A body that is not a JSON object never reaches the lookup.  A
    falsy body (null, false, 0, the empty string, list or object) is
    answered with HTTP 400 and 'No JSON data provided', nothing else
    happening; a truthy one (a number, a string, a list, true) makes
    [data.get] raise and is answered with HTTP 500, 'Server error
    occurred' and the message of the AttributeError, after one reading of
    the clock.  No request is sent in either case. *)
Theorem non_object_body_answered_without_lookup (data : pyval) (st : State World) :
  (truthy data = false ->
   dispense_verification data st = (inr no_json_reply, st)) /\
  ((forall d, data <> PDict d) -> truthy data = true ->
   dispense_verification data st
   = (inr (PDict [ ("error",
                    PStr ("'" ++ type_name data ++ "' object has no attribute 'get'"));
                   ("type", PStr "server_error");
                   ("approved", PBool false);
                   ("reason", PStr "Server error occurred");
                   ("timestamp", PStr (fst (now_isoformat (world st)))) ], 500),
      MkState (snd (now_isoformat (world st))) (sent st))).
Proof.
  split.
  - intros Ht. unfold dispense_verification, dispense_verification_body, try_except.
    now rewrite Ht.
  - intros Hno Ht.
    destruct (dispense_cases data st)
      as [Ht' | Hno' Ht' | d Hd Hne Hv | d e st1 Hd Hv Hl | d record st1 Hd Hv Hf Hl];
      try congruence; try (now destruct (Hno d)).
    reflexivity.
Qed.

(** X3.  A request whose [user_id] is truthy but not a string (a number,
    say) makes the lookup raise before any query is sent: the decision is
    then the random fallback, taken without any contact with the backend. *)
Theorem non_string_phone_falls_back (d : pydict) (st : State World) :
  valid_request d = true ->
  (forall p, dict_get "user_id" d <> PStr p) ->
  let draw := random_random (world st) in
  let clock := now_isoformat (snd draw) in
  let approved := float_lt (fst draw) float_0_9 in
  lookup_customer_by_phone (dict_get "user_id" d) (dict_get "pin" d) st
  = (inl (AttributeError (dict_get "user_id" d) "replace"), st) /\
  dispense_verification (PDict d) st
  = (inr (decision_reply d approved (fallback_reason approved) PNone (fst clock)),
     MkState (snd clock) (sent st)) /\
  sent (snd (dispense_verification (PDict d) st)) = sent st.
Proof.
  intros Hv Hp draw clock approved.
  pose proof (lookup_not_str _ (dict_get "pin" d) st Hp) as Hl.
  pose proof (dispense_with_failure d st _ st Hv Hl) as H. cbn zeta in H.
  split; [exact Hl|]. split; [exact H|]. now rewrite H.
Qed.

(** X4.  An approval is never given on a failed check: when the reply
    approves, the body was a valid request and either the lookup matched a
    record whose [is_registered] and [active] equal [True] and whose [pin]
    equals the claimed PIN, or the lookup raised and the number drawn was
    below 0.9. *)
Theorem approval_is_sound
    (data : pyval) (st st' : State World) (body : pydict) (code : Z) :
  dispense_verification data st = (inr (PDict body, code), st') ->
  approved_in body = true ->
  code = 200 /\
  exists d,
    data = PDict d /\ valid_request d = true /\
    ((exists customer,
         found_by_lookup (dict_get "user_id" d) st (Some customer) /\
         py_eq (dict_get "is_registered" customer) (PBool true) = true /\
         py_eq (dict_get "active" customer) (PBool true) = true /\
         py_eq (dict_get "pin" customer) (dict_get "pin" d) = true /\
         dict_lookup "reason" body = Some (PStr "Customer verified in database"))
     \/
     (exists e st1,
         lookup_customer_by_phone (dict_get "user_id" d) (dict_get "pin" d) st
         = (inl e, st1) /\
         (fst (random_random (world st1)) < float_0_9)%Q /\
         dict_lookup "reason" body
         = Some (PStr "Database unavailable - approved by fallback (90% chance)"))).
Proof.
  intros Hrun Happ.
  destruct (dispense_cases data st)
    as [Ht | Hno Ht | d Hd Hne Hv | d e st1 Hd Hv Hl | d record st1 Hd Hv Hf Hl].
  - unfold no_json_reply in Hrun. injection Hrun as <- _ _. discriminate.
  - unfold stamped, server_error_reply in Hrun. injection Hrun as <- _ _. discriminate.
  - unfold invalid_request_reply in Hrun. injection Hrun as <- _ _. discriminate.
  - cbn zeta in Hrun.
    destruct (decision_reply_body d
                (float_lt (fst (random_random (world st1))) float_0_9)
                (fallback_reason (float_lt (fst (random_random (world st1))) float_0_9))
                PNone (fst (now_isoformat (snd (random_random (world st1))))))
      as (b & Hb & Ha & Hr).
    rewrite Hb in Hrun. injection Hrun as <- <- _.
    unfold approved_in in Happ. rewrite Ha in Happ. cbn [truthy] in Happ.
    split; [reflexivity|]. exists d. repeat split; auto. right.
    exists e, st1. split; [exact Hl|]. split; [now apply float_lt_spec|].
    rewrite Hr, Happ. reflexivity.
  - destruct (decision_reply_body d
                (fst (spec_decision record (dict_get "pin" d)))
                (snd (spec_decision record (dict_get "pin" d)))
                (attached_data record (dict_get "pin" d))
                (fst (now_isoformat (world st1))))
      as (b & Hb & Ha & Hr).
    rewrite Hb in Hrun. injection Hrun as <- <- _.
    unfold approved_in in Happ. rewrite Ha in Happ. cbn [truthy] in Happ.
    split; [reflexivity|]. exists d. repeat split; auto. left.
    destruct record as [c|]; [|discriminate].
    exists c. split; [exact Hf|].
    unfold spec_decision, flag_is_true in Happ, Hr.
    destruct (py_eq (dict_get "is_registered" c) (PBool true)); [|discriminate].
    destruct (py_eq (dict_get "active" c) (PBool true)); [|discriminate].
    destruct (py_eq (dict_get "pin" c) (dict_get "pin" d)); [|discriminate].
    repeat split. exact Hr.
Qed.

(** ** What the lookup sends, and when it raises *)

Lemma lookup_loop_state_pin variants pin pin' st :
  snd (lookup_loop variants pin st) = snd (lookup_loop variants pin' st) /\
  ((exists e, fst (lookup_loop variants pin st) = inl e) <->
   (exists e, fst (lookup_loop variants pin' st) = inl e)).
Proof.
  revert st. induction variants as [|v rest IH]; intros st.
  - cbn. split; [reflexivity|]. split; intros [e He]; discriminate.
  - destruct (fst (fetch v st)) as [e|r] eqn:Ha.
    + rewrite (turn_raises v rest pin st e Ha), (turn_raises v rest pin' st e Ha).
      cbn. split; [reflexivity|]. split; intros _; now exists e.
    + destruct (no_documents (reply_json r)) eqn:Hn.
      * rewrite (turn_unmatched v rest pin st r Ha Hn),
                (turn_unmatched v rest pin' st r Ha Hn). apply IH.
      * destruct (first_document (reply_json r)) as [c|] eqn:Hf.
        { rewrite (turn_matched v rest pin st r c Ha Hf),
                  (turn_matched v rest pin' st r c Ha Hf).
          cbn. split; [reflexivity|]. split; intros [e He]; discriminate. }
        { destruct (turn_malformed v rest pin st r Ha Hn Hf) as [e He].
          destruct (turn_malformed v rest pin' st r Ha Hn Hf) as [e' He'].
          rewrite He, He'. cbn. split; [reflexivity|].
          split; intros _; eauto. }
Qed.

(** X5.  The PIN never leaves the server: the requests sent by the
    lookup, and the state it leaves, are the same whatever PIN was claimed
    (the PIN is only compared locally with the record returned), and
    whether the lookup raises does not depend on the PIN either. *)
Theorem lookup_independent_of_pin (phone pin pin' : pyval) (st : State World) :
  snd (lookup_customer_by_phone phone pin st)
  = snd (lookup_customer_by_phone phone pin' st) /\
  sent (snd (lookup_customer_by_phone phone pin st))
  = sent (snd (lookup_customer_by_phone phone pin' st)) /\
  ((exists e, fst (lookup_customer_by_phone phone pin st) = inl e) <->
   (exists e, fst (lookup_customer_by_phone phone pin' st) = inl e)).
Proof.
  assert (H : snd (lookup_customer_by_phone phone pin st)
              = snd (lookup_customer_by_phone phone pin' st) /\
              ((exists e, fst (lookup_customer_by_phone phone pin st) = inl e) <->
               (exists e, fst (lookup_customer_by_phone phone pin' st) = inl e))).
  { destruct phone as [| | | | p | |];
      try (rewrite !lookup_not_str by discriminate; cbn; split; [reflexivity|];
           split; intros _; eauto).
    rewrite !lookup_str. apply lookup_loop_state_pin. }
  destruct H as [Hs He]. split; [exact Hs|]. split; [now rewrite Hs | exact He].
Qed.

Lemma lookup_sent phone pin st :
  exists n variants,
    (n <= 5)%nat /\
    sent (snd (lookup_customer_by_phone phone pin st))
    = (sent st ++ map lookup_request (firstn n variants))%list.
Proof.
  destruct phone as [| | | | p | |];
    try (rewrite lookup_not_str by discriminate; exists 0%nat, [];
         split; [lia|]; cbn; now rewrite app_nil_r).
  rewrite lookup_str.
  destruct (lookup_loop_outcome (phone_variants p) pin st) as (n & Hle & Hst & _).
  exists 5%nat,
    (filter (fun v => negb (Str.has_surrogate v)) (firstn n (phone_variants p))).
  split; [lia|].
  rewrite Hst, after_queries_sent. unfold quotable. f_equal. f_equal.
  symmetry. apply firstn_all2.
  etransitivity; [apply filter_length_le|].
  etransitivity; [apply firstn_le_length|]. exact Hle.
Qed.

(** X6.  Whatever the body, [dispense_verification] sends at most five
    requests, and each is a lookup request: a GET without body, with the
    three fixed headers and timeout 5, for a candidate phone string.  It
    never writes to the backend. *)
Theorem dispense_sends_only_lookups (data : pyval) (st : State World) :
  exists new,
    sent (snd (dispense_verification data st)) = (sent st ++ new)%list /\
    (List.length new <= 5)%nat /\
    Forall (fun r =>
              is_lookup_request r /\
              req_method r = "GET" /\ req_data r = None /\ req_timeout r = 5 /\
              req_headers r = appwrite_headers) new.
Proof.
  assert (Hlook : forall phone pin,
             exists new,
               sent (snd (lookup_customer_by_phone phone pin st)) = (sent st ++ new)%list /\
               (List.length new <= 5)%nat /\
               Forall (fun r =>
                         is_lookup_request r /\
                         req_method r = "GET" /\ req_data r = None /\
                         req_timeout r = 5 /\ req_headers r = appwrite_headers) new).
  { intros phone pin. destruct (lookup_sent phone pin st) as (n & vs & Hn & Hs).
    exists (map lookup_request (firstn n vs)). split; [exact Hs|]. split.
    - rewrite length_map. rewrite length_firstn. lia.
    - apply Forall_forall. intros r Hr. apply in_map_iff in Hr as (v & <- & _).
      repeat split. now exists v. }
  assert (Hnil : exists new : list request,
             sent st = (sent st ++ new)%list /\ (List.length new <= 5)%nat /\
             Forall (fun r =>
                       is_lookup_request r /\
                       req_method r = "GET" /\ req_data r = None /\
                       req_timeout r = 5 /\ req_headers r = appwrite_headers) new).
  { exists []. rewrite app_nil_r. repeat split; [cbn; lia | constructor]. }
  destruct (dispense_cases data st)
    as [Ht | Hno Ht | d Hd Hne Hv | d e st1 Hd Hv Hl | d record st1 Hd Hv Hf Hl];
    cbn [snd stamped sent]; try exact Hnil.
  - destruct (Hlook (dict_get "user_id" d) (dict_get "pin" d)) as (new & Hs & Hrest).
    rewrite Hl in Hs. cbn [snd] in Hs. exists new. now split.
  - destruct (Hlook (dict_get "user_id" d) (dict_get "pin" d)) as (new & Hs & Hrest).
    rewrite Hl in Hs. cbn [snd] in Hs. exists new. now split.
Qed.

(** X7.  The decision reads four fields of the body and nothing else:
    two non-empty bodies that agree on [kiosk_id], [user_id], [pin] and
    [volume_ml] get the same reply and cause the same effects.  The
    [timestamp] sent by the kiosk, in particular, is read and dropped. *)
Theorem dispense_ignores_other_fields (d d' : pydict) (st : State World) :
  d <> [] -> d' <> [] ->
  dict_get "kiosk_id" d = dict_get "kiosk_id" d' ->
  dict_get "user_id" d = dict_get "user_id" d' ->
  dict_get "pin" d = dict_get "pin" d' ->
  dict_get "volume_ml" d = dict_get "volume_ml" d' ->
  dispense_verification (PDict d) st = dispense_verification (PDict d') st.
Proof.
  intros Hd Hd' Hk Hu Hp Hvol.
  assert (Ht : truthy (PDict d) = true) by now destruct d.
  assert (Ht' : truthy (PDict d') = true) by now destruct d'.
  unfold dispense_verification, dispense_verification_body.
  rewrite Ht, Ht'. cbn [negb].
  unfold py_get, py_get_default.
  fold (dict_get "kiosk_id" d) (dict_get "user_id" d)
       (dict_get "pin" d) (dict_get "volume_ml" d) (dict_get "timestamp" d).
  fold (dict_get "kiosk_id" d') (dict_get "user_id" d')
       (dict_get "pin" d') (dict_get "volume_ml" d') (dict_get "timestamp" d').
  rewrite Hk, Hu, Hp, Hvol. reflexivity.
Qed.

Lemma lookup_loop_raises variants pin st k e :
  Forall unmatched (firstn k (answers variants st)) ->
  nth_error (answers variants st) k = Some (inl e) ->
  lookup_loop variants pin st = (inl e, after_queries (firstn (S k) variants) st).
Proof.
  revert st k. induction variants as [|v rest IH]; intros st k Hpre Hnth.
  - destruct k; discriminate.
  - rewrite answers_cons in Hpre, Hnth. destruct k as [|k].
    + cbn in Hnth. injection Hnth as Ha.
      rewrite (turn_raises v rest pin st e Ha). cbn [firstn].
      now rewrite after_queries_cons.
    + cbn [firstn] in Hpre. inversion Hpre as [|a l (r & Hr & Hn) Hrest]; subst.
      rewrite (turn_unmatched v rest pin st r Hr Hn).
      change (firstn (S (S k)) (v :: rest)) with (v :: firstn (S k) rest).
      rewrite after_queries_cons. now apply IH.
Qed.

Lemma lookup_loop_malformed variants pin st k r :
  Forall unmatched (firstn k (answers variants st)) ->
  nth_error (answers variants st) k = Some (inr r) ->
  no_documents (reply_json r) = false ->
  first_document (reply_json r) = None ->
  exists e,
    lookup_loop variants pin st = (inl e, after_queries (firstn (S k) variants) st).
Proof.
  revert st k. induction variants as [|v rest IH]; intros st k Hpre Hnth Hn Hf.
  - destruct k; discriminate.
  - rewrite answers_cons in Hpre, Hnth. destruct k as [|k].
    + cbn in Hnth. injection Hnth as Ha.
      destruct (turn_malformed v rest pin st r Ha Hn Hf) as [e He].
      exists e. rewrite He. cbn [firstn]. now rewrite after_queries_cons.
    + cbn [firstn] in Hpre. inversion Hpre as [|a l (r' & Hr & Hn') Hrest]; subst.
      rewrite (turn_unmatched v rest pin st r' Hr Hn').
      change (firstn (S (S k)) (v :: rest)) with (v :: firstn (S k) rest).
      rewrite after_queries_cons. now apply IH.
Qed.

(** X8.  A failure ends the lookup at once: when the answers before the
    [k]-th list no document and the [k]-th query raises [e] (the backend
    failed, or the candidate holds a surrogate and cannot be quoted), the
    lookup raises that same [e]; the remaining candidates are not tried
    and nothing is retried.  The requests sent are those for the first [k]
    candidates and, unless it could not be quoted, the one for the
    [k]-th. *)
Theorem backend_error_propagates
    (p : string) (pin : pyval) (st : State World) (k : nat) (e : exn) :
  Forall unmatched (firstn k (answers (phone_variants p) st)) ->
  nth_error (answers (phone_variants p) st) k = Some (inl e) ->
  lookup_customer_by_phone (PStr p) pin st
  = (inl e, after_queries (firstn (S k) (phone_variants p)) st) /\
  exists v,
    nth_error (phone_variants p) k = Some v /\
    sent (snd (lookup_customer_by_phone (PStr p) pin st))
    = (sent st ++ map lookup_request (firstn k (phone_variants p))
       ++ (if Str.has_surrogate v then [] else [lookup_request v]))%list.
Proof.
  intros Hpre Hnth. rewrite lookup_str.
  rewrite (lookup_loop_raises _ pin st k e Hpre Hnth).
  split; [reflexivity|].
  destruct (answered_candidate _ _ _ _ Hnth) as [v Hv].
  exists v. split; [exact Hv|]. cbn [snd].
  rewrite after_queries_sent, (firstn_succ_nth _ _ _ Hv), quotable_app.
  rewrite (replied_quotable _ st k (unmatched_replied _ Hpre)).
  unfold quotable at 1. cbn [filter].
  now destruct (Str.has_surrogate v).
Qed.

(** X9.  A reply the code cannot read counts as a failure, not as "not
    found": when the [k]-th answer (the earlier ones listing no document)
    is not a JSON object, or has a truthy ['documents'] that is not a list
    starting with an object, the lookup raises after [k + 1] queries. *)
Theorem malformed_reply_raises
    (p : string) (pin : pyval) (st : State World) (k : nat) (r : http_reply) :
  Forall unmatched (firstn k (answers (phone_variants p) st)) ->
  nth_error (answers (phone_variants p) st) k = Some (inr r) ->
  no_documents (reply_json r) = false ->
  first_document (reply_json r) = None ->
  exists e,
    lookup_customer_by_phone (PStr p) pin st
    = (inl e, after_queries (firstn (S k) (phone_variants p)) st) /\
    sent (snd (lookup_customer_by_phone (PStr p) pin st))
    = (sent st ++ map lookup_request (firstn (S k) (phone_variants p)))%list.
Proof.
  intros Hpre Hnth Hn Hf. rewrite lookup_str.
  destruct (lookup_loop_malformed _ pin st k r Hpre Hnth Hn Hf) as [e He].
  exists e. rewrite He. split; [reflexivity|].
  apply (sent_up_to_reply _ st k (inr r) r Hpre Hnth eq_refl).
Qed.

(** X28.  A phone number that holds a surrogate never reaches the
    backend: quoting the first candidate, the literal input, raises
    UnicodeEncodeError, so the lookup raises with nothing sent and the
    decision is the random fallback. *)
Theorem unencodable_phone_falls_back (d : pydict) (p : string) (st : State World) :
  valid_request d = true ->
  dict_get "user_id" d = PStr p ->
  Str.has_surrogate p = true ->
  let draw := random_random (world st) in
  let clock := now_isoformat (snd draw) in
  let approved := float_lt (fst draw) float_0_9 in
  Str.quote (lookup_query p) = None /\
  lookup_customer_by_phone (PStr p) (dict_get "pin" d) st
  = (inl (Raise "UnicodeEncodeError" (encode_error_text (lookup_query p))), st) /\
  dispense_verification (PDict d) st
  = (inr (PDict [ ("type", PStr "dispense_response");
                  ("user_id", PStr p);
                  ("pin", dict_get "pin" d);
                  ("volume_ml", dict_get "volume_ml" d);
                  ("approved", PBool approved);
                  ("reason",
                   PStr (if approved
                         then "Database unavailable - approved by fallback (90% chance)"
                         else "Database unavailable - denied by fallback (10% chance)"));
                  ("timestamp", PStr (fst clock));
                  ("kiosk_id", dict_get "kiosk_id" d) ], 200),
     MkState (snd clock) (sent st)) /\
  sent (snd (dispense_verification (PDict d) st)) = sent st.
Proof.
  intros Hv Hp Hs draw clock approved.
  assert (Hl : lookup_customer_by_phone (PStr p) (dict_get "pin" d) st
               = (inl (UnicodeEncodeError (encode_error_text (lookup_query p))), st)).
  { rewrite lookup_str, phone_variants_eq. now apply lookup_loop_unencodable. }
  split.
  { apply quote_unencodable. now rewrite lookup_query_surrogate. }
  split; [exact Hl|].
  rewrite <- Hp in Hl.
  pose proof (dispense_with_failure d st _ st Hv Hl) as H. cbn zeta in H.
  rewrite H, decision_reply_literal, Hp. split; reflexivity.
Qed.

(** ** Phone formats *)

Lemma lstrip_not_leading c t :
  Str.startswith (String c EmptyString) t = false -> Str.lstrip c t = t.
Proof.
  unfold Str.startswith. destruct t as [|a t]; [reflexivity|].
  cbn. destruct (ascii_dec c a) as [<-|Hne].
  - now destruct t.
  - intros _. destruct (Ascii.eqb a c) eqn:E; [|reflexivity].
    apply Ascii.eqb_eq in E. congruence.
Qed.

Lemma append_not_self (a : ascii) (s t : string) : t <> String a s ++ t.
Proof.
  intros H. apply (f_equal String.length) in H.
  assert (L : forall x y, String.length (x ++ y) = (String.length x + String.length y)%nat).
  { induction x as [|c x IH]; intros y; cbn; [reflexivity | now rewrite IH]. }
  rewrite L in H. cbn in H. lia.
Qed.

(** X10.  The local and the international spelling of a number find each
    other.  For a national number [t] (no ['+254'] inside, no leading zero
    or plus): the candidates of ['0' + t] and of [t] itself include
    ['+254' + t], and the candidates of ['+254' + t] include ['0' + t],
    ['254' + t] and [t]. *)
Theorem formats_meet (t : string) :
  Str.contains "+254" t = false ->
  Str.startswith "0" t = false ->
  Str.startswith "+" t = false ->
  In ("+254" ++ t) (phone_variants ("0" ++ t)) /\
  In ("+254" ++ t) (phone_variants t) /\
  In ("0" ++ t) (phone_variants ("+254" ++ t)) /\
  In ("254" ++ t) (phone_variants ("+254" ++ t)) /\
  In t (phone_variants ("+254" ++ t)).
Proof.
  intros Hc Hz Hp.
  pose proof (lstrip_not_leading "0" t Hz) as Hl.
  split; [|split].
  - rewrite phone_variants_eq. unfold fifth_variant.
    change (Str.startswith "+" ("0" ++ t)) with false.
    change (Str.lstrip "0" ("0" ++ t)) with (Str.lstrip "0" t).
    rewrite Hl. cbn [In]. auto 10.
  - rewrite phone_variants_eq. unfold fifth_variant. rewrite Hp, Hl.
    cbn [In]. auto 10.
  - rewrite phone_variants_eq, !replace_plus254_prefix, !(replace_absent _ _ t Hc).
    cbn [In]. auto 10.
Qed.

Lemma contains_plus254_bare t :
  Str.contains "+254" ("254" ++ t) = Str.contains "+254" t.
Proof. reflexivity. Qed.

(** X11.  The bare country-code spelling is not normalised: for a rest
    [t] without ['+254'], the candidates of ['254' + t] are the literal
    input four times and ['+254254' + t], so neither ['+254' + t] nor
    ['0' + t] is ever queried. *)
Theorem bare_country_code_not_normalized (t : string) :
  Str.contains "+254" t = false ->
  phone_variants ("254" ++ t)
  = [ "254" ++ t; "254" ++ t; "254" ++ t; "254" ++ t; "+254254" ++ t ] /\
  ~ In ("+254" ++ t) (phone_variants ("254" ++ t)) /\
  ~ In ("0" ++ t) (phone_variants ("254" ++ t)).
Proof.
  intros Hc.
  assert (Hv : phone_variants ("254" ++ t)
               = [ "254" ++ t; "254" ++ t; "254" ++ t; "254" ++ t; "+254254" ++ t ]).
  { rewrite phone_variants_eq.
    rewrite !(replace_absent "+254" _ ("254" ++ t))
      by (rewrite contains_plus254_bare; exact Hc).
    reflexivity. }
  split; [exact Hv|]. rewrite Hv. split.
  - cbn [In]. intros [H | [H | [H | [H | [H | []]]]]]; try discriminate.
    cbn in H. injection H as H. symmetry in H.
    exact (append_not_self "2" "54" t H).
  - cbn [In]. intros [H | [H | [H | [H | [H | []]]]]]; discriminate.
Qed.

(** ** URL quoting *)

Lemma string_forall_app f s t :
  string_forall f (s ++ t) = string_forall f s && string_forall f t.
Proof.
  induction s as [|a s IH]; cbn; [reflexivity|]. now rewrite IH, andb_assoc.
Qed.

Lemma quote_byte_chars a : string_forall quoted_char (Str.quote_byte a) = true.
Proof.
  destruct a as [[] [] [] [] [] [] [] []]; vm_compute; reflexivity.
Qed.

Lemma absent_char_not_contained f c s :
  string_forall f s = true -> f c = false ->
  Str.contains (String c EmptyString) s = false.
Proof.
  intros Hs Hc. induction s as [|a s IH]; [reflexivity|].
  cbn in Hs. apply andb_true_iff in Hs as [Ha Hs].
  cbn. destruct (ascii_dec c a) as [<-|Hne]; [congruence|].
  cbn. now apply IH.
Qed.

(** X12.  [urllib.parse.quote] puts out nothing but unreserved characters
    (letters, digits, [_.-~]), [/] and [%]: no quoted filter or phone
    number contains [&], [=], [?], [#], [+], a space or a double quote, so
    a query string cannot be broken up by the text it carries.  (What
    [quote] returns for a str is [quote_from_bytes] of its bytes.) *)
Theorem quote_output_chars (s : string) :
  string_forall quoted_char (Str.quote_from_bytes s) = true /\
  (forall c, quoted_char c = false ->
     Str.contains (String c EmptyString) (Str.quote_from_bytes s) = false) /\
  Str.contains "&" (Str.quote_from_bytes s) = false /\
  Str.contains "=" (Str.quote_from_bytes s) = false /\
  Str.contains "?" (Str.quote_from_bytes s) = false /\
  Str.contains "#" (Str.quote_from_bytes s) = false /\
  Str.contains "+" (Str.quote_from_bytes s) = false /\
  Str.contains " " (Str.quote_from_bytes s) = false /\
  Str.contains Str.dquote (Str.quote_from_bytes s) = false /\
  (forall quoted, Str.quote s = Some quoted -> quoted = Str.quote_from_bytes s).
Proof.
  assert (H : string_forall quoted_char (Str.quote_from_bytes s) = true).
  { induction s as [|a s IH]; [reflexivity|].
    cbn [Str.quote_from_bytes]. now rewrite string_forall_app, quote_byte_chars, IH. }
  split; [exact H|].
  assert (G : forall c, quoted_char c = false ->
                Str.contains (String c EmptyString) (Str.quote_from_bytes s) = false).
  { intros c Hc. exact (absent_char_not_contained quoted_char c _ H Hc). }
  split; [exact G|]. repeat split; try (apply G; reflexivity).
  intros quoted. unfold Str.quote, Str.encode_utf8.
  destruct (Str.has_surrogate s); [discriminate | congruence].
Qed.

Lemma hex_digit_injective x y :
  (x < 16)%nat -> (y < 16)%nat -> Str.hex_digit x = Str.hex_digit y -> x = y.
Proof.
  intros Hx Hy.
  do 16 (destruct x as [|x]; [do 16 (destruct y as [|y]; [vm_compute; congruence|]); lia|]).
  lia.
Qed.

Lemma nat_of_ascii_below a : (nat_of_ascii a < 256)%nat.
Proof. destruct a as [[] [] [] [] [] [] [] []]; vm_compute; lia. Qed.

Lemma quote_byte_injective a b s s' :
  Str.quote_byte a ++ s = Str.quote_byte b ++ s' ->
  a = b /\ s = s'.
Proof.
  unfold Str.quote_byte. cbv zeta.
  remember (nat_of_ascii a / 16)%nat as qa eqn:Eqa.
  remember (nat_of_ascii a mod 16)%nat as ra eqn:Era.
  remember (nat_of_ascii b / 16)%nat as qb eqn:Eqb.
  remember (nat_of_ascii b mod 16)%nat as rb eqn:Erb.
  destruct (Str.quote_safe a) eqn:Sa, (Str.quote_safe b) eqn:Sb; cbn [append];
    intros H.
  - injection H as -> ->. auto.
  - injection H as -> _. discriminate.
  - injection H as <- _. discriminate.
  - injection H as H1 H2 ->. split; [|reflexivity].
    pose proof (nat_of_ascii_below a) as La. pose proof (nat_of_ascii_below b) as Lb.
    assert (Hqa : (qa < 16)%nat)
      by (subst qa; apply Nat.Div0.div_lt_upper_bound; lia).
    assert (Hqb : (qb < 16)%nat)
      by (subst qb; apply Nat.Div0.div_lt_upper_bound; lia).
    assert (Hra : (ra < 16)%nat) by (subst ra; apply Nat.mod_upper_bound; lia).
    assert (Hrb : (rb < 16)%nat) by (subst rb; apply Nat.mod_upper_bound; lia).
    apply (hex_digit_injective _ _ Hqa Hqb) in H1.
    apply (hex_digit_injective _ _ Hra Hrb) in H2.
    rewrite <- (ascii_nat_embedding a), <- (ascii_nat_embedding b).
    f_equal.
    rewrite (Nat.div_mod_eq (nat_of_ascii a) 16), (Nat.div_mod_eq (nat_of_ascii b) 16).
    rewrite <- Eqa, <- Era, <- Eqb, <- Erb. now rewrite H1, H2.
Qed.

Lemma quote_chars s : string_forall quoted_char (Str.quote_from_bytes s) = true.
Proof.
  induction s as [|a s IH]; [reflexivity|].
  cbn [Str.quote_from_bytes]. now rewrite string_forall_app, quote_byte_chars, IH.
Qed.

Lemma quote_one_to_one s s' : Str.quote_from_bytes s = Str.quote_from_bytes s' -> s = s'.
Proof.
  revert s'. induction s as [|a s IH]; intros [|b s'] H.
  - reflexivity.
  - exfalso. cbn in H. unfold Str.quote_byte in H.
    destruct (Str.quote_safe b); discriminate.
  - exfalso. cbn in H. unfold Str.quote_byte in H.
    destruct (Str.quote_safe a); discriminate.
  - cbn [Str.quote_from_bytes] in H.
    destruct (quote_byte_injective a b _ _ H) as [-> Hq].
    f_equal. now apply IH.
Qed.

Lemma append_cancel_l (p a b : string) : p ++ a = p ++ b -> a = b.
Proof. induction p as [|c p IH]; cbn; intros H; [exact H|]. injection H as H. auto. Qed.

Lemma append_length (x y : string) :
  String.length (x ++ y) = (String.length x + String.length y)%nat.
Proof. induction x as [|c x IH]; cbn; [reflexivity | now rewrite IH]. Qed.

Lemma append_cancel_r (a b s : string) : a ++ s = b ++ s -> a = b.
Proof.
  revert b. induction a as [|c a IH]; intros [|c' b] H.
  - reflexivity.
  - exfalso. apply (f_equal String.length) in H.
    rewrite !append_length in H. cbn [String.length Nat.add] in H. lia.
  - exfalso. apply (f_equal String.length) in H.
    rewrite !append_length in H. cbn [String.length Nat.add] in H. lia.
  - cbn in H. injection H as -> H. f_equal. now apply IH.
Qed.

(** X13.  Quoting loses nothing: different strings are quoted
    differently, and so different candidates give different lookup
    requests; two phone strings are never confused in a query. *)
Theorem quote_injective :
  (forall s s', Str.quote_from_bytes s = Str.quote_from_bytes s' -> s = s') /\
  (forall v v', lookup_request v = lookup_request v' -> v = v') /\
  (forall s s' quoted,
      Str.quote s = Some quoted -> Str.quote s' = Some quoted -> s = s').
Proof.
  split; [exact quote_one_to_one|]. split.
  2:{ intros s s' quoted. unfold Str.quote, Str.encode_utf8.
      destruct (Str.has_surrogate s); [discriminate|].
      destruct (Str.has_surrogate s'); [discriminate|].
      intros H1 H2. apply quote_one_to_one. congruence. }
  intros v v' H. unfold lookup_request in H. injection H as H.
  unfold request_url in H.
  repeat (apply append_cancel_l in H).
  apply quote_one_to_one in H.
  repeat (apply append_cancel_l in H).
  now apply append_cancel_r in H.
Qed.

(** ** [make_appwrite_request] *)

Lemma make_appwrite_request_unfold method path body st :
  make_appwrite_request method path body st =
  (response <- urlopen (appwrite_request method path body) ;;
   if status_ok response then
     ret [ ("status", PInt (reply_status response)); ("data", reply_json response) ]
   else
     message <- py_get_default (reply_json response) "message" (PStr "Unknown error") ;;
     raise (Raise "Exception"
              ("HTTP " ++ decimal (reply_status response) ++ ": " ++
               format_value message))) st.
Proof.
  unfold make_appwrite_request. rewrite try_reraise. cbv zeta.
  assert (Hreq :
    Request method (APPWRITE_ENDPOINT ++ path)
      match (if truthy body then Some (json_dumps body) else None) with
      | Some b =>
          if negb (String.eqb b EmptyString)
          then (appwrite_headers ++
                [("Content-Length", decimal (Z.of_nat (String.length b)))])%list
          else appwrite_headers
      | None => appwrite_headers
      end
      (if truthy body then Some (json_dumps body) else None) 10
    = appwrite_request method path body).
  { unfold appwrite_request, headers_for. destruct (truthy body); [|reflexivity].
    now destruct (String.eqb (json_dumps body) EmptyString). }
  rewrite Hreq. reflexivity.
Qed.

Lemma make_appwrite_request_raises method path body st e st1 :
  urlopen (appwrite_request method path body) st = (inl e, st1) ->
  make_appwrite_request method path body st = (inl e, st1).
Proof.
  intros H. rewrite make_appwrite_request_unfold. unfold bind. now rewrite H.
Qed.

Lemma make_appwrite_request_ok method path body st r st1 :
  urlopen (appwrite_request method path body) st = (inr r, st1) ->
  status_ok r = true ->
  make_appwrite_request method path body st
  = (inr [ ("status", PInt (reply_status r)); ("data", reply_json r) ], st1).
Proof.
  intros H Hs. rewrite make_appwrite_request_unfold. unfold bind at 1.
  now rewrite H, Hs.
Qed.

Lemma make_appwrite_request_bad_status method path body st r st1 :
  urlopen (appwrite_request method path body) st = (inr r, st1) ->
  status_ok r = false ->
  make_appwrite_request method path body st = (inl (status_error r), st1).
Proof.
  intros H Hs. rewrite make_appwrite_request_unfold. unfold bind at 1.
  rewrite H, Hs. unfold status_error, py_get_default, bind, ret, raise.
  now destruct (reply_json r).
Qed.

Lemma make_appwrite_request_cases method path body st :
  let ans := urlopen (appwrite_request method path body) st in
  (exists e, fst ans = inl e /\
             make_appwrite_request method path body st = (inl e, snd ans)) \/
  (exists r, fst ans = inr r /\ status_ok r = true /\
             make_appwrite_request method path body st
             = (inr [ ("status", PInt (reply_status r)); ("data", reply_json r) ],
                snd ans)) \/
  (exists r, fst ans = inr r /\ status_ok r = false /\
             make_appwrite_request method path body st
             = (inl (status_error r), snd ans)).
Proof.
  cbn zeta.
  destruct (urlopen (appwrite_request method path body) st) as [[e|r] st1] eqn:H.
  - left. exists e. split; [reflexivity|]. now apply make_appwrite_request_raises.
  - destruct (status_ok r) eqn:Hs.
    + right. left. exists r. repeat split; auto.
      now apply make_appwrite_request_ok.
    + right. right. exists r. repeat split; auto.
      now apply make_appwrite_request_bad_status.
Qed.

(** X14.  [make_appwrite_request] sends exactly one request whatever
    comes back, with no retry: to the endpoint followed by the path, with
    timeout 10, the three fixed headers, and the JSON text of the body with
    its length as [Content-Length] when the body is truthy; a falsy body
    (None, but also an empty object) is sent as no body at all. *)
Theorem appwrite_request_sent_once
    (method path : string) (body : pyval) (st : State World) :
  snd (make_appwrite_request method path body st)
  = snd (urlopen (appwrite_request method path body) st) /\
  sent (snd (make_appwrite_request method path body st))
  = (sent st ++ [appwrite_request method path body])%list /\
  req_url (appwrite_request method path body) = APPWRITE_ENDPOINT ++ path /\
  req_timeout (appwrite_request method path body) = 10 /\
  (truthy body = false ->
   req_data (appwrite_request method path body) = None /\
   req_headers (appwrite_request method path body) = appwrite_headers) /\
  (truthy body = true ->
   req_data (appwrite_request method path body) = Some (json_dumps body) /\
   (json_dumps body <> EmptyString ->
    req_headers (appwrite_request method path body)
    = (appwrite_headers ++
       [("Content-Length", decimal (Z.of_nat (String.length (json_dumps body))))])%list)).
Proof.
  assert (Hs : snd (make_appwrite_request method path body st)
               = snd (urlopen (appwrite_request method path body) st)).
  { destruct (make_appwrite_request_cases method path body st)
      as [(e & _ & ->) | [(r & _ & _ & ->) | (r & _ & _ & ->)]]; reflexivity. }
  split; [exact Hs|]. split; [rewrite Hs; apply urlopen_sent|].
  split; [reflexivity|]. split; [reflexivity|]. split.
  - intros Ht. unfold appwrite_request, headers_for. rewrite Ht. auto.
  - intros Ht. unfold appwrite_request, headers_for. rewrite Ht. cbn.
    split; [reflexivity|]. intros Hne.
    destruct (String.eqb (json_dumps body) EmptyString) eqn:E; [|reflexivity].
    apply String.eqb_eq in E. congruence.
Qed.

(** X15.  [make_appwrite_request] passes an exception of the transport on
    unchanged, and returns the status and the decoded body of a reply whose
    status is in [200, 300).  [urllib.request.urlopen] returns no other
    reply (it raises HTTPError for them): with such a transport, every
    exception [make_appwrite_request] raises is the one [urlopen] raised,
    and every result is the status and body of the reply. *)
Theorem appwrite_status_check
    (method path : string) (body : pyval) (st st1 : State World) :
  (forall e,
      urlopen (appwrite_request method path body) st = (inl e, st1) ->
      make_appwrite_request method path body st = (inl e, st1)) /\
  (forall r,
      urlopen (appwrite_request method path body) st = (inr r, st1) ->
      200 <= reply_status r < 300 ->
      make_appwrite_request method path body st
      = (inr [ ("status", PInt (reply_status r)); ("data", reply_json r) ], st1)) /\
  ((forall req w r w',
       urlopen_json req w = (inr r, w') -> 200 <= reply_status r < 300) ->
   (forall e,
       make_appwrite_request method path body st = (inl e, st1) ->
       urlopen (appwrite_request method path body) st = (inl e, st1)) /\
   (forall result,
       make_appwrite_request method path body st = (inr result, st1) ->
       exists r,
         urlopen (appwrite_request method path body) st = (inr r, st1) /\
         result = [ ("status", PInt (reply_status r)); ("data", reply_json r) ])).
Proof.
  assert (Hok : forall r, 200 <= reply_status r < 300 -> status_ok r = true).
  { intros r Hs. unfold status_ok. apply andb_true_iff.
    split; [apply Z.leb_le | apply Z.ltb_lt]; lia. }
  split; [|split].
  - intros e H. now apply make_appwrite_request_raises.
  - intros r H Hs. apply make_appwrite_request_ok; [exact H | now apply Hok].
  - intros Hstock.
    assert (Hrep : forall r s1,
              urlopen (appwrite_request method path body) st = (inr r, s1) ->
              status_ok r = true).
    { intros r s1 H. apply Hok. unfold urlopen, send in H.
      destruct (urlopen_json (appwrite_request method path body) (world st))
        as [[e|r'] w1] eqn:Hw; [discriminate|].
      injection H as <- _. exact (Hstock _ _ _ _ Hw). }
    destruct (urlopen (appwrite_request method path body) st) as [[e0|r] s1] eqn:H.
    + rewrite (make_appwrite_request_raises _ _ _ _ _ _ H). split.
      * intros e He. injection He as <- <-. reflexivity.
      * intros result Hr. discriminate.
    + rewrite (make_appwrite_request_ok _ _ _ _ _ _ H (Hrep r s1 eq_refl)). split.
      * intros e He. discriminate.
      * intros result Hr. injection Hr as <- <-. exists r. auto.
Qed.

(** ** The proxy handlers *)

Lemma make_appwrite_request_failure method path body st e :
  request_failure (fst (urlopen (appwrite_request method path body) st)) = Some e ->
  make_appwrite_request method path body st
  = (inl e, snd (urlopen (appwrite_request method path body) st)).
Proof.
  destruct (urlopen (appwrite_request method path body) st) as [[e'|r] st1] eqn:H;
    cbn [fst snd request_failure].
  - intros [= <-]. now apply make_appwrite_request_raises.
  - destruct (status_ok r) eqn:Hs; [discriminate|]. intros [= <-].
    now apply make_appwrite_request_bad_status.
Qed.

Lemma make_appwrite_request_success method path body st r :
  fst (urlopen (appwrite_request method path body) st) = inr r ->
  status_ok r = true ->
  make_appwrite_request method path body st
  = (inr [ ("status", PInt (reply_status r)); ("data", reply_json r) ],
     snd (urlopen (appwrite_request method path body) st)).
Proof.
  destruct (urlopen (appwrite_request method path body) st) as [[e'|r'] st1] eqn:H;
    cbn [fst snd]; intros [= ->] Hs.
  now apply make_appwrite_request_ok.
Qed.

(** The handler's [except] branch on an object body. *)
Lemma except_branch kind d e st :
  (request_id <- py_get (PDict d) "request_id" ;;
   ts <- now ;;
   ret (PDict [ ("type", PStr kind);
                ("request_id", request_id);
                ("success", PBool false);
                ("error", PStr (exn_message e));
                ("timestamp", PStr ts) ], 500)) st
  = failure_reply kind d e st.
Proof.
  unfold failure_reply, stamped, failure_envelope, py_get, py_get_default,
    now, lift_world, bind, ret.
  fold (dict_get "request_id" d). now destruct (now_isoformat (world st)).
Qed.

Lemma stamped_run (k : string -> flask_reply) st :
  (ts <- now ;; ret (k ts)) st = stamped k st.
Proof.
  unfold stamped, now, lift_world, bind, ret. now destruct (now_isoformat (world st)).
Qed.

(** *** [database_query] *)

Section QueryRun.

Variable d : pydict.
Variable filters : list string.
Variable st : State World.
Hypothesis Hcollection : truthy (dict_get "collection" d) = true.
Hypothesis Hqueries :
  dict_get_default "queries" (PList []) d = PList (map PStr filters).
Hypothesis Hencodable : encodable filters = true.

Lemma query_run_failure e st1 :
  make_appwrite_request "GET"
    (documents_path (dict_get_default "database" (PStr APPWRITE_DATABASE_ID) d)
                    (dict_get "collection" d) ++ spec_query_string filters)
    PNone st = (inl e, st1) ->
  database_query (PDict d) st = failure_reply "query_response" d e st1.
Proof.
  intros Hrun. unfold database_query, try_except, database_query_body.
  unfold py_get, py_get_default at 1 2 3 4.
  fold (dict_get "collection" d) (dict_get "request_id" d).
  unfold bind at 1 2 3 4. unfold ret at 1 2 3 4.
  rewrite Hcollection, Hqueries. cbn [negb].
  unfold bind at 1. rewrite (build_query_path_filters _ _ _ _ Hencodable).
  unfold bind at 1. rewrite Hrun.
  apply except_branch.
Qed.

Lemma query_run_success s payload st1 :
  make_appwrite_request "GET"
    (documents_path (dict_get_default "database" (PStr APPWRITE_DATABASE_ID) d)
                    (dict_get "collection" d) ++ spec_query_string filters)
    PNone st = (inr [ ("status", s); ("data", payload) ], st1) ->
  database_query (PDict d) st =
  match payload with
  | PDict pd =>
      stamped (fun ts =>
                 (PDict [ ("type", PStr "query_response");
                          ("request_id", dict_get "request_id" d);
                          ("success", PBool true);
                          ("data", payload);
                          ("total", dict_get_default "total" (PInt 0) pd);
                          ("timestamp", PStr ts) ], 200)) st1
  | v => failure_reply "query_response" d (AttributeError v "get") st1
  end.
Proof.
  intros Hrun. unfold database_query, try_except, database_query_body.
  unfold py_get, py_get_default at 1 2 3 4.
  fold (dict_get "collection" d) (dict_get "request_id" d).
  unfold bind at 1 2 3 4. unfold ret at 1 2 3 4.
  rewrite Hcollection, Hqueries. cbn [negb].
  unfold bind at 1. rewrite (build_query_path_filters _ _ _ _ Hencodable).
  unfold bind at 1. rewrite Hrun.
  unfold dict_getitem. cbn [dict_lookup String.eqb Ascii.eqb Bool.eqb].
  unfold bind at 1. unfold ret at 1.
  destruct payload as [| | | | | |pd];
    try (unfold py_get_default at 1; unfold bind at 1; unfold raise at 1;
         apply except_branch).
  unfold py_get_default at 1. unfold bind at 1. unfold ret at 1.
  rewrite stamped_run. reflexivity.
Qed.

End QueryRun.

(** X16.  The three proxy handlers do not answer a body that is JSON
    but not an object (null, a list, a string, a number): the first
    [data.get] raises, and the [except] branch calls [data.get] again, so
    the AttributeError leaves the view instead of becoming the JSON error
    envelope.  Nothing is sent to the backend. *)
Theorem proxy_non_object_body_raises (data : pyval) (st : State World) :
  (forall d, data <> PDict d) ->
  database_query data st = (inl (AttributeError data "get"), st) /\
  database_create data st = (inl (AttributeError data "get"), st) /\
  database_update data st = (inl (AttributeError data "get"), st).
Proof.
  intros Hno.
  destruct data as [| | | | | |d0]; try (now destruct (Hno d0));
    repeat split; reflexivity.
Qed.

(** X17.  Validation of the proxy requests goes by truthiness and comes
    before any request: a query without a truthy [collection], a create
    without a truthy [collection] or [document_data] (an empty object
    counts as missing), an update without a truthy [collection],
    [document_id] or [document_data] is answered with HTTP 400, the
    [request_id] echoed, [success] false and the handler's message, after
    one reading of the clock and with nothing sent. *)
Theorem proxy_validation (d : pydict) (st : State World) :
  (truthy (dict_get "collection" d) = false ->
   database_query (PDict d) st
   = rejection_reply "query_response" d "Collection ID is required" st) /\
  (truthy (dict_get "collection" d) = false \/
   truthy (dict_get "document_data" d) = false ->
   database_create (PDict d) st
   = rejection_reply "create_response" d
       "Collection ID and document_data are required" st) /\
  (py_all [ dict_get "collection" d; dict_get "document_id" d;
            dict_get "document_data" d ] = false ->
   database_update (PDict d) st
   = rejection_reply "update_response" d
       "Collection ID, document_id, and document_data are required" st) /\
  (forall kind message,
      rejection_reply kind d message st
      = (inr (PDict [ ("type", PStr kind);
                      ("request_id", dict_get "request_id" d);
                      ("success", PBool false);
                      ("error", PStr message);
                      ("timestamp", PStr (fst (now_isoformat (world st)))) ], 400),
         MkState (snd (now_isoformat (world st))) (sent st))).
Proof.
  split; [|split; [|split]].
  - intros Hc. unfold database_query, try_except, database_query_body.
    unfold py_get, py_get_default.
    fold (dict_get "collection" d) (dict_get "request_id" d).
    unfold bind at 1 2 3 4. unfold ret at 1 2 3 4. rewrite Hc. cbn [negb].
    rewrite stamped_run. reflexivity.
  - intros Hc. unfold database_create, try_except, database_create_body.
    unfold py_get, py_get_default.
    fold (dict_get "collection" d) (dict_get "request_id" d)
         (dict_get "document_data" d).
    unfold bind at 1 2 3 4 5. unfold ret at 1 2 3 4 5.
    assert (Hor : negb (truthy (dict_get "collection" d))
                  || negb (truthy (dict_get "document_data" d)) = true).
    { destruct Hc as [-> | ->]; [reflexivity | apply orb_true_r]. }
    rewrite Hor. rewrite stamped_run. reflexivity.
  - intros Hc. unfold database_update, try_except, database_update_body.
    unfold py_get, py_get_default.
    fold (dict_get "collection" d) (dict_get "request_id" d)
         (dict_get "document_data" d) (dict_get "document_id" d).
    unfold bind at 1 2 3 4 5. unfold ret at 1 2 3 4 5.
    rewrite Hc. cbn [negb]. rewrite stamped_run. reflexivity.
  - intros kind message. reflexivity.
Qed.

(** X18.  A query whose filters can all be encoded and that the backend
    answers with a status in [200, 300) and a JSON object gets HTTP 200 with [success] true, the [request_id]
    echoed, the whole reply of the backend as [data] and its [total] (0
    when the reply has none); a reply that is not an object gets HTTP 500,
    although the backend answered. *)
Theorem query_success_envelope
    (d : pydict) (filters : list string) (st : State World) (r : http_reply) :
  truthy (dict_get "collection" d) = true ->
  dict_get_default "queries" (PList []) d = PList (map PStr filters) ->
  encodable filters = true ->
  let database := dict_get_default "database" (PStr APPWRITE_DATABASE_ID) d in
  let collection := dict_get "collection" d in
  let request := query_request database collection filters in
  fst (urlopen request st) = inr r ->
  200 <= reply_status r < 300 ->
  (forall payload,
      reply_json r = PDict payload ->
      database_query (PDict d) st
      = stamped (fun ts =>
                   (PDict [ ("type", PStr "query_response");
                            ("request_id", dict_get "request_id" d);
                            ("success", PBool true);
                            ("data", PDict payload);
                            ("total", dict_get_default "total" (PInt 0) payload);
                            ("timestamp", PStr ts) ], 200))
          (snd (urlopen request st))) /\
  ((forall payload, reply_json r <> PDict payload) ->
   database_query (PDict d) st
   = failure_reply "query_response" d (AttributeError (reply_json r) "get")
       (snd (urlopen request st))).
Proof.
  intros Hc Hq He database collection request Hans Hs.
  assert (Hok : status_ok r = true).
  { unfold status_ok. apply andb_true_iff.
    split; [apply Z.leb_le | apply Z.ltb_lt]; lia. }
  pose proof (make_appwrite_request_success "GET"
                (documents_path database collection ++ spec_query_string filters)
                PNone st r Hans Hok) as Hrun.
  pose proof (query_run_success d filters st Hc Hq He _ _ _ Hrun) as H.
  split.
  - intros payload Hp. rewrite H, Hp. reflexivity.
  - intros Hno. rewrite H.
    destruct (reply_json r) as [| | | | | |pd]; try reflexivity.
    now destruct (Hno pd).
Qed.

Lemma map_query_param_raises pre v post st e :
  encodable pre = true ->
  query_param v st = (inl e, st) ->
  map_m query_param (map PStr pre ++ v :: post)%list st = (inl e, st).
Proof.
  intros He Hv. induction pre as [|q pre IH].
  - cbn [map app map_m]. unfold bind at 1. now rewrite Hv.
  - apply encodable_cons in He as [Hq He].
    cbn [map app map_m]. unfold bind at 1.
    rewrite (query_param_encodable q st Hq).
    unfold bind at 1. now rewrite (IH He).
Qed.

Lemma query_param_not_str v st :
  (forall s, v <> PStr s) ->
  query_param v st = (inl (TypeError "quote_from_bytes() expected bytes"), st).
Proof.
  intros Hv. destruct v; try reflexivity. now destruct (Hv s).
Qed.

Lemma query_param_unencodable q st :
  Str.has_surrogate q = true ->
  query_param (PStr q) st = (inl (UnicodeEncodeError (encode_error_text q)), st).
Proof.
  intros H. unfold query_param, py_quote, quote_str.
  now rewrite (quote_unencodable q H).
Qed.

(** A filter that cannot be quoted ends the query with the reply 500. *)
Lemma query_filter_raises d pre v post st e :
  truthy (dict_get "collection" d) = true ->
  dict_get_default "queries" (PList []) d = PList (map PStr pre ++ v :: post)%list ->
  encodable pre = true ->
  query_param v st = (inl e, st) ->
  database_query (PDict d) st = failure_reply "query_response" d e st.
Proof.
  intros Hc Hq He Hv.
  unfold database_query, try_except, database_query_body.
  unfold py_get, py_get_default at 1 2 3 4.
  fold (dict_get "collection" d) (dict_get "request_id" d).
  unfold bind at 1 2 3 4. unfold ret at 1 2 3 4.
  rewrite Hc, Hq. cbn [negb].
  unfold bind at 1. unfold build_query_path.
  assert (Ht : truthy (PList (map PStr pre ++ v :: post)%list) = true)
    by now destruct pre.
  rewrite Ht. unfold bind at 1. cbn [py_iter]. unfold ret at 1.
  unfold bind at 1. rewrite (map_query_param_raises pre v post st e He Hv).
  apply except_branch.
Qed.

(** X19.  A filter that is not a string stops the query before anything
    is sent: when the first value of the [queries] list that cannot be
    quoted is not a string (the filters before it are strings that can be
    encoded), quoting raises, and the reply is HTTP 500 with the message
    'quote_from_bytes() expected bytes'. *)
Theorem query_bad_filter_no_request
    (d : pydict) (pre : list string) (v : pyval) (post : list pyval)
    (st : State World) :
  truthy (dict_get "collection" d) = true ->
  dict_get_default "queries" (PList []) d = PList (map PStr pre ++ v :: post)%list ->
  encodable pre = true ->
  (forall s, v <> PStr s) ->
  database_query (PDict d) st
  = failure_reply "query_response" d
      (TypeError "quote_from_bytes() expected bytes") st /\
  sent (snd (database_query (PDict d) st)) = sent st /\
  fst (database_query (PDict d) st)
  = inr (PDict [ ("type", PStr "query_response");
                 ("request_id", dict_get "request_id" d);
                 ("success", PBool false);
                 ("error", PStr "quote_from_bytes() expected bytes");
                 ("timestamp", PStr (fst (now_isoformat (world st)))) ], 500).
Proof.
  intros Hc Hq He Hv.
  rewrite (query_filter_raises d pre v post st _ Hc Hq He (query_param_not_str v st Hv)).
  repeat split.
Qed.

(** X20.  A query the backend fails is reported, not retried: when the
    one request raises [e] (as [urlopen] does when the backend cannot be
    reached, and, with HTTPError, for every reply outside [200, 300)), the
    reply is HTTP 500 with [success] false, the [request_id] echoed and
    [str(e)] as the error. *)
Theorem query_failure_envelope
    (d : pydict) (filters : list string) (st : State World) (e : exn) :
  truthy (dict_get "collection" d) = true ->
  dict_get_default "queries" (PList []) d = PList (map PStr filters) ->
  encodable filters = true ->
  let database := dict_get_default "database" (PStr APPWRITE_DATABASE_ID) d in
  let collection := dict_get "collection" d in
  let request := query_request database collection filters in
  fst (urlopen request st) = inl e ->
  database_query (PDict d) st
  = (inr (PDict [ ("type", PStr "query_response");
                  ("request_id", dict_get "request_id" d);
                  ("success", PBool false);
                  ("error", PStr (exn_message e));
                  ("timestamp",
                   PStr (fst (now_isoformat (world (snd (urlopen request st)))))) ],
          500),
     tick (snd (urlopen request st))) /\
  sent (snd (database_query (PDict d) st)) = (sent st ++ [request])%list.
Proof.
  intros Hc Hq He database collection request Hfail.
  assert (Hf : request_failure (fst (urlopen request st)) = Some e)
    by now rewrite Hfail.
  pose proof (make_appwrite_request_failure "GET"
                (documents_path database collection ++ spec_query_string filters)
                PNone st e Hf) as Hrun.
  pose proof (query_run_failure d filters st Hc Hq He _ _ Hrun) as H.
  rewrite H. split; [reflexivity|].
  unfold failure_reply, stamped. cbn [snd sent].
  apply urlopen_sent.
Qed.

(** X27.  A filter that holds a surrogate stops the query before anything
    is sent: quoting it raises UnicodeEncodeError, and the reply is
    HTTP 500 with the text of that error; no [queries[]=] parameter is
    built for it. *)
Theorem query_unencodable_filter_no_request
    (d : pydict) (pre : list string) (q : string) (post : list pyval)
    (st : State World) :
  truthy (dict_get "collection" d) = true ->
  dict_get_default "queries" (PList []) d
  = PList (map PStr pre ++ PStr q :: post)%list ->
  encodable pre = true ->
  Str.has_surrogate q = true ->
  Str.quote q = None /\
  database_query (PDict d) st
  = (inr (PDict [ ("type", PStr "query_response");
                  ("request_id", dict_get "request_id" d);
                  ("success", PBool false);
                  ("error", PStr (encode_error_text q));
                  ("timestamp", PStr (fst (now_isoformat (world st)))) ], 500),
     tick st) /\
  sent (snd (database_query (PDict d) st)) = sent st.
Proof.
  intros Hc Hq He Hs. split; [now apply quote_unencodable|].
  rewrite (query_filter_raises d pre (PStr q) post st _ Hc Hq He
             (query_param_unencodable q st Hs)).
  split; reflexivity.
Qed.

(** *** [database_create] *)

Section CreateRun.

Variable d : pydict.
Variable st : State World.
Hypothesis Hcollection : truthy (dict_get "collection" d) = true.
Hypothesis Hdata : truthy (dict_get "document_data" d) = true.

Lemma create_run_failure e st1 :
  make_appwrite_request "POST"
    (documents_path (dict_get_default "database" (PStr APPWRITE_DATABASE_ID) d)
                    (dict_get "collection" d))
    (create_body d) st = (inl e, st1) ->
  database_create (PDict d) st = failure_reply "create_response" d e st1.
Proof.
  intros Hrun. unfold create_body in Hrun.
  unfold database_create, try_except, database_create_body.
  unfold py_get, py_get_default at 1 2 3 4 5.
  fold (dict_get "collection" d) (dict_get "request_id" d) (dict_get "document_data" d).
  unfold bind at 1 2 3 4 5. unfold ret at 1 2 3 4 5.
  rewrite Hcollection, Hdata. cbn [negb orb]. cbv zeta.
  unfold bind at 1. rewrite Hrun.
  apply except_branch.
Qed.

Lemma create_run_success s payload st1 :
  make_appwrite_request "POST"
    (documents_path (dict_get_default "database" (PStr APPWRITE_DATABASE_ID) d)
                    (dict_get "collection" d))
    (create_body d) st = (inr [ ("status", s); ("data", payload) ], st1) ->
  database_create (PDict d) st =
  match fst (py_getitem payload "$id" (tick st1)) with
  | inr _ =>
      stamped (fun ts =>
                 (success_envelope "create_response" (dict_get "request_id" d)
                    payload ts, 200)) st1
  | inl e => failure_reply "create_response" d e (tick st1)
  end.
Proof.
  intros Hrun. unfold create_body in Hrun.
  unfold database_create, try_except, database_create_body.
  unfold py_get, py_get_default at 1 2 3 4 5.
  fold (dict_get "collection" d) (dict_get "request_id" d) (dict_get "document_data" d).
  unfold bind at 1 2 3 4 5. unfold ret at 1 2 3 4 5.
  rewrite Hcollection, Hdata. cbn [negb orb]. cbv zeta.
  unfold bind at 1. rewrite Hrun.
  unfold dict_getitem. cbn [dict_lookup String.eqb Ascii.eqb Bool.eqb].
  unfold bind at 1. unfold ret at 1.
  unfold bind at 1. unfold now at 1. unfold lift_world at 1.
  destruct (now_isoformat (world st1)) as [ts w1] eqn:Hnow.
  unfold bind at 1. unfold ret at 1. unfold bind at 1.
  assert (Htick : tick st1 = MkState w1 (sent st1)).
  { unfold tick. now rewrite Hnow. }
  rewrite Htick.
  destruct (py_getitem payload "$id" (MkState w1 (sent st1))) as [[e|v] st2] eqn:Hid.
  - assert (st2 = MkState w1 (sent st1)) as ->.
    { unfold py_getitem, dict_getitem in Hid.
      destruct payload as [| | | | | |pd]; try (injection Hid as _ <-; reflexivity).
      destruct (dict_lookup "$id" pd); injection Hid as _ <-; reflexivity. }
    cbn [fst]. apply except_branch.
  - assert (st2 = MkState w1 (sent st1)) as ->.
    { unfold py_getitem, dict_getitem in Hid.
      destruct payload as [| | | | | |pd]; try discriminate.
      destruct (dict_lookup "$id" pd); injection Hid as _ <-; reflexivity. }
    cbn [fst]. unfold stamped, success_envelope, ret. rewrite Hnow. reflexivity.
Qed.

End CreateRun.

(** X21.  A create request with a truthy [collection] and
    [document_data] sends one POST to the documents path of the collection,
    whose body is the JSON text of the object with [documentId] (the
    request's [document_id], or 'unique()' when it gives none) and [data].
    When the backend answers with a status in [200, 300) and an object that
    has an ['$id'], the reply is HTTP 200 with [success] true and that
    object as [data]. *)
Theorem create_sends_post_and_succeeds
    (d : pydict) (st : State World) (r : http_reply)
    (payload : pydict) (id : pyval) :
  truthy (dict_get "collection" d) = true ->
  truthy (dict_get "document_data" d) = true ->
  fst (urlopen (create_request d) st) = inr r ->
  200 <= reply_status r < 300 ->
  reply_json r = PDict payload ->
  dict_lookup "$id" payload = Some id ->
  database_create (PDict d) st
  = stamped (fun ts =>
               (success_envelope "create_response" (dict_get "request_id" d)
                  (PDict payload) ts, 200))
      (snd (urlopen (create_request d) st)) /\
  sent (snd (database_create (PDict d) st)) = (sent st ++ [create_request d])%list /\
  req_method (create_request d) = "POST" /\
  req_url (create_request d)
  = APPWRITE_ENDPOINT ++
    documents_path (dict_get_default "database" (PStr APPWRITE_DATABASE_ID) d)
                   (dict_get "collection" d) /\
  req_data (create_request d) = Some (json_dumps (create_body d)) /\
  (dict_lookup "document_id" d = None ->
   create_body d
   = PDict [ ("documentId", PStr "unique()"); ("data", dict_get "document_data" d) ]).
Proof.
  intros Hc Hd Hans Hs Hp Hid.
  assert (Hok : status_ok r = true).
  { unfold status_ok. apply andb_true_iff.
    split; [apply Z.leb_le | apply Z.ltb_lt]; lia. }
  pose proof (make_appwrite_request_success "POST" _ (create_body d) st r Hans Hok)
    as Hrun.
  pose proof (create_run_success d st Hc Hd _ _ _ Hrun) as H.
  rewrite Hp in H. unfold py_getitem, dict_getitem in H. rewrite Hid in H.
  cbn [fst ret] in H.
  split; [exact H|]. split.
  { rewrite H. unfold stamped. cbn [snd sent]. apply urlopen_sent. }
  split; [reflexivity|]. split; [reflexivity|]. split; [reflexivity|].
  intros Hnone. unfold create_body, dict_get_default. now rewrite Hnone.
Qed.

(** X22.  A create that the backend carried out can still be reported as
    failed: when the backend answers with a status in [200, 300) and an
    object without ['$id'], the log line that reads
    [result['data']['$id']] raises inside the [try], and the reply is HTTP
    500 with [success] false and the error ['$id'], after the POST was sent
    and the clock read twice. *)
Theorem create_reply_without_id_fails
    (d : pydict) (st : State World) (r : http_reply) (payload : pydict) :
  truthy (dict_get "collection" d) = true ->
  truthy (dict_get "document_data" d) = true ->
  fst (urlopen (create_request d) st) = inr r ->
  200 <= reply_status r < 300 ->
  reply_json r = PDict payload ->
  dict_lookup "$id" payload = None ->
  database_create (PDict d) st
  = failure_reply "create_response" d (KeyError "'$id'")
      (tick (snd (urlopen (create_request d) st))) /\
  sent (snd (database_create (PDict d) st)) = (sent st ++ [create_request d])%list /\
  exn_message (KeyError "'$id'") = "'$id'".
Proof.
  intros Hc Hd Hans Hs Hp Hid.
  assert (Hok : status_ok r = true).
  { unfold status_ok. apply andb_true_iff.
    split; [apply Z.leb_le | apply Z.ltb_lt]; lia. }
  pose proof (make_appwrite_request_success "POST" _ (create_body d) st r Hans Hok)
    as Hrun.
  pose proof (create_run_success d st Hc Hd _ _ _ Hrun) as H.
  rewrite Hp in H. unfold py_getitem, dict_getitem in H. rewrite Hid in H.
  cbn [fst raise] in H.
  split; [exact H|]. split; [|reflexivity].
  rewrite H. unfold failure_reply, stamped, tick. cbn [snd sent]. apply urlopen_sent.
Qed.

(** *** [database_update] *)

Section UpdateRun.

Variable d : pydict.
Variable st : State World.
Hypothesis Hvalid :
  py_all [ dict_get "collection" d; dict_get "document_id" d;
           dict_get "document_data" d ] = true.

Lemma update_run_failure e st1 :
  make_appwrite_request "PATCH"
    (document_path (dict_get_default "database" (PStr APPWRITE_DATABASE_ID) d)
                   (dict_get "collection" d) (dict_get "document_id" d))
    (PDict [ ("data", dict_get "document_data" d) ]) st = (inl e, st1) ->
  database_update (PDict d) st = failure_reply "update_response" d e st1.
Proof.
  intros Hrun.
  unfold database_update, try_except, database_update_body.
  unfold py_get, py_get_default at 1 2 3 4 5.
  fold (dict_get "collection" d) (dict_get "request_id" d)
       (dict_get "document_data" d) (dict_get "document_id" d).
  unfold bind at 1 2 3 4 5. unfold ret at 1 2 3 4 5.
  rewrite Hvalid. cbn [negb]. cbv zeta.
  unfold bind at 1. rewrite Hrun.
  apply except_branch.
Qed.

Lemma update_run_success s payload st1 :
  make_appwrite_request "PATCH"
    (document_path (dict_get_default "database" (PStr APPWRITE_DATABASE_ID) d)
                   (dict_get "collection" d) (dict_get "document_id" d))
    (PDict [ ("data", dict_get "document_data" d) ]) st
  = (inr [ ("status", s); ("data", payload) ], st1) ->
  database_update (PDict d) st
  = stamped (fun ts =>
               (success_envelope "update_response" (dict_get "request_id" d)
                  payload ts, 200)) st1.
Proof.
  intros Hrun.
  unfold database_update, try_except, database_update_body.
  unfold py_get, py_get_default at 1 2 3 4 5.
  fold (dict_get "collection" d) (dict_get "request_id" d)
       (dict_get "document_data" d) (dict_get "document_id" d).
  unfold bind at 1 2 3 4 5. unfold ret at 1 2 3 4 5.
  rewrite Hvalid. cbn [negb]. cbv zeta.
  unfold bind at 1. rewrite Hrun.
  unfold dict_getitem. cbn [dict_lookup String.eqb Ascii.eqb Bool.eqb].
  unfold bind at 1. unfold ret at 1.
  rewrite stamped_run. reflexivity.
Qed.

End UpdateRun.

(** X23.  An update with truthy [collection], [document_id] and
    [document_data] sends one PATCH to the path of that document with the
    JSON text of [{'data': document_data}].  Any reply with a status in
    [200, 300), whatever its JSON, gives HTTP 200 with [success] true and
    that JSON as [data]; a raised exception or another status gives HTTP
    500 with the error text. *)
Theorem update_envelopes (d : pydict) (st : State World) :
  py_all [ dict_get "collection" d; dict_get "document_id" d;
           dict_get "document_data" d ] = true ->
  let st1 := snd (urlopen (update_request d) st) in
  (forall r,
      fst (urlopen (update_request d) st) = inr r ->
      200 <= reply_status r < 300 ->
      database_update (PDict d) st
      = stamped (fun ts =>
                   (success_envelope "update_response" (dict_get "request_id" d)
                      (reply_json r) ts, 200)) st1) /\
  (forall e,
      request_failure (fst (urlopen (update_request d) st)) = Some e ->
      database_update (PDict d) st = failure_reply "update_response" d e st1) /\
  sent (snd (database_update (PDict d) st)) = (sent st ++ [update_request d])%list /\
  req_method (update_request d) = "PATCH" /\
  req_url (update_request d)
  = APPWRITE_ENDPOINT ++
    document_path (dict_get_default "database" (PStr APPWRITE_DATABASE_ID) d)
                  (dict_get "collection" d) (dict_get "document_id" d) /\
  req_data (update_request d)
  = Some (json_dumps (PDict [ ("data", dict_get "document_data" d) ])).
Proof.
  intros Hv st1.
  assert (Hok : forall r,
             fst (urlopen (update_request d) st) = inr r ->
             status_ok r = true ->
             database_update (PDict d) st
             = stamped (fun ts =>
                          (success_envelope "update_response" (dict_get "request_id" d)
                             (reply_json r) ts, 200)) st1).
  { intros r Hans Hs.
    pose proof (make_appwrite_request_success "PATCH"
                  (document_path (dict_get_default "database" (PStr APPWRITE_DATABASE_ID) d)
                     (dict_get "collection" d) (dict_get "document_id" d))
                  (PDict [ ("data", dict_get "document_data" d) ]) st r Hans Hs) as Hrun.
    exact (update_run_success d st Hv _ _ _ Hrun). }
  assert (Hfail : forall e,
             request_failure (fst (urlopen (update_request d) st)) = Some e ->
             database_update (PDict d) st = failure_reply "update_response" d e st1).
  { intros e He.
    pose proof (make_appwrite_request_failure "PATCH"
                  (document_path (dict_get_default "database" (PStr APPWRITE_DATABASE_ID) d)
                     (dict_get "collection" d) (dict_get "document_id" d))
                  (PDict [ ("data", dict_get "document_data" d) ]) st e He) as Hrun.
    exact (update_run_failure d st Hv _ _ Hrun). }
  split; [|split; [exact Hfail|split]].
  - intros r Hans Hs. apply Hok; [exact Hans|].
    unfold status_ok. apply andb_true_iff.
    split; [apply Z.leb_le | apply Z.ltb_lt]; lia.
  - destruct (request_failure (fst (urlopen (update_request d) st))) as [e|] eqn:Hf.
    + rewrite (Hfail e eq_refl). unfold failure_reply, stamped. cbn [snd sent].
      apply urlopen_sent.
    + destruct (fst (urlopen (update_request d) st)) as [e|r] eqn:Hans;
        [discriminate|]. cbn [request_failure] in Hf.
      destruct (status_ok r) eqn:Hs; [|discriminate].
      rewrite (Hok r eq_refl Hs). unfold stamped. cbn [snd sent]. apply urlopen_sent.
  - repeat split; reflexivity.
Qed.

(** *** [test_database] *)

Lemma py_getitem_state v k (st : State World) : snd (py_getitem v k st) = st.
Proof.
  unfold py_getitem. destruct v; try reflexivity. apply dict_getitem_state.
Qed.

Lemma py_iter_state v (st : State World) : snd (py_iter v st) = st.
Proof. unfold py_iter. now destruct v. Qed.

Lemma map_m_state {A B} (f : A -> M B) xs (st : State World) :
  (forall x s, snd (f x s) = s) -> snd (map_m f xs st) = st.
Proof.
  intros Hf. revert st. induction xs as [|x xs IH]; intros st; [reflexivity|].
  cbn [map_m]. unfold bind at 1.
  pose proof (Hf x st) as Hx. destruct (f x st) as [[e|y] s1]; cbn [snd] in Hx; subst s1;
    [reflexivity|].
  unfold bind at 1.
  pose proof (IH st) as Hxs. destruct (map_m f xs st) as [[e|ys] s2];
    cbn [snd] in Hxs; subst s2; reflexivity.
Qed.

Lemma names_run cols (st : State World) :
  Forall (fun col => dict_lookup "name" col <> None) cols ->
  map_m (fun col => py_getitem col "name") (map PDict cols) st
  = (inr (collection_names cols), st).
Proof.
  induction 1 as [|col cols Hcol _ IH]; [reflexivity|].
  cbn [map map_m collection_names]. unfold bind at 1.
  unfold py_getitem at 1. unfold dict_getitem, dict_get, dict_get_default.
  destruct (dict_lookup "name" col) as [v|]; [|congruence].
  unfold ret at 1. unfold bind at 1. rewrite IH. reflexivity.
Qed.

(** The part of [test_database] that follows the request leaves the
    state alone or reads the clock once, and returns 200 if it returns. *)
Lemma test_database_after_request data (st1 st' : State World) res :
  (logged_total <- py_getitem data "total" ;;
   collections <- py_get_default data "collections" (PList []) ;;
   cols <- py_iter collections ;;
   collection_names <- map_m (fun col => py_getitem col "name") cols ;;
   total <- py_getitem data "total" ;;
   ts <- now ;;
   ret (PDict [ ("status", PStr "DATABASE_SUCCESS");
                ("message", PStr "Database connection working via HTTP!");
                ("collections_found", total);
                ("collection_names", PList collection_names);
                ("timestamp", PStr ts) ], 200)) st1 = (res, st') ->
  (exists e, res = inl e /\ st' = st1) \/
  (exists body, res = inr (PDict body, 200) /\ st' = tick st1).
Proof.
  intros H. unfold bind at 1 in H.
  pose proof (py_getitem_state data "total" st1) as H1.
  destruct (py_getitem data "total" st1) as [[e|t] s]; cbn [snd] in H1; subst s;
    [injection H as <- <-; left; eauto|].
  unfold bind at 1 in H.
  pose proof (py_get_default_state data "collections" (PList []) st1) as H2.
  destruct (py_get_default data "collections" (PList []) st1) as [[e|c] s];
    cbn [snd] in H2; subst s; [injection H as <- <-; left; eauto|].
  unfold bind at 1 in H.
  pose proof (py_iter_state c st1) as H3.
  destruct (py_iter c st1) as [[e|cols] s]; cbn [snd] in H3; subst s;
    [injection H as <- <-; left; eauto|].
  unfold bind at 1 in H.
  pose proof (map_m_state (fun col => py_getitem col "name") cols st1
                (fun x s => py_getitem_state x "name" s)) as H4.
  destruct (map_m (fun col => py_getitem col "name") cols st1) as [[e|names] s];
    cbn [snd] in H4; subst s; [injection H as <- <-; left; eauto|].
  unfold bind at 1 in H.
  pose proof (py_getitem_state data "total" st1) as H5.
  destruct (py_getitem data "total" st1) as [[e|t'] s]; cbn [snd] in H5; subst s;
    [injection H as <- <-; left; eauto|].
  right. unfold now, lift_world, bind, ret in H. unfold tick.
  destruct (now_isoformat (world st1)). injection H as <- <-. eauto.
Qed.

(** X24.  [test_database] always answers, with HTTP 200 or 500, and has
    then sent exactly one request: the GET for the list of collections,
    with the three fixed headers and timeout 10.  No exception leaves the
    view. *)
Theorem test_database_always_replies (st : State World) :
  exists body code st',
    test_database st = (inr (PDict body, code), st') /\
    (code = 200 \/ code = 500) /\
    sent st' = (sent st ++ [collections_request])%list /\
    req_method collections_request = "GET" /\
    req_data collections_request = None /\
    req_timeout collections_request = 10 /\
    req_headers collections_request = appwrite_headers.
Proof.
  unfold test_database, try_except. unfold bind at 1.
  pose proof (urlopen_sent collections_request st) as Hsent.
  destruct (urlopen collections_request st) as [[e|r] st1]; cbn [snd] in Hsent.
  - rewrite stamped_run. unfold stamped. do 3 eexists.
    split; [reflexivity|]. repeat split; auto.
  - match goal with
    | |- context [match ?m st1 with _ => _ end] =>
        destruct (m st1) as [res st2] eqn:Hrest
    end.
    destruct (test_database_after_request _ _ _ _ Hrest)
      as [(e & -> & ->) | (body & -> & ->)].
    + rewrite stamped_run. unfold stamped. do 3 eexists.
      split; [reflexivity|]. repeat split; auto.
    + do 3 eexists. split; [reflexivity|]. repeat split; auto.
Qed.

(** X25.  When the backend answers the collections request with an
    object that has a [total] and whose [collections] (an empty list when
    missing) are objects with a [name], [test_database] answers HTTP 200
    with status 'DATABASE_SUCCESS', that [total] as [collections_found]
    and the names in the order of the list. *)
Theorem test_database_success
    (st : State World) (r : http_reply) (payload : pydict) (total : pyval)
    (cols : list pydict) :
  fst (urlopen collections_request st) = inr r ->
  reply_json r = PDict payload ->
  dict_lookup "total" payload = Some total ->
  dict_get_default "collections" (PList []) payload = PList (map PDict cols) ->
  Forall (fun col => dict_lookup "name" col <> None) cols ->
  test_database st
  = stamped (fun ts =>
               (PDict [ ("status", PStr "DATABASE_SUCCESS");
                        ("message", PStr "Database connection working via HTTP!");
                        ("collections_found", total);
                        ("collection_names", PList (map (dict_get "name") cols));
                        ("timestamp", PStr ts) ], 200))
      (snd (urlopen collections_request st)).
Proof.
  intros Hans Hp Ht Hc Hn.
  assert (Hnames : collection_names cols = map (dict_get "name") cols).
  { clear. induction cols as [|c cols IH]; cbn; [reflexivity | now rewrite IH]. }
  unfold test_database, try_except. unfold bind at 1.
  destruct (urlopen collections_request st) as [[e|r'] st1]; cbn [fst snd] in *;
    [discriminate|]. injection Hans as ->.
  rewrite Hp. unfold py_getitem, dict_getitem. rewrite Ht.
  unfold bind at 1. unfold ret at 1.
  unfold py_get_default. rewrite Hc.
  unfold bind at 1. unfold ret at 1.
  unfold py_iter. unfold bind at 1. unfold ret at 1.
  unfold bind at 1.
  pose proof (names_run cols st1 Hn) as Hrun.
  unfold py_getitem, dict_getitem in Hrun. rewrite Hrun.
  unfold bind at 1. unfold ret at 1.
  rewrite stamped_run, Hnames. reflexivity.
Qed.

(** X26.  [test_database] reports a failure as HTTP 500 with status
    'DATABASE_ERROR' and the text of the exception: the one raised by the
    request, or the KeyError of the missing ['total'] when the backend's
    object has none. *)
Theorem test_database_failure (st : State World) :
  (forall e,
      fst (urlopen collections_request st) = inl e ->
      test_database st
      = stamped (fun ts =>
                   (PDict [ ("status", PStr "DATABASE_ERROR");
                            ("error", PStr (exn_message e));
                            ("timestamp", PStr ts) ], 500))
          (snd (urlopen collections_request st))) /\
  (forall r payload,
      fst (urlopen collections_request st) = inr r ->
      reply_json r = PDict payload ->
      dict_lookup "total" payload = None ->
      test_database st
      = stamped (fun ts =>
                   (PDict [ ("status", PStr "DATABASE_ERROR");
                            ("error", PStr "'total'");
                            ("timestamp", PStr ts) ], 500))
          (snd (urlopen collections_request st))).
Proof.
  split.
  - intros e Hans. unfold test_database, try_except. unfold bind at 1.
    destruct (urlopen collections_request st) as [[e'|r] st1]; cbn [fst snd] in *;
      [|discriminate]. injection Hans as ->.
    now rewrite stamped_run.
  - intros r payload Hans Hp Ht. unfold test_database, try_except. unfold bind at 1.
    destruct (urlopen collections_request st) as [[e'|r'] st1]; cbn [fst snd] in *;
      [discriminate|]. injection Hans as ->.
    rewrite Hp. unfold py_getitem, dict_getitem. rewrite Ht.
    unfold bind at 1. unfold raise at 1.
    now rewrite stamped_run.
Qed.

End Server.
End Server.

(* ===================================================================== *)
(** * The handlers at work in the small world *)
(* ===================================================================== *)

Local Abbreviation PROJECT := "689107c288885e90c039"%string.
Local Abbreviation DATABASE := "6864aed388d20c69a461"%string.
Local Abbreviation API_KEY := "standard-api-key"%string.
Local Abbreviation CUSTOMERS := "customers"%string.
Local Abbreviation ENDPOINT := "http://192.168.1.126/v1"%string.

Local Abbreviation demo_dispense backend :=
  (Server.dispense_verification PROJECT DATABASE API_KEY CUSTOMERS ENDPOINT
     Demo.World backend Demo.random_half Demo.now_noon Demo.encode_error_text).

Local Abbreviation demo_lookup backend :=
  (Server.lookup_customer_by_phone PROJECT DATABASE API_KEY CUSTOMERS ENDPOINT
     Demo.World backend Demo.encode_error_text).

Local Abbreviation demo_request :=
  (Server.lookup_request PROJECT DATABASE API_KEY CUSTOMERS ENDPOINT).

Example replace_all_occurrences :
  Str.replace "+254" "0" "+254712345678" = "0712345678" /\
  Str.replace "+254" EmptyString "a+254b+254" = "ab" /\
  Str.replace "aa" "b" "aaa" = "ba".
Proof. repeat split. Qed.

Example quote_lookup_query :
  Str.quote (Server.lookup_query "+254 7")
  = Some "equal%28%22phone_number%22%2C%22%2B254%207%22%29"%string.
Proof. reflexivity. Qed.

Example quote_lone_surrogate :
  Str.quote Demo.lone_surrogate = None /\
  Str.quote (Server.lookup_query Demo.lone_surrogate) = None /\
  Str.quote_from_bytes Demo.lone_surrogate = "%ED%A0%80"%string.
Proof. repeat split. Qed.

Example nan_equality :
  py_eq (PFloat FNaN) (PFloat FNaN) = false /\
  py_eq (PList [PFloat FNaN]) (PList [PFloat FNaN]) = true /\
  py_eq (PDict [("pin", PList [PFloat FNaN])]) (PDict [("pin", PList [PFloat FNaN])]) = true /\
  py_eq (PBool true) (PInt 1) = true /\
  py_eq (PStr "1") (PInt 1) = false.
Proof. repeat split. Qed.

Example demo_lookup_url :
  Server.request_url DATABASE CUSTOMERS ENDPOINT "+254712345678"
  = "http://192.168.1.126/v1/databases/6864aed388d20c69a461/collections/customers/documents?queries[]=equal%28%22phone_number%22%2C%22%2B254712345678%22%29".
Proof. reflexivity. Qed.

Example demo_verified :
  demo_dispense Demo.backend_up (PDict Demo.good_request) Demo.state0
  = (inr (PDict [ ("type", PStr "dispense_response");
                  ("user_id", PStr "+254712345678");
                  ("pin", PStr "4455");
                  ("volume_ml", PInt 500);
                  ("approved", PBool true);
                  ("reason", PStr "Customer verified in database");
                  ("timestamp", PStr "2025-01-01T12:00:00.000000");
                  ("kiosk_id", PStr "K1");
                  ("user_data",
                   PDict [ ("phone_number", PStr "+254712345678");
                           ("account_id", PStr "ACC-0042");
                           ("full_name", PStr "Amina Otieno");
                           ("active", PBool true);
                           ("credits", PInt 12) ]) ], 200),
     MkState 1%nat [demo_request "+254712345678"]).
Proof. reflexivity. Qed.

Example demo_local_format_found_by_fifth_variant :
  fst (demo_lookup Demo.backend_up (PStr "0712345678") (PStr "4455") Demo.state0)
  = inr (Server.found_record Demo.customer (PStr "4455")) /\
  sent (snd (demo_lookup Demo.backend_up (PStr "0712345678") (PStr "4455") Demo.state0))
  = [ demo_request "0712345678"; demo_request "0712345678";
      demo_request "0712345678"; demo_request "0712345678";
      demo_request "+254712345678" ].
Proof. split; reflexivity. Qed.

(** ** The theorems at concrete inputs *)

Lemma demo_found_by_lookup :
  Server.found_by_lookup PROJECT DATABASE API_KEY CUSTOMERS ENDPOINT
    Demo.World Demo.backend_up Demo.encode_error_text
    (dict_get "user_id" Demo.good_request) Demo.state0 (Some Demo.customer).
Proof.
  exists "+254712345678"%string. split; [reflexivity|].
  exists 0%nat, (inr (Demo.documents_reply [PDict Demo.customer])).
  split; [constructor|]. split; [reflexivity|].
  exists (Demo.documents_reply [PDict Demo.customer]). split; reflexivity.
Defined.

(** C1 at the request of a registered, active customer with the right
    PIN. *)
Lemma decision_in_strict_order_witness :
  Server.valid_request Demo.good_request = true /\
  demo_dispense Demo.backend_up (PDict Demo.good_request) Demo.state0
  = (inr (PDict [ ("type", PStr "dispense_response");
                  ("user_id", PStr "+254712345678");
                  ("pin", PStr "4455");
                  ("volume_ml", PInt 500);
                  ("approved", PBool true);
                  ("reason", PStr "Customer verified in database");
                  ("timestamp", PStr "2025-01-01T12:00:00.000000");
                  ("kiosk_id", PStr "K1");
                  ("user_data", PDict (Server.customer_data Demo.customer)) ], 200),
     MkState 1%nat [demo_request "+254712345678"]).
Proof.
  split; [reflexivity|].
  exact (Server.decision_in_strict_order
           PROJECT DATABASE API_KEY CUSTOMERS ENDPOINT
           Demo.World Demo.backend_up Demo.random_half Demo.now_noon
           Demo.encode_error_text
           Demo.good_request Demo.state0 (Some Demo.customer)
           eq_refl demo_found_by_lookup).
Defined.

(** C2 with the backend down and the draw 1/2. *)
Lemma backend_failure_falls_back_witness :
  demo_dispense Demo.backend_down (PDict Demo.good_request) Demo.state0
  = (inr (PDict [ ("type", PStr "dispense_response");
                  ("user_id", PStr "+254712345678");
                  ("pin", PStr "4455");
                  ("volume_ml", PInt 500);
                  ("approved", PBool true);
                  ("reason",
                   PStr "Database unavailable - approved by fallback (90% chance)");
                  ("timestamp", PStr "2025-01-01T12:00:00.000000");
                  ("kiosk_id", PStr "K1") ], 200),
     MkState 2%nat [demo_request "+254712345678"]).
Proof.
  exact (proj1 (Server.backend_failure_falls_back
                  PROJECT DATABASE API_KEY CUSTOMERS ENDPOINT
                  Demo.World Demo.backend_down Demo.random_half Demo.now_noon
                  Demo.encode_error_text
                  Demo.good_request Demo.state0
                  (MkState 0%nat [demo_request "+254712345678"])
                  (Raise "URLError" "<urlopen error [Errno 111] Connection refused>")
                  eq_refl eq_refl)).
Defined.

(** C5 at the approved request. *)
Lemma approved_payload_is_redacted_witness :
  exists d customer,
    PDict Demo.good_request = PDict d /\
    Server.found_by_lookup PROJECT DATABASE API_KEY CUSTOMERS ENDPOINT
      Demo.World Demo.backend_up Demo.encode_error_text
      (dict_get "user_id" d) Demo.state0 (Some customer) /\
    PDict (Server.customer_data Demo.customer) = PDict (Server.customer_data customer) /\
    dict_keys (Server.customer_data customer)
    = ["phone_number"; "account_id"; "full_name"; "active"; "credits"]%string /\
    dict_lookup "pin" (Server.customer_data customer) = None /\
    Server.customer_data customer
    = [ ("phone_number", dict_get "phone_number" customer);
        ("account_id", dict_get "account_id" customer);
        ("full_name", dict_get "full_name" customer);
        ("active", dict_get "active" customer);
        ("credits", dict_get_default "credits" (PInt 0) customer) ].
Proof.
  exact (Server.approved_payload_is_redacted
           PROJECT DATABASE API_KEY CUSTOMERS ENDPOINT
           Demo.World Demo.backend_up Demo.random_half Demo.now_noon
                   Demo.encode_error_text
           (PDict Demo.good_request) Demo.state0
           (MkState 1%nat [demo_request "+254712345678"])
           (match fst (Server.decision_reply Demo.good_request true
                         "Customer verified in database"
                         (PDict (Server.customer_data Demo.customer))
                         "2025-01-01T12:00:00.000000") with
            | PDict b => b
            | _ => []
            end)
           200
           (PDict (Server.customer_data Demo.customer))
           eq_refl eq_refl eq_refl).
Defined.

(** C6 (amended) at a request without [pin]. *)
Lemma missing_field_rejected_witness :
  demo_dispense Demo.backend_up
    (PDict [ ("kiosk_id", PStr "K1"); ("user_id", PStr "+254712345678") ])
    Demo.state0
  = (inr Server.invalid_request_reply, Demo.state0).
Proof.
  refine (proj1 (Server.missing_field_rejected
                   PROJECT DATABASE API_KEY CUSTOMERS ENDPOINT
                   Demo.World Demo.backend_up Demo.random_half Demo.now_noon
                   Demo.encode_error_text
                   [ ("kiosk_id", PStr "K1"); ("user_id", PStr "+254712345678") ]
                   "pin" Demo.state0 _ _ eq_refl)).
  - discriminate.
  - right. right. reflexivity.
Defined.

(** C10 (amended) at a request whose [pin] is the empty string. *)
Lemma falsy_field_rejected_witness :
  demo_dispense Demo.backend_up
    (PDict [ ("kiosk_id", PStr "K1"); ("user_id", PStr "+254712345678");
             ("pin", PStr EmptyString) ])
    Demo.state0
  = (inr Server.invalid_request_reply, Demo.state0) /\
  demo_dispense Demo.backend_up
    (PDict [ ("kiosk_id", PStr "K1"); ("user_id", PStr "+254712345678") ])
    Demo.state0
  = demo_dispense Demo.backend_up
      (PDict [ ("kiosk_id", PStr "K1"); ("user_id", PStr "+254712345678");
               ("pin", PStr EmptyString) ])
      Demo.state0.
Proof.
  assert (Hk : Server.required_field "pin") by (right; right; reflexivity).
  pose proof (Server.falsy_field_rejected
                PROJECT DATABASE API_KEY CUSTOMERS ENDPOINT
                Demo.World Demo.backend_up Demo.random_half Demo.now_noon
                Demo.encode_error_text
                [ ("kiosk_id", PStr "K1"); ("user_id", PStr "+254712345678");
                  ("pin", PStr EmptyString) ]
                "pin" (PStr EmptyString) Demo.state0 Hk eq_refl eq_refl)
    as (H & _ & _ & _ & Hremoved).
  split; [exact H|]. apply Hremoved. discriminate.
Defined.

(** C7 (amended) at the approved request. *)
Lemma valid_request_gets_decision_object_witness :
  exists approved reason ts attached st',
    demo_dispense Demo.backend_up (PDict Demo.good_request) Demo.state0
    = (inr (PDict ([ ("type", PStr "dispense_response");
                     ("user_id", PStr "+254712345678");
                     ("pin", PStr "4455");
                     ("volume_ml", PInt 500);
                     ("approved", PBool approved);
                     ("reason", PStr reason);
                     ("timestamp", PStr ts);
                     ("kiosk_id", PStr "K1") ] ++ attached)%list, 200), st') /\
    approved = true /\
    attached = [("user_data", PDict (Server.customer_data Demo.customer))].
Proof.
  destruct (Server.valid_request_gets_decision_object
              PROJECT DATABASE API_KEY CUSTOMERS ENDPOINT
              Demo.World Demo.backend_up Demo.random_half Demo.now_noon
              Demo.encode_error_text
              Demo.good_request Demo.state0 eq_refl)
    as (approved & reason & ts & attached & body & st' & H & Hb & _ & _ & Hfound & _).
  exists approved, reason, ts, attached, st'.
  rewrite Hb in H. split; [exact H|].
  exact (Hfound Demo.customer demo_found_by_lookup eq_refl eq_refl eq_refl).
Defined.

(** C9 (amended) at a number in local format. *)
Lemma variants_without_country_code_witness :
  Server.phone_variants "0712345678"
  = [ "0712345678"; "0712345678"; "0712345678"; "0712345678";
      Server.fifth_variant "0712345678" ]%string.
Proof.
  exact (proj1 (Server.variants_without_country_code
                  PROJECT DATABASE API_KEY CUSTOMERS ENDPOINT
                  Demo.World Demo.backend_up Demo.encode_error_text
                  "0712345678" eq_refl)).
Defined.

(** C8 (amended) at a query with two filters. *)
Lemma query_filters_quoted_in_order_witness :
  sent (snd (Server.database_query PROJECT DATABASE API_KEY ENDPOINT
               Demo.World Demo.backend_up Demo.now_noon
               Demo.json_dumps_null Demo.str_of_value_none Demo.encode_error_text
               (PDict [ ("collection", PStr "customers");
                        ("queries", PList (map PStr [ Server.lookup_query "+254712345678";
                                                      "limit(5)"%string ])) ])
               Demo.state0))
  = [ Request "GET"
        "http://192.168.1.126/v1/v1/databases/6864aed388d20c69a461/collections/customers/documents?queries[]=equal%28%22phone_number%22%2C%22%2B254712345678%22%29&queries[]=limit%285%29"
        [ ("X-Appwrite-Project", PROJECT); ("X-Appwrite-Key", API_KEY);
          ("Content-Type", "application/json"%string) ]
        None 10 ].
Proof.
  exact (proj1 (proj2 (Server.query_filters_quoted_in_order
                         PROJECT DATABASE API_KEY ENDPOINT
                         Demo.World Demo.backend_up Demo.now_noon
                         Demo.json_dumps_null Demo.str_of_value_none Demo.encode_error_text
                         [ ("collection", PStr "customers");
                           ("queries", PList (map PStr [ Server.lookup_query "+254712345678";
                                                         "limit(5)"%string ])) ]
                         [ Server.lookup_query "+254712345678"; "limit(5)"%string ]
                         Demo.state0 eq_refl eq_refl eq_refl))).
Defined.


(** C3 (amended) at a number in international format. *)
Lemma phone_variants_fixed_list_witness :
  Server.phone_variants "+254712345678"
  = [ "+254712345678"; "0712345678"; "254712345678"; "712345678";
      "+254712345678" ]%string.
Proof.
  exact (proj2 (proj2 (proj2 (proj2 (Server.phone_variants_fixed_list
                                PROJECT DATABASE API_KEY CUSTOMERS ENDPOINT
                                Demo.World Demo.backend_up Demo.encode_error_text
                                "+254712345678"))))
           "712345678"%string eq_refl eq_refl).
Defined.

(** ** Where the claims, read to the letter, fail *)

(** C3 as stated: the second candidate is the input with its ['+254']
    prefix replaced by ['0'].  For the input ['0+254'], which has no such
    prefix, the second candidate is ['00']. *)
Lemma second_variant_not_prefix_rewrite :
  ~ (forall p : string,
        nth_error (Server.phone_variants p) 1
        = Some (Server.replace_prefix "+254" "0" p)).
Proof.
  intros H. specialize (H "0+254"%string). vm_compute in H. discriminate.
Qed.

(** C6 as stated: every body in which a required field is missing gets
    HTTP 400 with [approved] false and the reason 'Invalid request format'.
    The empty object is answered with 'No JSON data provided' alone. *)
Lemma empty_object_not_invalid_format :
  ~ (forall (d : pydict) (k : string),
        Server.required_field k ->
        dict_lookup k d = None ->
        exists body st',
          demo_dispense Demo.backend_up (PDict d) Demo.state0
          = (inr (PDict body, 400), st') /\
          dict_lookup "approved" body = Some (PBool false) /\
          dict_lookup "reason" body = Some (PStr "Invalid request format")).
Proof.
  intros H.
  destruct (H [] "pin"%string (or_intror (or_intror eq_refl)) eq_refl)
    as (body & st' & Hrun & Happ & _).
  vm_compute in Hrun. injection Hrun as <- _. discriminate.
Qed.

(** C7 as stated: every POST gets a decision object.  A request without
    [pin] gets a reply without kiosk id, phone number, PIN, volume or
    timestamp. *)
Lemma rejected_request_gets_no_decision_object :
  ~ (forall data : pyval,
        exists body code st',
          demo_dispense Demo.backend_up data Demo.state0 = (inr (body, code), st') /\
          Server.is_decision_object body = true).
Proof.
  intros H.
  destruct (H (PDict [ ("kiosk_id", PStr "K1"); ("user_id", PStr "+254712345678") ]))
    as (body & code & st' & Hrun & Hobj).
  vm_compute in Hrun. injection Hrun as <- _ _. discriminate.
Qed.

(** C9 as stated: without ['+254'] in the input, the same string is
    queried up to four times before the ['+254']-prefixed candidate.  The
    input ['+255712345678'] is queried five times and no candidate starts
    with ['+254']. *)
Lemma fifth_variant_not_always_prefixed :
  ~ (forall p : string,
        Str.contains "+254" p = false ->
        exists fifth,
          Server.phone_variants p = [p; p; p; p; fifth] /\
          Str.startswith "+254" fifth = true).
Proof.
  intros H.
  destruct (H "+255712345678"%string eq_refl) as (fifth & Hv & Hs).
  vm_compute in Hv. injection Hv as <-. discriminate.
Qed.

(** C10 as stated: a required field with a falsy value is answered
    exactly as if the field were absent.  The body whose only field is a
    [pin] that is the empty string gets 'Invalid request format' with
    [approved] false; without that field it is the empty object, which gets
    'No JSON data provided' alone. *)
Lemma falsy_field_not_as_absent :
  ~ (forall (d : pydict) (k : string) (v : pyval),
        Server.required_field k ->
        dict_lookup k d = Some v ->
        truthy v = false ->
        demo_dispense Demo.backend_up (PDict (Server.dict_remove k d)) Demo.state0
        = demo_dispense Demo.backend_up (PDict d) Demo.state0).
Proof.
  intros H.
  specialize (H [ ("pin", PStr EmptyString) ] "pin"%string (PStr EmptyString)
                (or_intror (or_intror eq_refl)) eq_refl eq_refl).
  vm_compute in H. discriminate.
Qed.

(** C8 as stated: for every query request, each filter string is escaped
    and appended to the path requested.  A filter that holds a surrogate
    cannot be escaped: quoting raises, the reply is HTTP 500 and no request
    is sent. *)
Lemma unencodable_filter_not_requested :
  ~ (forall filters : list string,
        sent (snd (Server.database_query PROJECT DATABASE API_KEY ENDPOINT
                     Demo.World Demo.backend_up Demo.now_noon
                     Demo.json_dumps_null Demo.str_of_value_none
                     Demo.encode_error_text
                     (PDict [ ("collection", PStr "customers");
                              ("queries", PList (map PStr filters)) ])
                     Demo.state0))
        = [ Server.query_request PROJECT API_KEY ENDPOINT Demo.str_of_value_none
              (PStr DATABASE) (PStr "customers") filters ]).
Proof.
  intros H. specialize (H [ Demo.lone_surrogate ]).
  vm_compute in H. discriminate.
Qed.

(* ===================================================================== *)
(** * The further properties at concrete inputs *)
(* ===================================================================== *)

Local Abbreviation demo_query backend :=
  (Server.database_query PROJECT DATABASE API_KEY ENDPOINT
     Demo.World backend Demo.now_noon Demo.json_dumps_null Demo.str_of_value_none
     Demo.encode_error_text).

Local Abbreviation demo_create backend :=
  (Server.database_create PROJECT DATABASE API_KEY ENDPOINT
     Demo.World backend Demo.now_noon Demo.json_dumps_null Demo.str_of_value_none).

Local Abbreviation demo_update backend :=
  (Server.database_update PROJECT DATABASE API_KEY ENDPOINT
     Demo.World backend Demo.now_noon Demo.json_dumps_null Demo.str_of_value_none).

Local Abbreviation demo_test_database backend :=
  (Server.test_database PROJECT DATABASE API_KEY ENDPOINT
     Demo.World backend Demo.now_noon).

(** X2 at the body [[1]]. *)
Lemma non_object_body_answered_without_lookup_witness :
  demo_dispense Demo.backend_up (PList [PInt 1]) Demo.state0
  = (inr (PDict [ ("error", PStr "'list' object has no attribute 'get'");
                  ("type", PStr "server_error");
                  ("approved", PBool false);
                  ("reason", PStr "Server error occurred");
                  ("timestamp", PStr "2025-01-01T12:00:00.000000") ], 500),
     MkState 1%nat []).
Proof.
  refine (proj2 (Server.non_object_body_answered_without_lookup
                   PROJECT DATABASE API_KEY CUSTOMERS ENDPOINT
                   Demo.World Demo.backend_up Demo.random_half Demo.now_noon
                   Demo.encode_error_text
                   (PList [PInt 1]) Demo.state0) _ eq_refl).
  intros d. discriminate.
Defined.

(** X3 at a request whose [user_id] is the number 712345678. *)
Lemma non_string_phone_falls_back_witness :
  sent (snd (demo_dispense Demo.backend_up
               (PDict [ ("kiosk_id", PStr "K1"); ("user_id", PInt 712345678);
                        ("pin", PStr "4455") ])
               Demo.state0))
  = [].
Proof.
  refine (proj2 (proj2 (Server.non_string_phone_falls_back
                          PROJECT DATABASE API_KEY CUSTOMERS ENDPOINT
                          Demo.World Demo.backend_up Demo.random_half Demo.now_noon
                   Demo.encode_error_text
                          [ ("kiosk_id", PStr "K1"); ("user_id", PInt 712345678);
                            ("pin", PStr "4455") ]
                          Demo.state0 eq_refl _))).
  intros p. discriminate.
Defined.

(** X4 at the approved request. *)
Lemma approval_is_sound_witness :
  exists customer,
    Server.found_by_lookup PROJECT DATABASE API_KEY CUSTOMERS ENDPOINT
      Demo.World Demo.backend_up Demo.encode_error_text
      (PStr "+254712345678") Demo.state0 (Some customer) /\
    py_eq (dict_get "pin" customer) (PStr "4455") = true.
Proof.
  destruct (Server.approval_is_sound
              PROJECT DATABASE API_KEY CUSTOMERS ENDPOINT
              Demo.World Demo.backend_up Demo.random_half Demo.now_noon
                   Demo.encode_error_text
              (PDict Demo.good_request) Demo.state0
              (MkState 1%nat [demo_request "+254712345678"])
              (match fst (Server.decision_reply Demo.good_request true
                            "Customer verified in database"
                            (PDict (Server.customer_data Demo.customer))
                            "2025-01-01T12:00:00.000000") with
               | PDict b => b
               | _ => []
               end)
              200 eq_refl eq_refl)
    as (_ & d & Hd & _ & [(c & Hf & _ & _ & Hp & _) | (e & st1 & Hl & _)]);
    injection Hd as <-.
  - exists c. split; [exact Hf | exact Hp].
  - exfalso. vm_compute in Hl. discriminate.
Defined.

(** X7 at the good request, with and without a client timestamp. *)
Lemma dispense_ignores_other_fields_witness :
  demo_dispense Demo.backend_up
    (PDict (Demo.good_request ++ [ ("timestamp", PStr "1999-12-31T23:59:59") ])%list)
    Demo.state0
  = demo_dispense Demo.backend_up (PDict Demo.good_request) Demo.state0.
Proof.
  refine (Server.dispense_ignores_other_fields
            PROJECT DATABASE API_KEY CUSTOMERS ENDPOINT
            Demo.World Demo.backend_up Demo.random_half Demo.now_noon
                   Demo.encode_error_text
            (Demo.good_request ++ [ ("timestamp", PStr "1999-12-31T23:59:59") ])%list
            Demo.good_request Demo.state0 _ _ eq_refl eq_refl eq_refl eq_refl);
    discriminate.
Defined.

(** X8 with the backend down: the first query raises. *)
Lemma backend_error_propagates_witness :
  demo_lookup Demo.backend_down (PStr "0712345678") (PStr "4455") Demo.state0
  = (inl (Raise "URLError" "<urlopen error [Errno 111] Connection refused>"),
     MkState 0%nat [demo_request "0712345678"]).
Proof.
  refine (proj1 (Server.backend_error_propagates
                   PROJECT DATABASE API_KEY CUSTOMERS ENDPOINT
                   Demo.World Demo.backend_down Demo.encode_error_text
                   "0712345678" (PStr "4455") Demo.state0 0%nat
                   (Raise "URLError" "<urlopen error [Errno 111] Connection refused>")
                   _ eq_refl)).
  constructor.
Defined.

(** X9 with a backend that answers with a JSON list. *)
Lemma malformed_reply_raises_witness :
  exists e,
    demo_lookup Demo.backend_garbled (PStr "0712345678") (PStr "4455") Demo.state0
    = (inl e, MkState 0%nat [demo_request "0712345678"]) /\
    sent (snd (demo_lookup Demo.backend_garbled (PStr "0712345678") (PStr "4455")
                 Demo.state0))
    = [demo_request "0712345678"].
Proof.
  refine (Server.malformed_reply_raises
            PROJECT DATABASE API_KEY CUSTOMERS ENDPOINT
            Demo.World Demo.backend_garbled Demo.encode_error_text
            "0712345678" (PStr "4455") Demo.state0 0%nat
            (HttpReply 200 (PList [])) _ eq_refl eq_refl eq_refl).
  constructor.
Defined.

(** X10 and X11 at the national number 712345678. *)
Lemma formats_meet_witness :
  In "+254712345678"%string (Server.phone_variants "0712345678") /\
  In "0712345678"%string (Server.phone_variants "+254712345678").
Proof.
  destruct (Server.formats_meet "712345678" eq_refl eq_refl eq_refl)
    as (H1 & _ & H3 & _).
  split; [exact H1 | exact H3].
Defined.

Lemma bare_country_code_not_normalized_witness :
  ~ In "+254712345678"%string (Server.phone_variants "254712345678").
Proof.
  exact (proj1 (proj2 (Server.bare_country_code_not_normalized "712345678" eq_refl))).
Defined.

(** X16 at the body [null]. *)
Lemma proxy_non_object_body_raises_witness :
  demo_query Demo.backend_up PNone Demo.state0
  = (inl (AttributeError PNone "get"), Demo.state0).
Proof.
  refine (proj1 (Server.proxy_non_object_body_raises
                   PROJECT DATABASE API_KEY ENDPOINT
                   Demo.World Demo.backend_up Demo.now_noon
                   Demo.json_dumps_null Demo.str_of_value_none Demo.encode_error_text
                   PNone Demo.state0 _)).
  intros d. discriminate.
Defined.

(** X17 at a create request whose [document_data] is the empty object. *)
Lemma proxy_validation_witness :
  demo_create Demo.backend_up
    (PDict [ ("collection", PStr "customers"); ("document_data", PDict []);
             ("request_id", PInt 7) ])
    Demo.state0
  = (inr (PDict [ ("type", PStr "create_response");
                  ("request_id", PInt 7);
                  ("success", PBool false);
                  ("error", PStr "Collection ID and document_data are required");
                  ("timestamp", PStr "2025-01-01T12:00:00.000000") ], 400),
     MkState 1%nat []).
Proof.
  exact (proj1 (proj2 (Server.proxy_validation
                         PROJECT DATABASE API_KEY ENDPOINT
                         Demo.World Demo.backend_up Demo.now_noon
                         Demo.json_dumps_null Demo.str_of_value_none Demo.encode_error_text
                         [ ("collection", PStr "customers"); ("document_data", PDict []);
                           ("request_id", PInt 7) ]
                         Demo.state0))
           (or_intror eq_refl)).
Defined.

(** X18 at a query for the stored customer. *)
Lemma query_success_envelope_witness :
  demo_query Demo.backend_up
    (PDict [ ("collection", PStr "customers");
             ("queries", PList [ PStr (Server.lookup_query "+254712345678") ]);
             ("request_id", PStr "req-1") ])
    Demo.state0
  = (inr (PDict [ ("type", PStr "query_response");
                  ("request_id", PStr "req-1");
                  ("success", PBool true);
                  ("data", reply_json (Demo.documents_reply [PDict Demo.customer]));
                  ("total", PInt 1);
                  ("timestamp", PStr "2025-01-01T12:00:00.000000") ], 200),
     MkState 1%nat
       [ Server.query_request PROJECT API_KEY ENDPOINT Demo.str_of_value_none
           (PStr DATABASE) (PStr "customers")
           [ Server.lookup_query "+254712345678" ] ]).
Proof.
  refine (proj1 (Server.query_success_envelope
                   PROJECT DATABASE API_KEY ENDPOINT
                   Demo.World Demo.backend_up Demo.now_noon
                   Demo.json_dumps_null Demo.str_of_value_none Demo.encode_error_text
                   [ ("collection", PStr "customers");
                     ("queries", PList [ PStr (Server.lookup_query "+254712345678") ]);
                     ("request_id", PStr "req-1") ]
                   [ Server.lookup_query "+254712345678" ]
                   Demo.state0 (Demo.documents_reply [PDict Demo.customer])
                   eq_refl eq_refl eq_refl eq_refl _)
            [ ("total", PInt 1); ("documents", PList [PDict Demo.customer]) ]
            eq_refl).
  cbn. lia.
Defined.

(** X19 at a query whose second filter is the number 5. *)
Lemma query_bad_filter_no_request_witness :
  sent (snd (demo_query Demo.backend_up
               (PDict [ ("collection", PStr "customers");
                        ("queries", PList [ PStr "limit(5)"; PInt 5 ]) ])
               Demo.state0))
  = [].
Proof.
  refine (proj1 (proj2 (Server.query_bad_filter_no_request
                   PROJECT DATABASE API_KEY ENDPOINT
                   Demo.World Demo.backend_up Demo.now_noon
                   Demo.json_dumps_null Demo.str_of_value_none Demo.encode_error_text
                   [ ("collection", PStr "customers");
                     ("queries", PList [ PStr "limit(5)"; PInt 5 ]) ]
                   [ "limit(5)"%string ] (PInt 5) [] Demo.state0
                   eq_refl eq_refl eq_refl _))).
  intros s. discriminate.
Defined.

(** X20 with a backend for which [urlopen] raises the HTTPError of a
    404. *)
Lemma query_failure_envelope_witness :
  demo_query Demo.backend_not_found
    (PDict [ ("collection", PStr "customers"); ("request_id", PStr "req-2") ])
    Demo.state0
  = (inr (PDict [ ("type", PStr "query_response");
                  ("request_id", PStr "req-2");
                  ("success", PBool false);
                  ("error", PStr "HTTP Error 404: Not Found");
                  ("timestamp", PStr "2025-01-01T12:00:00.000000") ], 500),
     MkState 1%nat
       [ Server.query_request PROJECT API_KEY ENDPOINT Demo.str_of_value_none
           (PStr DATABASE) (PStr "customers") [] ]).
Proof.
  exact (proj1 (Server.query_failure_envelope
                  PROJECT DATABASE API_KEY ENDPOINT
                  Demo.World Demo.backend_not_found Demo.now_noon
                  Demo.json_dumps_null Demo.str_of_value_none Demo.encode_error_text
                  [ ("collection", PStr "customers"); ("request_id", PStr "req-2") ]
                  [] Demo.state0
                  (Raise "HTTPError" "HTTP Error 404: Not Found")
                  eq_refl eq_refl eq_refl eq_refl)).
Defined.

(** X27 at a query whose second filter is the lone surrogate U+D800. *)
Lemma query_unencodable_filter_no_request_witness :
  demo_query Demo.backend_up
    (PDict [ ("collection", PStr "customers");
             ("queries", PList [ PStr "limit(5)"; PStr Demo.lone_surrogate ]);
             ("request_id", PStr "req-3") ])
    Demo.state0
  = (inr (PDict [ ("type", PStr "query_response");
                  ("request_id", PStr "req-3");
                  ("success", PBool false);
                  ("error", PStr (Demo.encode_error_text Demo.lone_surrogate));
                  ("timestamp", PStr "2025-01-01T12:00:00.000000") ], 500),
     MkState 1%nat []).
Proof.
  exact (proj1 (proj2 (Server.query_unencodable_filter_no_request
                         PROJECT DATABASE API_KEY ENDPOINT
                         Demo.World Demo.backend_up Demo.now_noon
                         Demo.json_dumps_null Demo.str_of_value_none
                         Demo.encode_error_text
                         [ ("collection", PStr "customers");
                           ("queries", PList [ PStr "limit(5)"; PStr Demo.lone_surrogate ]);
                           ("request_id", PStr "req-3") ]
                         [ "limit(5)"%string ] Demo.lone_surrogate [] Demo.state0
                         eq_refl eq_refl eq_refl eq_refl))).
Defined.

(** X28 at a request whose [user_id] is the lone surrogate U+D800. *)
Lemma unencodable_phone_falls_back_witness :
  demo_dispense Demo.backend_up
    (PDict [ ("kiosk_id", PStr "K1"); ("user_id", PStr Demo.lone_surrogate);
             ("pin", PStr "4455") ])
    Demo.state0
  = (inr (PDict [ ("type", PStr "dispense_response");
                  ("user_id", PStr Demo.lone_surrogate);
                  ("pin", PStr "4455");
                  ("volume_ml", PNone);
                  ("approved", PBool true);
                  ("reason",
                   PStr "Database unavailable - approved by fallback (90% chance)");
                  ("timestamp", PStr "2025-01-01T12:00:00.000000");
                  ("kiosk_id", PStr "K1") ], 200),
     MkState 2%nat []).
Proof.
  exact (proj1 (proj2 (proj2 (Server.unencodable_phone_falls_back
                  PROJECT DATABASE API_KEY CUSTOMERS ENDPOINT
                  Demo.World Demo.backend_up Demo.random_half Demo.now_noon
                  Demo.encode_error_text
                  [ ("kiosk_id", PStr "K1"); ("user_id", PStr Demo.lone_surrogate);
                    ("pin", PStr "4455") ]
                  Demo.lone_surrogate Demo.state0 eq_refl eq_refl eq_refl)))).
Defined.

(** X15 with a backend for which [urlopen] raises the HTTPError of a
    404, and with the backend holding the customer. *)
Lemma appwrite_status_check_witness :
  Server.make_appwrite_request PROJECT API_KEY ENDPOINT
    Demo.World Demo.backend_not_found Demo.json_dumps_null Demo.str_of_value_none
    "GET" "/v1/databases/db/collections" PNone Demo.state0
  = (inl (Raise "HTTPError" "HTTP Error 404: Not Found"),
     MkState 0%nat
       [ Request "GET" "http://192.168.1.126/v1/v1/databases/db/collections"
           [ ("X-Appwrite-Project", PROJECT); ("X-Appwrite-Key", API_KEY);
             ("Content-Type", "application/json"%string) ]
           None 10 ]) /\
  exists r,
    Server.urlopen Demo.World Demo.backend_up
      (Server.appwrite_request PROJECT API_KEY ENDPOINT Demo.json_dumps_null
         "GET" "/v1/databases/db/collections" PNone) Demo.state0
    = (inr r,
       MkState 0%nat
         [ Request "GET" "http://192.168.1.126/v1/v1/databases/db/collections"
             [ ("X-Appwrite-Project", PROJECT); ("X-Appwrite-Key", API_KEY);
               ("Content-Type", "application/json"%string) ]
             None 10 ]) /\
    reply_status r = 200.
Proof.
  split.
  - exact (proj1 (Server.appwrite_status_check
                    PROJECT API_KEY ENDPOINT
                    Demo.World Demo.backend_not_found
                    Demo.json_dumps_null Demo.str_of_value_none
                    "GET" "/v1/databases/db/collections" PNone Demo.state0
                    (MkState 0%nat
                       [ Request "GET" "http://192.168.1.126/v1/v1/databases/db/collections"
                           [ ("X-Appwrite-Project", PROJECT); ("X-Appwrite-Key", API_KEY);
                             ("Content-Type", "application/json"%string) ]
                           None 10 ]))
             (Raise "HTTPError" "HTTP Error 404: Not Found") eq_refl).
  - assert (Hstock : forall req w r w',
               Demo.backend_up req w = (inr r, w') -> 200 <= reply_status r < 300).
    { intros req w r w'. unfold Demo.backend_up.
      destruct (Str.contains _ (req_url req)); intros [= <- _]; cbn; lia. }
    destruct (proj2 (proj2 (proj2 (Server.appwrite_status_check
                       PROJECT API_KEY ENDPOINT
                       Demo.World Demo.backend_up
                       Demo.json_dumps_null Demo.str_of_value_none
                       "GET" "/v1/databases/db/collections" PNone Demo.state0
                       (MkState 0%nat
                          [ Request "GET" "http://192.168.1.126/v1/v1/databases/db/collections"
                              [ ("X-Appwrite-Project", PROJECT); ("X-Appwrite-Key", API_KEY);
                                ("Content-Type", "application/json"%string) ]
                              None 10 ]))) Hstock)
                _ eq_refl) as (r & Hr & Hres).
    exists r. split; [exact Hr|].
    vm_compute in Hr. injection Hr as <-. reflexivity.
Defined.

(** X21 with a backend that answers 201 and the stored document. *)
Lemma create_sends_post_and_succeeds_witness :
  demo_create Demo.backend_created (PDict Demo.create_request_body) Demo.state0
  = (inr (PDict [ ("type", PStr "create_response");
                  ("request_id", PStr "req-7");
                  ("success", PBool true);
                  ("data", PDict [ ("$id", PStr "doc-1"); ("credits", PInt 5) ]);
                  ("timestamp", PStr "2025-01-01T12:00:00.000000") ], 200),
     MkState 1%nat
       [ Server.create_request PROJECT DATABASE API_KEY ENDPOINT
           Demo.json_dumps_null Demo.str_of_value_none Demo.create_request_body ]).
Proof.
  refine (proj1 (Server.create_sends_post_and_succeeds
                   PROJECT DATABASE API_KEY ENDPOINT
                   Demo.World Demo.backend_created Demo.now_noon
                   Demo.json_dumps_null Demo.str_of_value_none
                   Demo.create_request_body Demo.state0
                   (HttpReply 201 (PDict [ ("$id", PStr "doc-1"); ("credits", PInt 5) ]))
                   [ ("$id", PStr "doc-1"); ("credits", PInt 5) ] (PStr "doc-1")
                   eq_refl eq_refl eq_refl _ eq_refl eq_refl)).
  cbn. lia.
Defined.

(** X22 with a backend that answers 201 and an object without ['$id']. *)
Lemma create_reply_without_id_fails_witness :
  demo_create Demo.backend_created_bare (PDict Demo.create_request_body) Demo.state0
  = (inr (PDict [ ("type", PStr "create_response");
                  ("request_id", PStr "req-7");
                  ("success", PBool false);
                  ("error", PStr "'$id'");
                  ("timestamp", PStr "2025-01-01T12:00:00.000000") ], 500),
     MkState 2%nat
       [ Server.create_request PROJECT DATABASE API_KEY ENDPOINT
           Demo.json_dumps_null Demo.str_of_value_none Demo.create_request_body ]).
Proof.
  refine (proj1 (Server.create_reply_without_id_fails
                   PROJECT DATABASE API_KEY ENDPOINT
                   Demo.World Demo.backend_created_bare Demo.now_noon
                   Demo.json_dumps_null Demo.str_of_value_none
                   Demo.create_request_body Demo.state0
                   (HttpReply 201 (PDict [ ("credits", PInt 5) ]))
                   [ ("credits", PInt 5) ]
                   eq_refl eq_refl eq_refl _ eq_refl eq_refl)).
  cbn. lia.
Defined.

(** X23 with a backend that answers 201. *)
Lemma update_envelopes_witness :
  demo_update Demo.backend_created (PDict Demo.update_request_body) Demo.state0
  = (inr (PDict [ ("type", PStr "update_response");
                  ("request_id", PStr "req-8");
                  ("success", PBool true);
                  ("data", PDict [ ("$id", PStr "doc-1"); ("credits", PInt 5) ]);
                  ("timestamp", PStr "2025-01-01T12:00:00.000000") ], 200),
     MkState 1%nat
       [ Server.update_request PROJECT DATABASE API_KEY ENDPOINT
           Demo.json_dumps_null Demo.str_of_value_none Demo.update_request_body ]).
Proof.
  refine (proj1 (Server.update_envelopes
                   PROJECT DATABASE API_KEY ENDPOINT
                   Demo.World Demo.backend_created Demo.now_noon
                   Demo.json_dumps_null Demo.str_of_value_none
                   Demo.update_request_body Demo.state0 eq_refl)
            (HttpReply 201 (PDict [ ("$id", PStr "doc-1"); ("credits", PInt 5) ]))
            eq_refl _).
  cbn. lia.
Defined.

(** X25 with a backend that lists two collections. *)
Lemma test_database_success_witness :
  demo_test_database Demo.backend_collections Demo.state0
  = (inr (PDict [ ("status", PStr "DATABASE_SUCCESS");
                  ("message", PStr "Database connection working via HTTP!");
                  ("collections_found", PInt 2);
                  ("collection_names", PList [ PStr "customers"; PStr "kiosks" ]);
                  ("timestamp", PStr "2025-01-01T12:00:00.000000") ], 200),
     MkState 1%nat
       [ Server.collections_request PROJECT DATABASE API_KEY ENDPOINT ]).
Proof.
  refine (Server.test_database_success
            PROJECT DATABASE API_KEY ENDPOINT
            Demo.World Demo.backend_collections Demo.now_noon
            Demo.state0
            (HttpReply 200
               (PDict [ ("total", PInt 2);
                        ("collections",
                         PList [ PDict [ ("$id", PStr "c1"); ("name", PStr "customers") ];
                                 PDict [ ("$id", PStr "c2"); ("name", PStr "kiosks") ] ]) ]))
            [ ("total", PInt 2);
              ("collections",
               PList [ PDict [ ("$id", PStr "c1"); ("name", PStr "customers") ];
                       PDict [ ("$id", PStr "c2"); ("name", PStr "kiosks") ] ]) ]
            (PInt 2)
            [ [ ("$id", PStr "c1"); ("name", PStr "customers") ];
              [ ("$id", PStr "c2"); ("name", PStr "kiosks") ] ]
            eq_refl eq_refl eq_refl eq_refl _).
  repeat constructor; discriminate.
Defined.
